(** * ftsb: the benchmark runner and the RediSearch command processor

    A shallow embedding of the load-generation engine of ftsb
    (package [load] / [benchmark_runner], and [cmd/ftsb_redisearch]) and
    the properties of its measurement path.

    Go data is modelled as follows.
    - [int64], [uint64], [int] and [uint] are [Z] with the wrap-around of a
      64-bit target (the released binaries are amd64 and arm64) written out.
    - [float64] is [spec_float] at precision 53 and maximal exponent 1024,
      the IEEE 754 binary64 format of the Standard Library.
    - [time.Time] carries a wall-clock and a monotonic reading, both in
      nanoseconds; [Sub] is taken on the monotonic one, [Unix] on the wall
      clock.
    - [map[string]interface{}] with values of one type is a [gmap string].
    - goroutines that hand work over buffered channels large enough never
      to block are run to completion in program order. *)

From Stdlib Require Import ZArith List Bool Ascii String Lia.
From Stdlib Require Import Floats.SpecFloat.
From Stdlib Require Import Sorting.Sorted Sorting.Permutation.
From stdpp Require Import base gmap strings list sorting.

Open Scope string_scope.
Open Scope list_scope.
Open Scope Z_scope.

(* ===================================================================== *)
(** ** Go machine integers *)

Module GoInt.

Definition two63 : Z := 2 ^ 63.
Definition two64 : Z := 2 ^ 64.
Definition maxInt64 : Z := two63 - 1.
Definition minInt64 : Z := - two63.

(** Conversion to [uint64] (and to [uint] on a 64-bit target). *)
Definition uint64 (z : Z) : Z := z mod two64.

(** Conversion to [int64] (and to [int] on a 64-bit target). *)
Definition int64 (z : Z) : Z := (z + two63) mod two64 - two63.

(** [len] of a slice, an [int]. *)
Definition len {A} (l : list A) : Z := Z.of_nat (length l).

End GoInt.

(* ===================================================================== *)
(** ** float64 *)

Module Float64.

Definition float64 : Type := spec_float.

Definition prec : Z := 53.
Definition emax : Z := 1024.

(** [float64(n)] for an integer [n]: rounded to nearest, ties to even. *)
Definition of_int (n : Z) : float64 := binary_normalize prec emax n 0 false.

Definition div (x y : float64) : float64 := SFdiv prec emax x y.
Definition add (x y : float64) : float64 := SFadd prec emax x y.

(** [math.IsNaN]. *)
Definition IsNaN (x : float64) : bool :=
  match x with S754_nan => true | _ => false end.

(** The constant [-1.0]. *)
Definition minus_one : float64 := SFopp (of_int 1).

(** [math.Ceil] followed by the conversion [int(...)]. A finite float is
    [m * 2^e]; NaN and the infinities convert to the least [int64], as
    the conversion instruction of amd64 does. *)
Definition ceil_to_int (x : float64) : Z :=
  match x with
  | S754_zero _ => 0
  | S754_finite s m e =>
      let v := if s then Z.neg m else Z.pos m in
      if 0 <=? e then GoInt.int64 (v * 2 ^ e)
      else - ((- v) / 2 ^ (- e))
  | _ => GoInt.minInt64
  end.

End Float64.

(* ===================================================================== *)
(** ** time.Time and time.Duration *)

Module GoTime.

(** A [time.Time] as [time.Now] and a ticker deliver it: [wall] is the
    wall-clock reading in nanoseconds since the Unix epoch, [mono] the
    monotonic reading in nanoseconds. *)
Record Time := { wall : Z; mono : Z }.

(** [t.Sub(u)], a [Duration] in nanoseconds: the difference of the
    monotonic readings, saturated to the range of [int64]. *)
Definition Sub (t u : Time) : Z :=
  let d := mono t - mono u in
  if GoInt.maxInt64 <? d then GoInt.maxInt64
  else if d <? GoInt.minInt64 then GoInt.minInt64
  else d.

(** [d.Microseconds()]: integer division truncating toward zero. *)
Definition Microseconds (d : Z) : Z := Z.quot d 1000.

(** [d.Seconds()]:
    [sec := d / Second; nsec := d % Second;
     return float64(sec) + float64(nsec)/1e9]. *)
Definition Seconds (d : Z) : Float64.float64 :=
  let sec := Z.quot d 1000000000 in
  let nsec := Z.rem d 1000000000 in
  Float64.add (Float64.of_int sec)
              (Float64.div (Float64.of_int nsec) (Float64.of_int 1000000000)).

(** [t.Unix()]: whole seconds since the epoch. *)
Definition Unix (t : Time) : Z := wall t / 1000000000.

End GoTime.

(* ===================================================================== *)
(** ** The latency histogram (github.com/filipecosta90/hdrhistogram) *)

Module Hdr.

(** What the histogram library decides and this development does not
    look into: which values [RecordValue] accepts for the histogram
    [New(1, 1000000, 3)], and the value found at a quantile. *)
Class Library := {
  trackable : Z -> bool;
  valueAt : list Z -> Float64.float64 -> Z
}.

(** A histogram is known by the values recorded into it, newest first. *)
Record Histogram := { recorded : list Z }.

(** [hdrhistogram.New(1, 1000000, 3)]. *)
Definition New : Histogram := {| recorded := [] |}.

(** [h.RecordValue(v)]: counts [v], or returns an error and leaves the
    histogram as it is. Every caller discards the error. *)
Definition RecordValue `{Library} (v : Z) (h : Histogram) : Histogram :=
  if trackable v then {| recorded := v :: recorded h |} else h.

(** [h.TotalCount()], an [int64]. *)
Definition TotalCount (h : Histogram) : Z := GoInt.len (recorded h).

(** [h.ValueAtQuantile(q)]. *)
Definition ValueAtQuantile `{Library} (h : Histogram) (q : Float64.float64) : Z :=
  valueAt (recorded h) q.

(** [h.Reset()]. *)
Definition Reset (h : Histogram) : Histogram := New.

End Hdr.

(* ===================================================================== *)
(** ** Stat and CmdStat *)

Module Stats.

(** Modelled from the spec: the declaration of [CmdStat] is not among the
    sources. An observation of one dispatched command: category label,
    identifier, latency in microseconds, transmitted and received byte
    counts, and the is-update and is-delete flags. *)
Record CmdStat := {
  Label : string;
  Id : string;
  Latency : Z;
  isUpdate : bool;
  isDelete : bool;
  Tx : Z;
  Rx : Z
}.

(** Modelled from the spec: the declaration of [Stat] is not among the
    sources. A [Stat] aggregates zero or more CmdStats. *)
Record Stat := { CmdStats : list CmdStat }.

(** [NewStat()]. *)
Definition NewStat : Stat := {| CmdStats := [] |}.

(** [s.AddEntry(label, id, latency, isUpdate, isDelete, tx, rx)]. *)
Definition AddEntry (s : Stat) (label id : string) (latency : Z)
    (upd del : bool) (tx rx : Z) : Stat :=
  {| CmdStats := CmdStats s ++
       [{| Label := label; Id := id; Latency := latency;
           isUpdate := upd; isDelete := del; Tx := tx; Rx := rx |}] |}.

(** [s.Merge(other)]. *)
Definition Merge (s other : Stat) : Stat :=
  {| CmdStats := CmdStats s ++ CmdStats other |}.

End Stats.


(* ===================================================================== *)
(** ** The benchmark runner (package load) *)

Module Load.

(** Modelled from the spec: the declaration of [DataPoint] is not among
    the sources. [{timestampSeconds, map[quantileLabel -> value]}], with
    the observed rate under the key ["rate"]. *)
Record DataPoint := {
  Timestamp : Z;
  Map : gmap string Float64.float64
}.

(** The measurement state of [BenchmarkRunner], field for field, with the
    two flag fields the functions below read. The reader, the file names
    and the start and end times play no part in them. *)
Record BenchmarkRunner := mkRunner {
  workers : Z;
  doLoad : bool;
  setupWriteHistogram : Hdr.Histogram;
  inst_setupWriteHistogram : Hdr.Histogram;
  setupWriteTs : list DataPoint;
  writeHistogram : Hdr.Histogram;
  inst_writeHistogram : Hdr.Histogram;
  writeTs : list DataPoint;
  updateHistogram : Hdr.Histogram;
  inst_updateHistogram : Hdr.Histogram;
  updateTs : list DataPoint;
  readHistogram : Hdr.Histogram;
  inst_readHistogram : Hdr.Histogram;
  readTs : list DataPoint;
  readCursorHistogram : Hdr.Histogram;
  inst_readCursorHistogram : Hdr.Histogram;
  readCursorTs : list DataPoint;
  deleteHistogram : Hdr.Histogram;
  inst_deleteHistogram : Hdr.Histogram;
  deleteTs : list DataPoint;
  totalHistogram : Hdr.Histogram;
  inst_totalHistogram : Hdr.Histogram;
  totalTs : list DataPoint;
  txTotalBytes : Z;
  rxTotalBytes : Z
}.

(** [loader], the singleton the program starts from: every histogram is
    [hdrhistogram.New(1, 1000000, 3)], every series is empty. *)
Definition loader (nworkers : Z) (load : bool) : BenchmarkRunner :=
  mkRunner nworkers load
    Hdr.New Hdr.New [] Hdr.New Hdr.New [] Hdr.New Hdr.New []
    Hdr.New Hdr.New [] Hdr.New Hdr.New [] Hdr.New Hdr.New []
    Hdr.New Hdr.New [] 0 0.

(** Assignment to one field of the runner, the others kept: the pattern
    binds the fields in the order of their declaration. *)

Definition set_setupWriteHistogram (f : Hdr.Histogram -> Hdr.Histogram) (l :
    BenchmarkRunner) : BenchmarkRunner :=
  let 'mkRunner x0 x1 x2 x3 x4 x5 x6 x7 x8 x9 x10 x11 x12 x13 x14 x15 x16
    x17 x18 x19 x20 x21 x22 x23 x24 := l in
  mkRunner x0 x1 (f x2) x3 x4 x5 x6 x7 x8 x9 x10 x11 x12 x13 x14 x15 x16 x17
    x18 x19 x20 x21 x22 x23 x24.

Definition set_inst_setupWriteHistogram (f : Hdr.Histogram -> Hdr.Histogram)
    (l : BenchmarkRunner) : BenchmarkRunner :=
  let 'mkRunner x0 x1 x2 x3 x4 x5 x6 x7 x8 x9 x10 x11 x12 x13 x14 x15 x16
    x17 x18 x19 x20 x21 x22 x23 x24 := l in
  mkRunner x0 x1 x2 (f x3) x4 x5 x6 x7 x8 x9 x10 x11 x12 x13 x14 x15 x16 x17
    x18 x19 x20 x21 x22 x23 x24.

Definition set_setupWriteTs (f : list DataPoint -> list DataPoint) (l :
    BenchmarkRunner) : BenchmarkRunner :=
  let 'mkRunner x0 x1 x2 x3 x4 x5 x6 x7 x8 x9 x10 x11 x12 x13 x14 x15 x16
    x17 x18 x19 x20 x21 x22 x23 x24 := l in
  mkRunner x0 x1 x2 x3 (f x4) x5 x6 x7 x8 x9 x10 x11 x12 x13 x14 x15 x16 x17
    x18 x19 x20 x21 x22 x23 x24.

Definition set_writeHistogram (f : Hdr.Histogram -> Hdr.Histogram) (l :
    BenchmarkRunner) : BenchmarkRunner :=
  let 'mkRunner x0 x1 x2 x3 x4 x5 x6 x7 x8 x9 x10 x11 x12 x13 x14 x15 x16
    x17 x18 x19 x20 x21 x22 x23 x24 := l in
  mkRunner x0 x1 x2 x3 x4 (f x5) x6 x7 x8 x9 x10 x11 x12 x13 x14 x15 x16 x17
    x18 x19 x20 x21 x22 x23 x24.

Definition set_inst_writeHistogram (f : Hdr.Histogram -> Hdr.Histogram) (l :
    BenchmarkRunner) : BenchmarkRunner :=
  let 'mkRunner x0 x1 x2 x3 x4 x5 x6 x7 x8 x9 x10 x11 x12 x13 x14 x15 x16
    x17 x18 x19 x20 x21 x22 x23 x24 := l in
  mkRunner x0 x1 x2 x3 x4 x5 (f x6) x7 x8 x9 x10 x11 x12 x13 x14 x15 x16 x17
    x18 x19 x20 x21 x22 x23 x24.

Definition set_writeTs (f : list DataPoint -> list DataPoint) (l :
    BenchmarkRunner) : BenchmarkRunner :=
  let 'mkRunner x0 x1 x2 x3 x4 x5 x6 x7 x8 x9 x10 x11 x12 x13 x14 x15 x16
    x17 x18 x19 x20 x21 x22 x23 x24 := l in
  mkRunner x0 x1 x2 x3 x4 x5 x6 (f x7) x8 x9 x10 x11 x12 x13 x14 x15 x16 x17
    x18 x19 x20 x21 x22 x23 x24.

Definition set_updateHistogram (f : Hdr.Histogram -> Hdr.Histogram) (l :
    BenchmarkRunner) : BenchmarkRunner :=
  let 'mkRunner x0 x1 x2 x3 x4 x5 x6 x7 x8 x9 x10 x11 x12 x13 x14 x15 x16
    x17 x18 x19 x20 x21 x22 x23 x24 := l in
  mkRunner x0 x1 x2 x3 x4 x5 x6 x7 (f x8) x9 x10 x11 x12 x13 x14 x15 x16 x17
    x18 x19 x20 x21 x22 x23 x24.

Definition set_inst_updateHistogram (f : Hdr.Histogram -> Hdr.Histogram) (l
    : BenchmarkRunner) : BenchmarkRunner :=
  let 'mkRunner x0 x1 x2 x3 x4 x5 x6 x7 x8 x9 x10 x11 x12 x13 x14 x15 x16
    x17 x18 x19 x20 x21 x22 x23 x24 := l in
  mkRunner x0 x1 x2 x3 x4 x5 x6 x7 x8 (f x9) x10 x11 x12 x13 x14 x15 x16 x17
    x18 x19 x20 x21 x22 x23 x24.

Definition set_updateTs (f : list DataPoint -> list DataPoint) (l :
    BenchmarkRunner) : BenchmarkRunner :=
  let 'mkRunner x0 x1 x2 x3 x4 x5 x6 x7 x8 x9 x10 x11 x12 x13 x14 x15 x16
    x17 x18 x19 x20 x21 x22 x23 x24 := l in
  mkRunner x0 x1 x2 x3 x4 x5 x6 x7 x8 x9 (f x10) x11 x12 x13 x14 x15 x16 x17
    x18 x19 x20 x21 x22 x23 x24.

Definition set_readHistogram (f : Hdr.Histogram -> Hdr.Histogram) (l :
    BenchmarkRunner) : BenchmarkRunner :=
  let 'mkRunner x0 x1 x2 x3 x4 x5 x6 x7 x8 x9 x10 x11 x12 x13 x14 x15 x16
    x17 x18 x19 x20 x21 x22 x23 x24 := l in
  mkRunner x0 x1 x2 x3 x4 x5 x6 x7 x8 x9 x10 (f x11) x12 x13 x14 x15 x16 x17
    x18 x19 x20 x21 x22 x23 x24.

Definition set_inst_readHistogram (f : Hdr.Histogram -> Hdr.Histogram) (l :
    BenchmarkRunner) : BenchmarkRunner :=
  let 'mkRunner x0 x1 x2 x3 x4 x5 x6 x7 x8 x9 x10 x11 x12 x13 x14 x15 x16
    x17 x18 x19 x20 x21 x22 x23 x24 := l in
  mkRunner x0 x1 x2 x3 x4 x5 x6 x7 x8 x9 x10 x11 (f x12) x13 x14 x15 x16 x17
    x18 x19 x20 x21 x22 x23 x24.

Definition set_readTs (f : list DataPoint -> list DataPoint) (l :
    BenchmarkRunner) : BenchmarkRunner :=
  let 'mkRunner x0 x1 x2 x3 x4 x5 x6 x7 x8 x9 x10 x11 x12 x13 x14 x15 x16
    x17 x18 x19 x20 x21 x22 x23 x24 := l in
  mkRunner x0 x1 x2 x3 x4 x5 x6 x7 x8 x9 x10 x11 x12 (f x13) x14 x15 x16 x17
    x18 x19 x20 x21 x22 x23 x24.

Definition set_readCursorHistogram (f : Hdr.Histogram -> Hdr.Histogram) (l :
    BenchmarkRunner) : BenchmarkRunner :=
  let 'mkRunner x0 x1 x2 x3 x4 x5 x6 x7 x8 x9 x10 x11 x12 x13 x14 x15 x16
    x17 x18 x19 x20 x21 x22 x23 x24 := l in
  mkRunner x0 x1 x2 x3 x4 x5 x6 x7 x8 x9 x10 x11 x12 x13 (f x14) x15 x16 x17
    x18 x19 x20 x21 x22 x23 x24.

Definition set_inst_readCursorHistogram (f : Hdr.Histogram -> Hdr.Histogram)
    (l : BenchmarkRunner) : BenchmarkRunner :=
  let 'mkRunner x0 x1 x2 x3 x4 x5 x6 x7 x8 x9 x10 x11 x12 x13 x14 x15 x16
    x17 x18 x19 x20 x21 x22 x23 x24 := l in
  mkRunner x0 x1 x2 x3 x4 x5 x6 x7 x8 x9 x10 x11 x12 x13 x14 (f x15) x16 x17
    x18 x19 x20 x21 x22 x23 x24.

Definition set_readCursorTs (f : list DataPoint -> list DataPoint) (l :
    BenchmarkRunner) : BenchmarkRunner :=
  let 'mkRunner x0 x1 x2 x3 x4 x5 x6 x7 x8 x9 x10 x11 x12 x13 x14 x15 x16
    x17 x18 x19 x20 x21 x22 x23 x24 := l in
  mkRunner x0 x1 x2 x3 x4 x5 x6 x7 x8 x9 x10 x11 x12 x13 x14 x15 (f x16) x17
    x18 x19 x20 x21 x22 x23 x24.

Definition set_deleteHistogram (f : Hdr.Histogram -> Hdr.Histogram) (l :
    BenchmarkRunner) : BenchmarkRunner :=
  let 'mkRunner x0 x1 x2 x3 x4 x5 x6 x7 x8 x9 x10 x11 x12 x13 x14 x15 x16
    x17 x18 x19 x20 x21 x22 x23 x24 := l in
  mkRunner x0 x1 x2 x3 x4 x5 x6 x7 x8 x9 x10 x11 x12 x13 x14 x15 x16 (f x17)
    x18 x19 x20 x21 x22 x23 x24.

Definition set_inst_deleteHistogram (f : Hdr.Histogram -> Hdr.Histogram) (l
    : BenchmarkRunner) : BenchmarkRunner :=
  let 'mkRunner x0 x1 x2 x3 x4 x5 x6 x7 x8 x9 x10 x11 x12 x13 x14 x15 x16
    x17 x18 x19 x20 x21 x22 x23 x24 := l in
  mkRunner x0 x1 x2 x3 x4 x5 x6 x7 x8 x9 x10 x11 x12 x13 x14 x15 x16 x17 (f
    x18) x19 x20 x21 x22 x23 x24.

Definition set_deleteTs (f : list DataPoint -> list DataPoint) (l :
    BenchmarkRunner) : BenchmarkRunner :=
  let 'mkRunner x0 x1 x2 x3 x4 x5 x6 x7 x8 x9 x10 x11 x12 x13 x14 x15 x16
    x17 x18 x19 x20 x21 x22 x23 x24 := l in
  mkRunner x0 x1 x2 x3 x4 x5 x6 x7 x8 x9 x10 x11 x12 x13 x14 x15 x16 x17 x18
    (f x19) x20 x21 x22 x23 x24.

Definition set_totalHistogram (f : Hdr.Histogram -> Hdr.Histogram) (l :
    BenchmarkRunner) : BenchmarkRunner :=
  let 'mkRunner x0 x1 x2 x3 x4 x5 x6 x7 x8 x9 x10 x11 x12 x13 x14 x15 x16
    x17 x18 x19 x20 x21 x22 x23 x24 := l in
  mkRunner x0 x1 x2 x3 x4 x5 x6 x7 x8 x9 x10 x11 x12 x13 x14 x15 x16 x17 x18
    x19 (f x20) x21 x22 x23 x24.

Definition set_inst_totalHistogram (f : Hdr.Histogram -> Hdr.Histogram) (l :
    BenchmarkRunner) : BenchmarkRunner :=
  let 'mkRunner x0 x1 x2 x3 x4 x5 x6 x7 x8 x9 x10 x11 x12 x13 x14 x15 x16
    x17 x18 x19 x20 x21 x22 x23 x24 := l in
  mkRunner x0 x1 x2 x3 x4 x5 x6 x7 x8 x9 x10 x11 x12 x13 x14 x15 x16 x17 x18
    x19 x20 (f x21) x22 x23 x24.

Definition set_txTotalBytes (f : Z -> Z) (l : BenchmarkRunner) :
    BenchmarkRunner :=
  let 'mkRunner x0 x1 x2 x3 x4 x5 x6 x7 x8 x9 x10 x11 x12 x13 x14 x15 x16
    x17 x18 x19 x20 x21 x22 x23 x24 := l in
  mkRunner x0 x1 x2 x3 x4 x5 x6 x7 x8 x9 x10 x11 x12 x13 x14 x15 x16 x17 x18
    x19 x20 x21 x22 (f x23) x24.

Definition set_rxTotalBytes (f : Z -> Z) (l : BenchmarkRunner) :
    BenchmarkRunner :=
  let 'mkRunner x0 x1 x2 x3 x4 x5 x6 x7 x8 x9 x10 x11 x12 x13 x14 x15 x16
    x17 x18 x19 x20 x21 x22 x23 x24 := l in
  mkRunner x0 x1 x2 x3 x4 x5 x6 x7 x8 x9 x10 x11 x12 x13 x14 x15 x16 x17 x18
    x19 x20 x21 x22 x23 (f x24).

(** *** The worker loop *)

(** The [Processor] interface, as [work] uses it: [ProcessBatch] turns a
    batch into a [Stat], and may change the state [S] the processor keeps
    (connections, the target, the batch pool). [None] stands for a call
    inside which the process ends, by a fatal log or a run-time panic. *)
Class Processor (B S : Type) := {
  ProcessBatch : S -> B -> bool -> option (Stats.Stat * S)
}.

(** The body of the loop over [cmdStats] in [work]: the latency is
    recorded into the two global histograms, the byte counts are added to
    the two counters with [atomic.AddUint64], and the label selects the
    pair of histograms of its category; [switch] has no default case. *)
Definition recordCmdStat `{Hdr.Library} (l : BenchmarkRunner)
    (cmdStat : Stats.CmdStat) : BenchmarkRunner :=
  let v := GoInt.int64 (Stats.Latency cmdStat) in
  let l := set_totalHistogram (Hdr.RecordValue v) l in
  let l := set_inst_totalHistogram (Hdr.RecordValue v) l in
  let l := set_txTotalBytes (fun n => GoInt.uint64 (n + Stats.Tx cmdStat)) l in
  let l := set_rxTotalBytes (fun n => GoInt.uint64 (n + Stats.Rx cmdStat)) l in
  let labelStr := Stats.Label cmdStat in
  if String.eqb labelStr "SETUP_WRITE" then
    let l := set_setupWriteHistogram (Hdr.RecordValue v) l in
    set_inst_setupWriteHistogram (Hdr.RecordValue v) l
  else if String.eqb labelStr "WRITE" then
    let l := set_writeHistogram (Hdr.RecordValue v) l in
    set_inst_writeHistogram (Hdr.RecordValue v) l
  else if String.eqb labelStr "UPDATE" then
    let l := set_updateHistogram (Hdr.RecordValue v) l in
    set_inst_updateHistogram (Hdr.RecordValue v) l
  else if String.eqb labelStr "READ" then
    let l := set_readHistogram (Hdr.RecordValue v) l in
    set_inst_readHistogram (Hdr.RecordValue v) l
  else if String.eqb labelStr "CURSOR_READ" then
    let l := set_readCursorHistogram (Hdr.RecordValue v) l in
    set_inst_readCursorHistogram (Hdr.RecordValue v) l
  else if String.eqb labelStr "DELETE" then
    let l := set_deleteHistogram (Hdr.RecordValue v) l in
    set_inst_deleteHistogram (Hdr.RecordValue v) l
  else l.

(** [for pos := 0; pos < len(cmdStats); pos++ { ... }]. *)
Definition recordCmdStats `{Hdr.Library} (l : BenchmarkRunner)
    (cmdStats : list Stats.CmdStat) : BenchmarkRunner :=
  fold_left recordCmdStat cmdStats l.

(** [work] over the batches its channel delivers before it is closed,
    between the [Init] and the [Close] of its processor. One turn of
    [for b := range c.toWorker] processes the batch, records its CmdStats
    and sends one acknowledgement to the scanner; the result holds the
    number of acknowledgements sent. *)
Fixpoint work `{Hdr.Library} {B S} `{Processor B S} (l : BenchmarkRunner)
    (proc : S) (acks : Z) (batches : list B) : option (BenchmarkRunner * S * Z) :=
  match batches with
  | [] => Some (l, proc, acks)
  | b :: rest =>
      match ProcessBatch proc b (doLoad l) with
      | None => None
      | Some (stats, proc) =>
          work (recordCmdStats l (Stats.CmdStats stats)) proc (acks + 1) rest
      end
  end.

(** *** Totals and ratios *)

Definition GetTotalsMap (b : BenchmarkRunner) : gmap string Z :=
  let configs : gmap string Z := ∅ in
  let configs := <["TotalOps" := Hdr.TotalCount (totalHistogram b)]> configs in
  let configs := <["SetupWrites" := Hdr.TotalCount (setupWriteHistogram b)]> configs in
  let configs := <["Writes" := Hdr.TotalCount (writeHistogram b)]> configs in
  let configs := <["Reads" := Hdr.TotalCount (readHistogram b)]> configs in
  let configs := <["ReadsCursor" := Hdr.TotalCount (readCursorHistogram b)]> configs in
  let configs := <["Updates" := Hdr.TotalCount (updateHistogram b)]> configs in
  let configs := <["Deletes" := Hdr.TotalCount (deleteHistogram b)]> configs in
  let configs := <["TxBytes" := txTotalBytes b]> configs in
  let configs := <["RxBytes" := rxTotalBytes b]> configs in
  configs.

Definition GetMeasuredRatiosMap (b : BenchmarkRunner) : gmap string Float64.float64 :=
  let configs : gmap string Float64.float64 := ∅ in
  let totalOps := Hdr.TotalCount (totalHistogram b) in
  let writeRatio :=
    Float64.div
      (Float64.of_int (GoInt.int64 (Hdr.TotalCount (writeHistogram b)
                                    + Hdr.TotalCount (setupWriteHistogram b))))
      (Float64.of_int totalOps) in
  let readRatio :=
    Float64.div
      (Float64.of_int (GoInt.int64 (Hdr.TotalCount (readHistogram b)
                                    + Hdr.TotalCount (readCursorHistogram b))))
      (Float64.of_int totalOps) in
  let updateRatio :=
    Float64.div (Float64.of_int (Hdr.TotalCount (updateHistogram b)))
                (Float64.of_int totalOps) in
  let deleteRatio :=
    Float64.div (Float64.of_int (Hdr.TotalCount (deleteHistogram b)))
                (Float64.of_int totalOps) in
  let configs := <["MeasuredWriteRatio" := writeRatio]> configs in
  let configs := <["MeasuredReadRatio" := readRatio]> configs in
  let configs := <["MeasuredUpdateRatio" := updateRatio]> configs in
  let configs := <["MeasuredDeleteRatio" := deleteRatio]> configs in
  configs.

(** [wrapNaN]: "protect against NaN on json". No function among the
    sources calls it. *)
Definition wrapNaN (input : Float64.float64) : Float64.float64 :=
  let output := input in
  if Float64.IsNaN output then Float64.minus_one else output.

(** *** Time series *)

(** Modelled from the spec: the declaration of [ByTimestamp] is not among
    the sources; it orders DataPoints by timestamp. [Less(i, j)]. *)
Definition ByTimestamp_Less (a b : DataPoint) : bool :=
  Timestamp a <? Timestamp b.

(** [sort.Sort] on a short slice is an insertion sort: each element moves
    left past the elements it is [Less] than. On a long slice the library
    may order DataPoints of equal timestamp differently. *)
Fixpoint insertByTimestamp (x : DataPoint) (sorted : list DataPoint) : list DataPoint :=
  match sorted with
  | [] => [x]
  | y :: rest =>
      if ByTimestamp_Less x y then x :: y :: rest
      else y :: insertByTimestamp x rest
  end.

Definition sortByTimestamp (data : list DataPoint) : list DataPoint :=
  fold_left (fun sorted x => insertByTimestamp x sorted) data [].

(** [GetTimeSeriesMap] sorts the six slices where they are, so the runner
    changes with it. *)
Definition GetTimeSeriesMap (b : BenchmarkRunner)
    : gmap string (list DataPoint) * BenchmarkRunner :=
  let configs : gmap string (list DataPoint) := ∅ in
  let b := set_setupWriteTs sortByTimestamp b in
  let b := set_writeTs sortByTimestamp b in
  let b := set_readTs sortByTimestamp b in
  let b := set_readCursorTs sortByTimestamp b in
  let b := set_updateTs sortByTimestamp b in
  let b := set_deleteTs sortByTimestamp b in
  let configs := <["setupWriteTs" := setupWriteTs b]> configs in
  let configs := <["writeTs" := writeTs b]> configs in
  let configs := <["readTs" := readTs b]> configs in
  let configs := <["readCursorTs" := readCursorTs b]> configs in
  let configs := <["updateTs" := updateTs b]> configs in
  let configs := <["deleteTs" := deleteTs b]> configs in
  (configs, b).

(** *** Periodic reporting *)

Definition calculateRateMetrics (current prev took : Z) : Float64.float64 :=
  Float64.div (Float64.of_int (GoInt.int64 (current - prev))) (GoTime.Seconds took).

Definition generateQuantileMap `{Hdr.Library} (hist : Hdr.Histogram)
    : Z * gmap string Float64.float64 :=
  let ops := Hdr.TotalCount hist in
  let quantile q :=
    if 0 <? ops
    then Float64.div (Float64.of_int (Hdr.ValueAtQuantile hist (Float64.of_int q)))
                     (Float64.of_int 1000)
    else S754_zero false in
  let q50 := quantile 50 in
  let q95 := quantile 95 in
  let q99 := quantile 99 in
  (ops, <["q99" := q99]> (<["q95" := q95]> (<["q50" := q50]> ∅))).

Definition addRateMetricsDatapoints `{Hdr.Library} (datapoints : list DataPoint)
    (now : GoTime.Time) (timeframe : Z) (hist : Hdr.Histogram) : list DataPoint :=
  let '(ops, mp) := generateQuantileMap hist in
  let rate := Float64.div (Float64.of_int ops) (GoTime.Seconds timeframe) in
  let mp := <["rate" := rate]> mp in
  let datapoint := {| Timestamp := GoTime.Unix now; Map := mp |} in
  datapoints ++ [datapoint].

(** The local variables [report] carries from one tick to the next. *)
Record ReportLocals := {
  prevTime : GoTime.Time;
  prevWriteCount : Z;
  prevSetupWriteCount : Z;
  prevUpdateCount : Z;
  prevReadCursorCount : Z;
  prevReadCount : Z;
  prevDeleteCount : Z;
  prevTotalOps : Z;
  prevTxTotalBytes : Z;
  prevRxTotalBytes : Z
}.

(** [report] before its first tick. *)
Definition reportStart (start : GoTime.Time) : ReportLocals :=
  {| prevTime := start; prevWriteCount := 0; prevSetupWriteCount := 0;
     prevUpdateCount := 0; prevReadCursorCount := 0; prevReadCount := 0;
     prevDeleteCount := 0; prevTotalOps := 0; prevTxTotalBytes := 0;
     prevRxTotalBytes := 0 |}.

(** The numbers of one printed row, before they are formatted. *)
Record ReportRow := {
  row_setupWriteRate : Float64.float64;
  row_writeRate : Float64.float64;
  row_updateRate : Float64.float64;
  row_readRate : Float64.float64;
  row_readCursorRate : Float64.float64;
  row_deleteRate : Float64.float64;
  row_CurrentOpsRate : Float64.float64;
  row_totalOps : Z;
  row_overallTxByteRate : Float64.float64;
  row_overallRxByteRate : Float64.float64
}.

(** The body of [for now := range time.NewTicker(period).C] in [report],
    taken as one step on the runner: the rates of the row, one DataPoint on
    each of the six series, the new values of the locals, and the six calls
    of [Reset] that end it. *)
Definition reportTick `{Hdr.Library} (now : GoTime.Time)
    (st : ReportLocals * BenchmarkRunner)
    : ReportLocals * BenchmarkRunner * ReportRow :=
  let '(prev, l) := st in
  let took := GoTime.Sub now (prevTime prev) in
  let writeCount := Hdr.TotalCount (writeHistogram l) in
  let setupWriteCount := Hdr.TotalCount (setupWriteHistogram l) in
  let totalWriteCount := GoInt.int64 (writeCount + setupWriteCount) in
  let readCount := Hdr.TotalCount (readHistogram l) in
  let readCursorCount := Hdr.TotalCount (readCursorHistogram l) in
  let totalReadCount := GoInt.int64 (readCount + readCursorCount) in
  let updateCount := Hdr.TotalCount (updateHistogram l) in
  let deleteCount := Hdr.TotalCount (deleteHistogram l) in
  let totalOps :=
    GoInt.int64 (GoInt.int64 (GoInt.int64 (totalWriteCount + totalReadCount)
                              + updateCount) + deleteCount) in
  let txTotal := txTotalBytes l in
  let rxTotal := rxTotalBytes l in
  let row :=
    {| row_setupWriteRate := calculateRateMetrics setupWriteCount (prevSetupWriteCount prev) took;
       row_writeRate := calculateRateMetrics writeCount (prevWriteCount prev) took;
       row_updateRate := calculateRateMetrics updateCount (prevUpdateCount prev) took;
       row_readRate := calculateRateMetrics readCount (prevReadCount prev) took;
       row_readCursorRate := calculateRateMetrics readCursorCount (prevReadCursorCount prev) took;
       row_deleteRate := calculateRateMetrics deleteCount (prevDeleteCount prev) took;
       row_CurrentOpsRate := calculateRateMetrics totalOps (prevTotalOps prev) took;
       row_totalOps := totalOps;
       row_overallTxByteRate :=
         calculateRateMetrics (GoInt.int64 txTotal) (GoInt.int64 (prevTxTotalBytes prev)) took;
       row_overallRxByteRate :=
         calculateRateMetrics (GoInt.int64 rxTotal) (GoInt.int64 (prevRxTotalBytes prev)) took |} in
  let l := set_setupWriteTs
             (fun ts => addRateMetricsDatapoints ts now took (inst_setupWriteHistogram l)) l in
  let l := set_writeTs
             (fun ts => addRateMetricsDatapoints ts now took (inst_writeHistogram l)) l in
  let l := set_readTs
             (fun ts => addRateMetricsDatapoints ts now took (inst_readHistogram l)) l in
  let l := set_readCursorTs
             (fun ts => addRateMetricsDatapoints ts now took (inst_readCursorHistogram l)) l in
  let l := set_updateTs
             (fun ts => addRateMetricsDatapoints ts now took (inst_updateHistogram l)) l in
  let l := set_deleteTs
             (fun ts => addRateMetricsDatapoints ts now took (inst_deleteHistogram l)) l in
  let prev :=
    {| prevTime := now; prevWriteCount := writeCount;
       prevSetupWriteCount := setupWriteCount; prevUpdateCount := updateCount;
       prevReadCursorCount := readCursorCount; prevReadCount := readCount;
       prevDeleteCount := deleteCount; prevTotalOps := totalOps;
       prevTxTotalBytes := txTotal; prevRxTotalBytes := rxTotal |} in
  let l := set_inst_setupWriteHistogram Hdr.Reset l in
  let l := set_inst_writeHistogram Hdr.Reset l in
  let l := set_inst_readHistogram Hdr.Reset l in
  let l := set_inst_readCursorHistogram Hdr.Reset l in
  let l := set_inst_updateHistogram Hdr.Reset l in
  let l := set_inst_deleteHistogram Hdr.Reset l in
  (prev, l, row).

(** *** A run, as the runner sees it

    The workers and the reporter share the runner. A run is an
    interleaving of their steps on it: a worker records one CmdStat, or
    the ticker fires and the reporter runs one tick. *)
Inductive RunEvent :=
| Recorded (cmdStat : Stats.CmdStat)
| Ticked (now : GoTime.Time).

Definition runEvent `{Hdr.Library} (st : ReportLocals * BenchmarkRunner)
    (e : RunEvent) : ReportLocals * BenchmarkRunner :=
  match e with
  | Recorded cmdStat => (fst st, recordCmdStat (snd st) cmdStat)
  | Ticked now => fst (reportTick now st)
  end.

Definition runEvents `{Hdr.Library} (start : GoTime.Time) (l : BenchmarkRunner)
    (events : list RunEvent) : ReportLocals * BenchmarkRunner :=
  fold_left runEvent events (reportStart start, l).

(** *** The six categories

    The histograms and series of the runner come in groups of three, one
    group per category. These tables name the fields of a category; the
    functions above do not use them, the statements about them do. *)
Inductive Category :=
| SetupWrite | Write | Update | Read | CursorRead | Delete.

Definition labelOf (k : Category) : string :=
  match k with
  | SetupWrite => "SETUP_WRITE"
  | Write => "WRITE"
  | Update => "UPDATE"
  | Read => "READ"
  | CursorRead => "CURSOR_READ"
  | Delete => "DELETE"
  end.

Definition cumulative (k : Category) (l : BenchmarkRunner) : Hdr.Histogram :=
  match k with
  | SetupWrite => setupWriteHistogram l
  | Write => writeHistogram l
  | Update => updateHistogram l
  | Read => readHistogram l
  | CursorRead => readCursorHistogram l
  | Delete => deleteHistogram l
  end.

Definition instantaneous (k : Category) (l : BenchmarkRunner) : Hdr.Histogram :=
  match k with
  | SetupWrite => inst_setupWriteHistogram l
  | Write => inst_writeHistogram l
  | Update => inst_updateHistogram l
  | Read => inst_readHistogram l
  | CursorRead => inst_readCursorHistogram l
  | Delete => inst_deleteHistogram l
  end.

Definition series (k : Category) (l : BenchmarkRunner) : list DataPoint :=
  match k with
  | SetupWrite => setupWriteTs l
  | Write => writeTs l
  | Update => updateTs l
  | Read => readTs l
  | CursorRead => readCursorTs l
  | Delete => deleteTs l
  end.

(** The key of a category's series in the map of [GetTimeSeriesMap]. *)
Definition seriesKey (k : Category) : string :=
  match k with
  | SetupWrite => "setupWriteTs"
  | Write => "writeTs"
  | Update => "updateTs"
  | Read => "readTs"
  | CursorRead => "readCursorTs"
  | Delete => "deleteTs"
  end.

(** An invariant of a run: a category has counted no more values than
    the global histogram, since both are offered the same latency. *)
Definition counted_in_total (l : BenchmarkRunner) : Prop :=
  forall k, Hdr.TotalCount (cumulative k l) <= Hdr.TotalCount (totalHistogram l).

(** The sentinel [wrapNaN] puts in the place of NaN. *)
Definition sentinel : Float64.float64 := wrapNaN S754_nan.

(** The order of a sorted series. *)
Definition byTimestamp (a b : DataPoint) : Prop := Timestamp a <= Timestamp b.

(** *** Channels *)

Definition WorkerPerQueue : Z := 0.
Definition SingleQueue : Z := 1.

(** Modelled from the spec: the declaration of [duplexChannel] is not
    among the sources. It pairs a bounded [toWorker] batch queue with a
    bounded [toScanner] acknowledgement queue, both of capacity
    [queueLen]; [toWorker] is held oldest first, [toScanner] by the number
    of acknowledgements in it. *)
Record duplexChannel (B : Type) := {
  queueLen : Z;
  toWorker : list B;
  toScanner : Z;
  closed : bool
}.

Arguments queueLen {B} d.
Arguments toWorker {B} d.
Arguments toScanner {B} d.
Arguments closed {B} d.

Definition newDuplexChannel {B} (queueLen : Z) : duplexChannel B :=
  {| queueLen := queueLen; toWorker := []; toScanner := 0; closed := false |}.

(** [createChannels]: [None] when it panics on more work queues than
    workers. [workers] is a [uint], so [0 <= workers l] is understood. *)
Definition createChannels {B} (l : BenchmarkRunner) (workQueues : Z)
    : option (list (duplexChannel B)) :=
  let workQueuesToCreate :=
    if workQueues =? WorkerPerQueue then Some (workers l)
    else if workers l <? workQueues then None
    else Some workQueues in
  match workQueuesToCreate with
  | None => None
  | Some workQueuesToCreate =>
      let workersPerQueue :=
        Float64.ceil_to_int
          (Float64.div (Float64.of_int (workers l))
                       (Float64.of_int workQueuesToCreate)) in
      Some (replicate (Z.to_nat workQueuesToCreate)
                      (newDuplexChannel workersPerQueue))
  end.

End Load.

(* ===================================================================== *)
(** ** The RediSearch processor (cmd/ftsb_redisearch/cmd_processor.go) *)

Module RediSearch.

(** [radix.FlatCmd(nil, cmd, key, args)]: a command to be sent. *)
Record CmdAction := {
  cmdName : string;
  cmdKey : string;
  cmdArgs : list string
}.

(** The program options of package main the processor reads. Their
    declarations are not among the sources: they are parameters here.
    [pipeline] is compared with [len(cmds)], so it is an [int]. *)
Class Options := {
  pipeline : Z;
  continueOnErr : bool;
  debug : Z;
  clusterMode : bool
}.

(** What lies outside the program: the clock, the target and the csv
    reader. [now n] is the [n]-th reading of [time.Now]; [roundTrip n cmds]
    is the error, if any, of the [n]-th call of [Do] with a pipeline of
    [cmds]; [csvRead row] gives the fields of [row], or no fields when
    the reader returns an error. *)
Class Outside := {
  now : nat -> GoTime.Time;
  roundTrip : nat -> list CmdAction -> option string;
  csvRead : string -> option (list string)
}.

(** Modelled from the spec: the declaration of [eventsBatch] is not among
    the sources. A batch is an ordered sequence of records, here rows. *)
Record eventsBatch := { rows : list string }.

(** The lines the processor logs. *)
Inductive LogLine :=
| PipelineError (cmds : list CmdAction) (err : string)
| FatalError (err : string).

(** The fields of [processor] that outlive a call, and what the processor
    has done to the world: [vanillaClient] tells whether the pool pointer
    is set; [cmdChan] holds the Stats sent on the channel and not yet
    received; [roundTrips] holds the pipelines sent to the target, oldest
    first; [ePool] holds the batches put back into the pool. *)
Record State := {
  vanillaClient : bool;
  cmdChan : list Stats.Stat;
  clockReads : nat;
  roundTrips : list (list CmdAction);
  logged : list LogLine;
  ePool : list eventsBatch
}.

(** How a call ends: it returns, or the process exits in [log.Fatal], or
    a run-time panic brings the process down. *)
Inductive Outcome (A : Type) :=
| Returns (a : A) (s : State)
| Exits (s : State)
| Panics (msg : string).

Arguments Returns {A} a s.
Arguments Exits {A} s.
Arguments Panics {A} msg.

Definition M (A : Type) : Type := State -> Outcome A.

Definition ret {A} (a : A) : M A := fun s => Returns a s.

Definition bind {A B} (m : M A) (k : A -> M B) : M B :=
  fun s =>
    match m s with
    | Returns a s' => k a s'
    | Exits s' => Exits s'
    | Panics msg => Panics msg
    end.

Notation "x <- m ;; k" := (bind m (fun x => k))
  (at level 100, m at next level, right associativity).
Notation "m ;;; k" := (bind m (fun _ => k))
  (at level 100, right associativity).

(** [time.Now()]. *)
Definition timeNow `{Outside} : M GoTime.Time :=
  fun s =>
    Returns (now (clockReads s))
      {| vanillaClient := vanillaClient s; cmdChan := cmdChan s;
         clockReads := S (clockReads s); roundTrips := roundTrips s;
         logged := logged s; ePool := ePool s |}.

(** [p.vanillaClient.Do(radix.Pipeline(cmds...))]: one round trip with
    all of [cmds]; on a nil pool the call dereferences nil. *)
Definition vanillaClientDo `{Outside} (cmds : list CmdAction) : M (option string) :=
  fun s =>
    if vanillaClient s then
      Returns (roundTrip (length (roundTrips s)) cmds)
        {| vanillaClient := vanillaClient s; cmdChan := cmdChan s;
           clockReads := clockReads s; roundTrips := roundTrips s ++ [cmds];
           logged := logged s; ePool := ePool s |}
    else Panics "invalid memory address or nil pointer dereference".

(** [log.Println(...)]. *)
Definition logPrintln (line : LogLine) : M unit :=
  fun s =>
    Returns tt
      {| vanillaClient := vanillaClient s; cmdChan := cmdChan s;
         clockReads := clockReads s; roundTrips := roundTrips s;
         logged := logged s ++ [line]; ePool := ePool s |}.

(** [log.Fatal(err)]: the line is logged and the process exits. *)
Definition logFatal {A} (err : string) : M A :=
  fun s =>
    Exits
      {| vanillaClient := vanillaClient s; cmdChan := cmdChan s;
         clockReads := clockReads s; roundTrips := roundTrips s;
         logged := logged s ++ [FatalError err]; ePool := ePool s |}.

(** [p.cmdChan <- stat]. The channel is made with room for one Stat more
    than the batch has rows, so the send does not block. *)
Definition sendCmdChan (stat : Stats.Stat) : M unit :=
  fun s =>
    Returns tt
      {| vanillaClient := vanillaClient s; cmdChan := cmdChan s ++ [stat];
         clockReads := clockReads s; roundTrips := roundTrips s;
         logged := logged s; ePool := ePool s |}.

(** The value of an [interface{}] as [getRxLen] tells its cases apart. *)
Inductive Reply :=
| ReplyNil
| ReplyString (x : string)
| ReplyStrings (x : list string)
| ReplyOther.

Definition strlen (x : string) : Z := Z.of_nat (String.length x).

Definition getRxLen (v : Reply) : Z :=
  match v with
  | ReplyStrings x => fold_left (fun res i => GoInt.uint64 (res + strlen i)) x 0
  | ReplyString x => GoInt.uint64 (0 + strlen x)
  | _ => 0
  end.

(** The loop [for _, t := range times] of [sendIfRequired]: one Stat with
    one CmdStat for every enqueue time. *)
Fixpoint emitStats (cmdType cmdQueryId : string) (endT : GoTime.Time)
    (rcv : Reply) (txBytesCount rxBytesCount : Z) (times : list GoTime.Time) : M unit :=
  match times with
  | [] => ret tt
  | t :: rest =>
      let duration := GoTime.Sub endT t in
      let took := GoInt.uint64 (GoTime.Microseconds duration) in
      let rxBytesCount := GoInt.uint64 (rxBytesCount + getRxLen rcv) in
      let stat := Stats.AddEntry Stats.NewStat cmdType cmdQueryId took
                    false false txBytesCount rxBytesCount in
      sendCmdChan stat ;;;
      emitStats cmdType cmdQueryId endT rcv txBytesCount rxBytesCount rest
  end.

(** [sendIfRequired]. The parameter [err] of the source is overwritten
    before it is read and is left out. *)
Definition sendIfRequired `{Options} `{Outside} (cmdType cmdQueryId : string)
    (cmds : list CmdAction) (times : list GoTime.Time)
    (rxBytesCount : Z) (rcv : Reply) (txBytesCount : Z)
    : M (list CmdAction * list GoTime.Time) :=
  if pipeline <=? GoInt.len cmds then
    err <- vanillaClientDo cmds ;;
    endT <- timeNow ;;
    match err with
    | Some e =>
        if continueOnErr then
          if 0 <? debug then logPrintln (PipelineError cmds e) else ret tt
        else logFatal e
    | None => ret tt
    end ;;;
    emitStats cmdType cmdQueryId endT rcv txBytesCount rxBytesCount times ;;;
    ret ([], [])
  else ret (cmds, times).

(** [sendFlatCmd]: [docfields[0]] panics on an empty slice. *)
Definition sendFlatCmd `{Options} `{Outside} (cmdType cmdQueryId cmd : string)
    (docfields : list string) (txBytesCount insertCount : Z)
    (cmds : list CmdAction) (times : list GoTime.Time)
    : M (list CmdAction * list GoTime.Time) :=
  let rcv := ReplyNil in
  let rxBytesCount := 0 in
  match docfields with
  | [] => fun _ => Panics "index out of range [0] with length 0"
  | key :: args =>
      let radixFlatCmd := {| cmdName := cmd; cmdKey := key; cmdArgs := args |} in
      let cmds := cmds ++ [radixFlatCmd] in
      start <- timeNow ;;
      let times := times ++ [start] in
      sendIfRequired cmdType cmdQueryId cmds times rxBytesCount rcv txBytesCount
  end.

(** The results of [preProcessCmd], when [err] is nil. *)
Record PreProcessed := {
  cmdType : string;
  cmdQueryId : string;
  cmd : string;
  args : list string;
  bytelen : Z
}.

(** [preProcessCmd]: [None] when it returns an error. *)
Definition preProcessCmd `{Outside} (row : string) : option PreProcessed :=
  match csvRead row with
  | None => None
  | Some argsStr =>
      match argsStr with
      | a0 :: a1 :: a2 :: rest =>
          Some {| cmdType := a0; cmdQueryId := a1; cmd := a2; args := rest;
                  bytelen := GoInt.uint64 (strlen row - strlen a0) |}
      | _ => None
      end
  end.

(** The loop of [connectionProcessor] over the rows of the channel. *)
Fixpoint connectionLoop `{Options} `{Outside} (slot : nat)
    (cmdSlots : list (list CmdAction)) (timesSlots : list (list GoTime.Time))
    (rows : list string) : M unit :=
  match rows with
  | [] => ret tt
  | row :: rest =>
      match preProcessCmd row with
      | None => connectionLoop slot cmdSlots timesSlots rest
      | Some c =>
          match cmdSlots !! slot, timesSlots !! slot with
          | Some cmds, Some times =>
              r <- sendFlatCmd (cmdType c) (cmdQueryId c) (cmd c) (args c)
                     (bytelen c) 1 cmds times ;;
              connectionLoop slot (<[slot := fst r]> cmdSlots)
                             (<[slot := snd r]> timesSlots) rest
          | _, _ => fun _ => Panics "index out of range [0] with length 0"
          end
      end
  end.

(** [connectionProcessor]: in cluster mode no slot is made. *)
Definition connectionProcessor `{Options} `{Outside} (rows : list string) : M unit :=
  let cmdSlots := if clusterMode then [] else [[]] in
  let timesSlots := if clusterMode then [] else [[]] in
  connectionLoop 0%nat cmdSlots timesSlots rows.

(** [p.cmdChan = make(chan benchmark_runner.Stat, buflen)]. *)
Definition makeCmdChan : M unit :=
  fun s =>
    Returns tt
      {| vanillaClient := vanillaClient s; cmdChan := [];
         clockReads := clockReads s; roundTrips := roundTrips s;
         logged := logged s; ePool := ePool s |}.

(** [for cmdStat := range p.cmdChan { outstat.Merge(cmdStat) }]. *)
Definition drainCmdChan (outstat : Stats.Stat) : M Stats.Stat :=
  fun s =>
    Returns (fold_left Stats.Merge (cmdChan s) outstat)
      {| vanillaClient := vanillaClient s; cmdChan := [];
         clockReads := clockReads s; roundTrips := roundTrips s;
         logged := logged s; ePool := ePool s |}.

(** [ePool.Put(events)]. *)
Definition ePoolPut (events : eventsBatch) : M unit :=
  fun s =>
    Returns tt
      {| vanillaClient := vanillaClient s; cmdChan := cmdChan s;
         clockReads := clockReads s; roundTrips := roundTrips s;
         logged := logged s; ePool := events :: ePool s |}.

(** [ProcessBatch]. The goroutine [connectionProcessor] is fed every row
    through a channel with room for all of them and is waited for, so it
    runs here in the place of its start. The result holds the batch as
    the call leaves it, with [events.rows = events.rows[:0]]. *)
Definition ProcessBatch `{Options} `{Outside} (b : eventsBatch) (doLoad : bool)
    : M (Stats.Stat * eventsBatch) :=
  let outstat := Stats.NewStat in
  let events := b in
  outstat <-
    (if doLoad then
       makeCmdChan ;;;
       connectionProcessor (rows events) ;;;
       drainCmdChan outstat
     else ret outstat) ;;
  let events := {| rows := firstn 0 (rows events) |} in
  ePoolPut events ;;;
  ret (outstat, events).

End RediSearch.

(** The processor of cmd/ftsb_redisearch behind the interface the worker
    loop of the runner calls: what [GetProcessor] hands to [work]. *)
#[export] Instance GetProcessor `{RediSearch.Options} `{RediSearch.Outside}
    : Load.Processor RediSearch.eventsBatch RediSearch.State :=
  {| Load.ProcessBatch := fun proc b doLoad =>
       match RediSearch.ProcessBatch b doLoad proc with
       | RediSearch.Returns (stats, _) proc => Some (stats, proc)
       | _ => None
       end |}.

(* ===================================================================== *)
(** ** The indexer of the loader (cmd/ftsb_load_redisearch/main.go) *)

Module LoadRediSearch.

Record RedisIndexer := { partitions : Z }.

(** [GetIndex]: [int(uint(itemsRead) % i.partitions)], on a 64-bit target.
    [None] is the run-time panic of a division by zero. The point [p] is
    of the type [load.Point], which the function never looks into. *)
Definition GetIndex {Point : Type} (i : RedisIndexer) (itemsRead : Z) (p : Point)
    : option Z :=
  if partitions i =? 0 then None
  else Some (GoInt.int64 (GoInt.uint64 itemsRead mod partitions i)).

(** [GetPointIndexer]. *)
Definition GetPointIndexer (maxPartitions : Z) : RedisIndexer :=
  {| partitions := maxPartitions |}.

End LoadRediSearch.

(* ===================================================================== *)
(** ** Backpressure between the scanner and the workers of one channel *)

Module Backpressure.

(** Modelled from the spec: [scanWithIndexer] and the methods of
    [duplexChannel] are not among the sources. The scanner may have at
    most [queueLen] batches outstanding on a channel: it counts the
    batches it has sent and not seen acknowledged, and its send blocks
    while that count has reached the capacity. A worker receives a batch,
    processes it and acknowledges it on [toScanner], as [work] does; the
    scanner takes acknowledgements from [toScanner], each freeing one
    slot. [inProcess] holds the batches workers have received and not yet
    acknowledged. *)
Record System (B : Type) := {
  channel : Load.duplexChannel B;
  inProcess : list B;
  outstanding : Z
}.

Arguments channel {B} s.
Arguments inProcess {B} s.
Arguments outstanding {B} s.

Inductive Action (B : Type) :=
| Send (b : B)
| Receive
| Ack (i : nat)
| TakeAck
| Close.

Arguments Send {B} b.
Arguments Receive {B}.
Arguments Ack {B} i.
Arguments TakeAck {B}.
Arguments Close {B}.

Definition start {B} (c : Load.duplexChannel B) : System B :=
  {| channel := c; inProcess := []; outstanding := 0 |}.

(** One step of the scanner or of a worker; [None] when the step cannot
    be taken in this state, which for a send or a receive means that the
    caller blocks. *)
Definition step {B} (s : System B) (a : Action B) : option (System B) :=
  let c := channel s in
  match a with
  | Send b =>
      if Load.closed c then None
      else if outstanding s <? Load.queueLen c then
        Some {| channel :=
                  {| Load.queueLen := Load.queueLen c;
                     Load.toWorker := Load.toWorker c ++ [b];
                     Load.toScanner := Load.toScanner c;
                     Load.closed := false |};
                inProcess := inProcess s;
                outstanding := outstanding s + 1 |}
      else None
  | Receive =>
      match Load.toWorker c with
      | [] => None
      | b :: rest =>
          Some {| channel :=
                    {| Load.queueLen := Load.queueLen c;
                       Load.toWorker := rest;
                       Load.toScanner := Load.toScanner c;
                       Load.closed := Load.closed c |};
                  inProcess := inProcess s ++ [b];
                  outstanding := outstanding s |}
      end
  | Ack i =>
      match inProcess s !! i with
      | None => None
      | Some _ =>
          if Load.toScanner c <? Load.queueLen c then
            Some {| channel :=
                      {| Load.queueLen := Load.queueLen c;
                         Load.toWorker := Load.toWorker c;
                         Load.toScanner := Load.toScanner c + 1;
                         Load.closed := Load.closed c |};
                    inProcess := delete i (inProcess s);
                    outstanding := outstanding s |}
          else None
      end
  | TakeAck =>
      if 0 <? Load.toScanner c then
        Some {| channel :=
                  {| Load.queueLen := Load.queueLen c;
                     Load.toWorker := Load.toWorker c;
                     Load.toScanner := Load.toScanner c - 1;
                     Load.closed := Load.closed c |};
                inProcess := inProcess s;
                outstanding := outstanding s - 1 |}
      else None
  | Close =>
      if Load.closed c then None
      else
        Some {| channel :=
                  {| Load.queueLen := Load.queueLen c;
                     Load.toWorker := Load.toWorker c;
                     Load.toScanner := Load.toScanner c;
                     Load.closed := true |};
                inProcess := inProcess s;
                outstanding := outstanding s |}
  end.

(** A sequence of steps, none of them blocked. *)
Fixpoint steps {B} (s : System B) (actions : list (Action B)) : option (System B) :=
  match actions with
  | [] => Some s
  | a :: rest =>
      match step s a with
      | None => None
      | Some s' => steps s' rest
      end
  end.

(** The batches enqueued on the channel and not acknowledged by a
    worker: those waiting in [toWorker] and those in process. *)
Definition unacknowledged {B} (s : System B) : Z :=
  GoInt.len (Load.toWorker (channel s)) + GoInt.len (inProcess s).

(** The invariant of the scanner's count: it is the number of batches in
    the channel, in process, and acknowledged but not yet taken, and it
    stays within the capacity. *)
Definition accounted {B} (s : System B) : Prop :=
  outstanding s = unacknowledged s + Load.toScanner (channel s)
  /\ 0 <= Load.toScanner (channel s)
  /\ outstanding s <= Load.queueLen (channel s).

End Backpressure.

(* ===================================================================== *)
(** ** Sample inputs *)

Module Sample.

(** A histogram library that accepts the values of the range the runner
    configures, [1 .. 1000000], and reports the newest value at every
    quantile. *)
Definition rangeLibrary : Hdr.Library :=
  {| Hdr.trackable := fun v => (1 <=? v) && (v <=? 1000000);
     Hdr.valueAt := fun vs _ => hd 0 vs |}.

Definition stat (label : string) (latency : Z) : Stats.CmdStat :=
  {| Stats.Label := label; Stats.Id := "q1"; Stats.Latency := latency;
     Stats.isUpdate := false; Stats.isDelete := false;
     Stats.Tx := 10; Stats.Rx := 0 |}.

Definition at_second (n : Z) : GoTime.Time :=
  {| GoTime.wall := n * 1000000000; GoTime.mono := n * 1000000000 |}.

(** A runner of four workers that has recorded nothing. *)
Definition idle : Load.BenchmarkRunner := Load.loader 4 true.

(** Three ticks whose wall-clock seconds arrive out of order. *)
Definition jitter : list Load.RunEvent :=
  [Load.Ticked (at_second 3); Load.Ticked (at_second 1); Load.Ticked (at_second 2)].

(** The options of a run: the flush threshold, the error policy and the
    verbosity; no cluster. *)
Definition options (threshold : Z) (continue : bool) (verbosity : Z)
    : RediSearch.Options :=
  {| RediSearch.pipeline := threshold; RediSearch.continueOnErr := continue;
     RediSearch.debug := verbosity; RediSearch.clusterMode := false |}.

(** A reader that splits a row at its commas. *)
Fixpoint splitCommas (row field : string) : list string :=
  match row with
  | EmptyString => [field]
  | String c rest =>
      if Ascii.eqb c ","%char then field :: splitCommas rest ""
      else splitCommas rest (String.append field (String c ""))
  end.

(** A clock whose [n]-th reading is [1500 * n] nanoseconds. *)
Definition clock (n : nat) : GoTime.Time :=
  {| GoTime.wall := 1500 * Z.of_nat n; GoTime.mono := 1500 * Z.of_nat n |}.

(** A target that answers every pipeline. *)
Definition healthy : RediSearch.Outside :=
  {| RediSearch.now := clock;
     RediSearch.roundTrip := fun _ _ => None;
     RediSearch.csvRead := fun row => Some (splitCommas row "") |}.

(** A target that fails every pipeline. *)
Definition failing : RediSearch.Outside :=
  {| RediSearch.now := clock;
     RediSearch.roundTrip := fun _ _ => Some "ERR";
     RediSearch.csvRead := fun row => Some (splitCommas row "") |}.

(** A processor after [Init], connected to a single server. *)
Definition connected : RediSearch.State :=
  {| RediSearch.vanillaClient := true; RediSearch.cmdChan := [];
     RediSearch.clockReads := 0; RediSearch.roundTrips := [];
     RediSearch.logged := []; RediSearch.ePool := [] |}.

Definition ftAdd (doc : string) : RediSearch.CmdAction :=
  {| RediSearch.cmdName := "FT.ADD"; RediSearch.cmdKey := "idx";
     RediSearch.cmdArgs := [doc] |}.

(** Two commands enqueued at the first two readings of the clock, and the
    processor that holds them: its next reading is the third. *)
Definition pending : list RediSearch.CmdAction := [ftAdd "doc1"; ftAdd "doc2"].

Definition pendingTimes : list GoTime.Time := [clock 0; clock 1].

Definition enqueued : RediSearch.State :=
  {| RediSearch.vanillaClient := true; RediSearch.cmdChan := [];
     RediSearch.clockReads := 2; RediSearch.roundTrips := [];
     RediSearch.logged := []; RediSearch.ePool := [] |}.

(** A runner of eight workers. *)
Definition idle8 : Load.BenchmarkRunner := Load.loader 8 true.

(** A scanner and a worker taking turns on a channel. *)
Definition traffic : list (Backpressure.Action Z) :=
  [Backpressure.Send 7; Backpressure.Receive; Backpressure.Ack 0%nat;
   Backpressure.TakeAck; Backpressure.Send 8].

(** A runner that has recorded one write of five microseconds. *)
Definition oneWrite : Load.BenchmarkRunner :=
  @Load.recordCmdStat rangeLibrary idle (stat "WRITE" 5).

Definition batch : RediSearch.eventsBatch :=
  {| RediSearch.rows :=
       ["WRITE,q1,FT.ADD,idx,doc1"; "WRITE,q2,FT.ADD,idx,doc2";
        "READ,q3,FT.SEARCH,idx,hello"] |}.

End Sample.

(* ===================================================================== *)
(** ** Notions for the statements about a processed batch *)

Module Batch.

(** A row [preProcessCmd] accepts. *)
Definition wellFormed `{RediSearch.Outside} (row : string) : bool :=
  match RediSearch.preProcessCmd row with
  | Some _ => true
  | None => false
  end.

(** A row [preProcessCmd] accepts and that has no field after the command. *)
Definition bare `{RediSearch.Outside} (row : string) : bool :=
  match RediSearch.preProcessCmd row with
  | Some c => match RediSearch.args c with [] => true | _ => false end
  | None => false
  end.

(** The Stats the loop of [sendIfRequired] sends on [cmdChan], in order. *)
Fixpoint emitted (cmdType cmdQueryId : string) (endT : GoTime.Time)
    (rcv : RediSearch.Reply) (txBytesCount rxBytesCount : Z)
    (times : list GoTime.Time) : list Stats.Stat :=
  match times with
  | [] => []
  | t :: rest =>
      let rx := GoInt.uint64 (rxBytesCount + RediSearch.getRxLen rcv) in
      Stats.AddEntry Stats.NewStat cmdType cmdQueryId
        (GoInt.uint64 (GoTime.Microseconds (GoTime.Sub endT t)))
        false false txBytesCount rx
      :: emitted cmdType cmdQueryId endT rcv txBytesCount rx rest
  end.

(** The state [s] after further readings of the clock, round trips, Stats
    sent on [cmdChan] and lines logged. *)
Definition after (s : RediSearch.State) (reads : nat)
    (trips : list (list RediSearch.CmdAction)) (stats : list Stats.Stat)
    (lines : list RediSearch.LogLine) : RediSearch.State :=
  {| RediSearch.vanillaClient := RediSearch.vanillaClient s;
     RediSearch.cmdChan := RediSearch.cmdChan s ++ stats;
     RediSearch.clockReads := (reads + RediSearch.clockReads s)%nat;
     RediSearch.roundTrips := RediSearch.roundTrips s ++ trips;
     RediSearch.logged := RediSearch.logged s ++ lines;
     RediSearch.ePool := RediSearch.ePool s |}.

(** A Stat of one CmdStat that reports no received byte and is flagged
    neither update nor delete. *)
Definition plain (st : Stats.Stat) : Prop :=
  exists c, Stats.CmdStats st = [c]
            /\ Stats.Rx c = 0
            /\ Stats.isUpdate c = false
            /\ Stats.isDelete c = false.

(** A Stat of one CmdStat that carries the given label, identifier and
    transmitted byte count. *)
Definition attributed (label id : string) (tx : Z) (st : Stats.Stat) : Prop :=
  exists c, Stats.CmdStats st = [c]
            /\ Stats.Label c = label
            /\ Stats.Id c = id
            /\ Stats.Tx c = tx.

(** The state in which [ProcessBatch] starts its connection goroutine. *)
Definition fresh (s : RediSearch.State) : RediSearch.State :=
  {| RediSearch.vanillaClient := RediSearch.vanillaClient s;
     RediSearch.cmdChan := [];
     RediSearch.clockReads := RediSearch.clockReads s;
     RediSearch.roundTrips := RediSearch.roundTrips s;
     RediSearch.logged := RediSearch.logged s;
     RediSearch.ePool := RediSearch.ePool s |}.

End Batch.

(* ===================================================================== *)
(** ** More sample inputs *)

Module Cases.

(** The options of a run against a cluster. *)
Definition clusterOptions (threshold : Z) : RediSearch.Options :=
  {| RediSearch.pipeline := threshold; RediSearch.continueOnErr := true;
     RediSearch.debug := 0; RediSearch.clusterMode := true |}.

(** A batch whose second row has a command and no argument, after a row
    of two fields. *)
Definition bareBatch : RediSearch.eventsBatch :=
  {| RediSearch.rows := ["WRITE,q0"; "WRITE,q1,PING"; "WRITE,q2,FT.ADD,idx,doc2"] |}.

(** A batch of five rows, one of them too short to be a command. *)
Definition mixedBatch : RediSearch.eventsBatch :=
  {| RediSearch.rows :=
       ["WRITE,q1,FT.ADD,idx,doc1"; "oops"; "READ,q2,FT.SEARCH,idx,hello";
        "UPDATE,q3,FT.ADD,idx,doc1"; "DELETE,q4,FT.DEL,idx,doc1"] |}.

(** One write pending since the first reading of the clock. *)
Definition onePending : RediSearch.State :=
  {| RediSearch.vanillaClient := true; RediSearch.cmdChan := [];
     RediSearch.clockReads := 1; RediSearch.roundTrips := [];
     RediSearch.logged := []; RediSearch.ePool := [] |}.

End Cases.

(* ===================================================================== *)
(** ** Notions for the statements about a run *)

Module Run.

(** The label is one of the six the [switch] of [work] has a case for. *)
Definition recognised (label : string) : bool :=
  String.eqb label "SETUP_WRITE" || String.eqb label "WRITE"
  || String.eqb label "UPDATE" || String.eqb label "READ"
  || String.eqb label "CURSOR_READ" || String.eqb label "DELETE".

(** The sum of the six per-category counts: the total the reporter and
    the summary print. *)
Definition categorySum (l : Load.BenchmarkRunner) : Z :=
  Hdr.TotalCount (Load.writeHistogram l)
  + Hdr.TotalCount (Load.setupWriteHistogram l)
  + Hdr.TotalCount (Load.readHistogram l)
  + Hdr.TotalCount (Load.readCursorHistogram l)
  + Hdr.TotalCount (Load.updateHistogram l)
  + Hdr.TotalCount (Load.deleteHistogram l).

(** The CmdStats of a run that the histogram accepts and whose label has
    no case in the [switch]. *)
Fixpoint strays `{Hdr.Library} (events : list Load.RunEvent) : Z :=
  match events with
  | [] => 0
  | Load.Recorded c :: rest =>
      (if negb (recognised (Stats.Label c))
          && Hdr.trackable (GoInt.int64 (Stats.Latency c))
       then 1 else 0) + strays rest
  | Load.Ticked _ :: rest => strays rest
  end.

(** The transmitted and the received bytes of the CmdStats of a run. *)
Fixpoint txSum (events : list Load.RunEvent) : Z :=
  match events with
  | [] => 0
  | Load.Recorded c :: rest => Stats.Tx c + txSum rest
  | Load.Ticked _ :: rest => txSum rest
  end.

Fixpoint rxSum (events : list Load.RunEvent) : Z :=
  match events with
  | [] => 0
  | Load.Recorded c :: rest => Stats.Rx c + rxSum rest
  | Load.Ticked _ :: rest => rxSum rest
  end.

(** The times of the ticks of a run, in the order of their arrival. *)
Fixpoint ticks (events : list Load.RunEvent) : list GoTime.Time :=
  match events with
  | [] => []
  | Load.Recorded _ :: rest => ticks rest
  | Load.Ticked now :: rest => now :: ticks rest
  end.

(** A DataPoint whose three quantiles are zero. *)
Definition quiet (dp : Load.DataPoint) : Prop :=
  Load.Map dp !! "q50" = Some (S754_zero false)
  /\ Load.Map dp !! "q95" = Some (S754_zero false)
  /\ Load.Map dp !! "q99" = Some (S754_zero false).

(** A run with one stray label among recognised ones, and two ticks. *)
Definition sampleRun : list Load.RunEvent :=
  [Load.Recorded (Sample.stat "WRITE" 5);
   Load.Recorded (Sample.stat "PING" 7);
   Load.Ticked (Sample.at_second 1);
   Load.Recorded (Sample.stat "READ" 2000000);
   Load.Recorded (Sample.stat "READ" 9);
   Load.Ticked (Sample.at_second 2)].

(** Three ticks that arrive in the order of their seconds. *)
Definition orderly : list Load.RunEvent :=
  [Load.Ticked (Sample.at_second 1); Load.Ticked (Sample.at_second 2);
   Load.Ticked (Sample.at_second 3)].

(** The runner after the three orderly ticks. *)
Definition orderlyRunner : Load.BenchmarkRunner :=
  snd (@Load.runEvents Sample.rangeLibrary (Sample.at_second 0)
         Sample.idle orderly).

End Run.

(* ===================================================================== *)
(** ** The processor of the loader (cmd/ftsb_load_redisearch/main.go) *)

Module Loader.

(** What happens on the connections of the pool. *)
Inductive ConnEvent :=
| Got
| Sent (row : string)
| Closed.

(** [sendRedisCommand] is not among the sources: it is a parameter, the
    count it returns for the [n]-th row sent since the start. *)
Class Redis := {
  sendRedisCommand : nat -> string -> Z
}.

(** The state the processor works on: what has happened on connections,
    the number of rows sent, and the batches put back into [ePool]. *)
Record State := {
  wire : list ConnEvent;
  sent : nat;
  ePool : list RediSearch.eventsBatch
}.

(** The loop of [connectionProcessor]: every row is sent, and the count
    that comes back goes on the channel [metrics]. *)
Fixpoint sendRows `{Redis} (rows : list string) (s : State) (metrics : list Z)
    : State * list Z :=
  match rows with
  | [] => (s, metrics)
  | row :: rest =>
      let val := GoInt.uint64 (sendRedisCommand (sent s) row) in
      sendRows rest
        {| wire := wire s ++ [Sent row]; sent := S (sent s); ePool := ePool s |}
        (metrics ++ [val])
  end.

(** [connectionProcessor]: a connection is taken from the pool, the rows
    are sent, the connection is closed, and the deferred [Close] closes
    it once more. *)
Definition connectionProcessor `{Redis} (rows : list string) (s : State)
    : State * list Z :=
  let s := {| wire := wire s ++ [Got]; sent := sent s; ePool := ePool s |} in
  let '(s, metrics) := sendRows rows s [] in
  let s := {| wire := wire s ++ [Closed]; sent := sent s; ePool := ePool s |} in
  let s := {| wire := wire s ++ [Closed]; sent := sent s; ePool := ePool s |} in
  (s, metrics).

(** [ProcessBatch]: the metric count, the row count, the batch as the
    call leaves it, and the state. The goroutine is fed all rows through
    a channel with room for them and is waited for. *)
Definition ProcessBatch `{Redis} (b : RediSearch.eventsBatch) (doLoad : bool)
    (s : State) : Z * Z * RediSearch.eventsBatch * State :=
  let events := b in
  let rowCnt := GoInt.uint64 (GoInt.len (RediSearch.rows events)) in
  let metricCnt := 0 in
  let '(s, metricCnt) :=
    if doLoad then
      let '(s, metrics) := connectionProcessor (RediSearch.rows events) s in
      (s, fold_left (fun metricCnt val => GoInt.uint64 (metricCnt + val))
            metrics metricCnt)
    else (s, metricCnt) in
  let events := {| RediSearch.rows := firstn 0 (RediSearch.rows events) |} in
  let s := {| wire := wire s; sent := sent s; ePool := events :: ePool s |} in
  (metricCnt, rowCnt, events, s).

(** The counts [sendRedisCommand] returns for [rows], sent from the
    [n]-th on, added up. *)
Fixpoint metricSum `{Redis} (n : nat) (rows : list string) : Z :=
  match rows with
  | [] => 0
  | row :: rest => sendRedisCommand n row + metricSum (S n) rest
  end.

(** A server that counts the bytes of a row. *)
Definition byteCounting : Redis :=
  {| sendRedisCommand := fun _ row => RediSearch.strlen row |}.

Definition idle : State := {| wire := []; sent := 0; ePool := [] |}.

End Loader.

(* ===================================================================== *)
(** ** The query generator for the wiki abstracts (EnWikiAbstract) *)

Module Queries.

Definition letters : string :=
  "abcdefghijklmnopqrstuvwxyzABCDEFGHIJKLMNOPQRSTUVWXYZ".

(** The fields of [wiki.Core] the generator uses. The declaration of
    [wiki.Core] is not among the sources: the counters are taken as
    integers, and no wrap-around of theirs is modelled. *)
Record Core := {
  TwoWordUnionQueries : list string;
  TwoWordUnionQueryIndex : Z;
  TwoWordUnionQueryIndexPosition : Z;
  TwoWordIntersectionQueries : list string;
  TwoWordIntersectionQueryIndex : Z;
  TwoWordIntersectionQueryIndexPosition : Z;
  OneWordQueries : list string;
  OneWordQueryIndex : Z;
  OneWordQueryIndexPosition : Z
}.

Definition set_TwoWordUnionQueryIndexPosition (v : Z) (c : Core) : Core :=
  {| TwoWordUnionQueries := TwoWordUnionQueries c;
     TwoWordUnionQueryIndex := TwoWordUnionQueryIndex c;
     TwoWordUnionQueryIndexPosition := v;
     TwoWordIntersectionQueries := TwoWordIntersectionQueries c;
     TwoWordIntersectionQueryIndex := TwoWordIntersectionQueryIndex c;
     TwoWordIntersectionQueryIndexPosition := TwoWordIntersectionQueryIndexPosition c;
     OneWordQueries := OneWordQueries c;
     OneWordQueryIndex := OneWordQueryIndex c;
     OneWordQueryIndexPosition := OneWordQueryIndexPosition c |}.

Definition set_TwoWordIntersectionQueryIndexPosition (v : Z) (c : Core) : Core :=
  {| TwoWordUnionQueries := TwoWordUnionQueries c;
     TwoWordUnionQueryIndex := TwoWordUnionQueryIndex c;
     TwoWordUnionQueryIndexPosition := TwoWordUnionQueryIndexPosition c;
     TwoWordIntersectionQueries := TwoWordIntersectionQueries c;
     TwoWordIntersectionQueryIndex := TwoWordIntersectionQueryIndex c;
     TwoWordIntersectionQueryIndexPosition := v;
     OneWordQueries := OneWordQueries c;
     OneWordQueryIndex := OneWordQueryIndex c;
     OneWordQueryIndexPosition := OneWordQueryIndexPosition c |}.

Definition set_OneWordQueryIndexPosition (v : Z) (c : Core) : Core :=
  {| TwoWordUnionQueries := TwoWordUnionQueries c;
     TwoWordUnionQueryIndex := TwoWordUnionQueryIndex c;
     TwoWordUnionQueryIndexPosition := TwoWordUnionQueryIndexPosition c;
     TwoWordIntersectionQueries := TwoWordIntersectionQueries c;
     TwoWordIntersectionQueryIndex := TwoWordIntersectionQueryIndex c;
     TwoWordIntersectionQueryIndexPosition := TwoWordIntersectionQueryIndexPosition c;
     OneWordQueries := OneWordQueries c;
     OneWordQueryIndex := OneWordQueryIndex c;
     OneWordQueryIndexPosition := v |}.

(** The three fields of [query.RediSearch] that [fillInQuery] assigns. *)
Record RediSearch := {
  HumanLabel : string;
  HumanDescription : string;
  RedisQuery : string
}.

(** [query.NewRediSearch()], as far as these fields go. *)
Definition GenerateEmptyQuery : RediSearch :=
  {| HumanLabel := ""; HumanDescription := ""; RedisQuery := "" |}.

(** A call ends with a value or in a run-time panic. *)
Inductive Result (A : Type) :=
| Done (a : A)
| Panic (msg : string).

Arguments Done {A} a.
Arguments Panic {A} msg.

(** [queries[i]]: nothing when the index is out of range. *)
Definition index (queries : list string) (i : Z) : option string :=
  if (0 <=? i) && (i <? GoInt.len queries) then queries !! Z.to_nat i else None.

Definition fillInQuery (qi : RediSearch) (humanLabel humanDesc redisQuery : string)
    : RediSearch :=
  {| HumanLabel := humanLabel; HumanDescription := humanDesc;
     RedisQuery := redisQuery |}.

Definition TwoWordUnionQuery (d : Core) (qi : RediSearch) : Result (Core * RediSearch) :=
  let d :=
    if TwoWordUnionQueryIndex d <=? TwoWordUnionQueryIndexPosition d
    then set_TwoWordUnionQueryIndexPosition 0 d else d in
  match index (TwoWordUnionQueries d) (TwoWordUnionQueryIndexPosition d) with
  | None => Panic "index out of range"
  | Some twoWords =>
      let redisQuery := String.append "FT.SEARCH," twoWords in
      let humanLabel :=
        "RediSearch 2 Word Union Query - English-language Wikipedia:Database page abstracts (random in set words)." in
      let humanDesc :=
        String.append humanLabel (String.append " Used words: " twoWords) in
      let qi := fillInQuery qi humanLabel humanDesc redisQuery in
      Done (set_TwoWordUnionQueryIndexPosition
              (TwoWordUnionQueryIndexPosition d + 1) d, qi)
  end.

Definition TwoWordIntersectionQuery (d : Core) (qi : RediSearch)
    : Result (Core * RediSearch) :=
  let d :=
    if TwoWordIntersectionQueryIndex d <=? TwoWordIntersectionQueryIndexPosition d
    then set_TwoWordIntersectionQueryIndexPosition 0 d else d in
  match index (TwoWordIntersectionQueries d)
          (TwoWordIntersectionQueryIndexPosition d) with
  | None => Panic "index out of range"
  | Some twoWords =>
      let redisQuery := String.append "FT.SEARCH," twoWords in
      let humanLabel :=
        "RediSearch 2 Word Intersection Query - English-language Wikipedia:Database page abstracts (random in set words)." in
      let humanDesc :=
        String.append humanLabel (String.append " Used words: " twoWords) in
      let qi := fillInQuery qi humanLabel humanDesc redisQuery in
      Done (set_TwoWordIntersectionQueryIndexPosition
              (TwoWordIntersectionQueryIndexPosition d + 1) d, qi)
  end.

Definition Simple1WordQuery (d : Core) (qi : RediSearch) : Result (Core * RediSearch) :=
  let d :=
    if OneWordQueryIndex d <=? OneWordQueryIndexPosition d
    then set_OneWordQueryIndexPosition 0 d else d in
  match index (OneWordQueries d) (OneWordQueryIndexPosition d) with
  | None => Panic "index out of range"
  | Some oneWord =>
      let redisQuery := String.append "FT.SEARCH," oneWord in
      let humanLabel :=
        "RediSearch Simple 1 Word Query - English-language Wikipedia:Database page abstracts (random in set words)." in
      let humanDesc :=
        String.append humanLabel (String.append " Used words: " oneWord) in
      let qi := fillInQuery qi humanLabel humanDesc redisQuery in
      Done (set_OneWordQueryIndexPosition (OneWordQueryIndexPosition d + 1) d, qi)
  end.

Definition Simple2WordBarackObama (d : Core) (qi : RediSearch) : Core * RediSearch :=
  let redisQuery := "FT.SEARCH,barack obama" in
  let humanLabel := "RediSearch 2 Word Intersection Query - Barack Obama." in
  let humanDesc := String.append humanLabel " Used words: barack obama" in
  (d, fillInQuery qi humanLabel humanDesc redisQuery).

(** *** The spell-check query and its random edits *)

(** The global source of [math/rand]: [source n] is the [n]-th number it
    yields, which [Intn] brings into its range. *)
Class Source := { source : nat -> Z }.

(** A computation that draws numbers: from the count of draws so far to
    a value and the new count, or to a panic. *)
Definition Gen (A : Type) : Type := nat -> Result (A * nat).

Definition gret {A} (a : A) : Gen A := fun n => Done (a, n).

Definition gbind {A B} (m : Gen A) (k : A -> Gen B) : Gen B :=
  fun n =>
    match m n with
    | Done (a, n') => k a n'
    | Panic msg => Panic msg
    end.

Definition gpanic {A} (msg : string) : Gen A := fun _ => Panic msg.

(** [rand.Intn(n)]: panics unless [n] is positive. *)
Definition Intn `{Source} (n : Z) : Gen Z :=
  fun k =>
    if n <=? 0 then Panic "invalid argument to Intn"
    else Done (source k mod n, S k).

(** [s[a:b]]: panics unless [0 <= a <= b <= len(s)]. *)
Definition slice (s : string) (a b : Z) : Gen string :=
  if (0 <=? a) && (a <=? b) && (b <=? RediSearch.strlen s)
  then gret (String.substring (Z.to_nat a) (Z.to_nat (b - a)) s)
  else gpanic "slice bounds out of range".

(** [string(letters[i])], for an index [Intn(len(letters))] has drawn. *)
Definition letter (i : Z) : string :=
  String.substring (Z.to_nat i) 1 letters.

(** [math.Min], with its special cases. *)
Definition Min (x y : Float64.float64) : Float64.float64 :=
  match x, y with
  | S754_infinity true, _ | _, S754_infinity true => S754_infinity true
  | S754_nan, _ | _, S754_nan => S754_nan
  | S754_zero sx, S754_zero sy => if sx then x else y
  | _, _ => if SFltb x y then x else y
  end.

(** The conversion [int(x)] of a float: toward zero; NaN and the
    infinities give the least [int64], as on amd64. *)
Definition toInt (x : Float64.float64) : Z :=
  match x with
  | S754_zero _ => 0
  | S754_finite s m e =>
      let a := if 0 <=? e then Z.pos m * 2 ^ e else Z.pos m / 2 ^ (- e) in
      GoInt.int64 (if s then - a else a)
  | _ => GoInt.minInt64
  end.

(** One turn of the loop over [atChange]. *)
Definition edit `{Source} (newWord : string) : Gen string :=
  let len := RediSearch.strlen newWord in
  gbind (Intn (len - 1)) (fun r =>
  let charPos := r + 1 in
  gbind (Intn 4) (fun choice =>
  if choice =? 0 then
    gbind (slice newWord 0 (charPos - 1)) (fun front =>
    gbind (slice newWord (charPos + 1) len) (fun back =>
    gret (String.append front back)))
  else if choice =? 1 then
    gbind (slice newWord 0 charPos) (fun front =>
    gbind (Intn (RediSearch.strlen letters)) (fun i =>
    gbind (slice newWord (charPos + 1) len) (fun back =>
    gret (String.append (String.append front (letter i)) back))))
  else if choice =? 2 then
    gbind (slice newWord 0 (charPos - 1)) (fun front =>
    gbind (Intn (RediSearch.strlen letters)) (fun i =>
    gbind (slice newWord (charPos + 1) len) (fun back =>
    gret (String.append (String.append front (letter i)) back))))
  else
    let adjacentPos := charPos + 1 in
    gbind (slice newWord 0 (charPos - 1)) (fun front =>
    gbind (slice newWord adjacentPos adjacentPos) (fun a =>
    gbind (slice newWord charPos charPos) (fun b =>
    gbind (slice newWord (adjacentPos + 1) len) (fun back =>
    gret (String.append (String.append (String.append front a) b) back))))))).

(** [for atChange := 0; atChange < numberChanges; atChange++]. *)
Fixpoint edits `{Source} (numberChanges : nat) (newWord : string) : Gen string :=
  match numberChanges with
  | O => gret newWord
  | S n => gbind (edit newWord) (edits n)
  end.

Definition Simple1WordSpellCheck `{Source} (d : Core) (qi : RediSearch)
    : Gen (Core * RediSearch) :=
  let d :=
    if OneWordQueryIndex d <=? OneWordQueryIndexPosition d
    then set_OneWordQueryIndexPosition 0 d else d in
  match index (OneWordQueries d) (OneWordQueryIndexPosition d) with
  | None => gpanic "index out of range"
  | Some oneWord =>
      let newWord := oneWord in
      let maxChanges :=
        Min (Float64.of_int (RediSearch.strlen oneWord)) (Float64.of_int 4) in
      gbind (Intn (toInt maxChanges)) (fun numberChanges =>
      gbind (if 1 <? RediSearch.strlen newWord - 2
             then edits (Z.to_nat numberChanges) newWord
             else gret newWord) (fun newWord =>
      let redisQuery :=
        String.append "FT.SPELLCHECK,"
          (String.append oneWord (String.append ",DISTANCE," "1")) in
      let humanLabel :=
        "RediSearch Simple 1 Spellcheck Query - English-language Wikipedia:Database page abstracts (random in set words)." in
      let humanDesc :=
        String.append humanLabel (String.append " Used word: " oneWord) in
      let qi := fillInQuery qi humanLabel humanDesc redisQuery in
      gret (set_OneWordQueryIndexPosition (OneWordQueryIndexPosition d + 1) d, qi)))
  end.

(** A generator called again and again, each call on the core and the
    query the call before has left: the result of the call after [n]. *)
Fixpoint nthCall (query : Core -> RediSearch -> Result (Core * RediSearch))
    (n : nat) (d : Core) (qi : RediSearch) : Result (Core * RediSearch) :=
  match n with
  | O => query d qi
  | S n =>
      match query d qi with
      | Done (d, qi) => nthCall query n d qi
      | Panic msg => Panic msg
      end
  end.

(** A core of three one-word queries of which two are in use, and a
    source that always yields its greatest number. *)
Definition sampleCore : Core :=
  {| TwoWordUnionQueries := ["red blue"; "old new"];
     TwoWordUnionQueryIndex := 2;
     TwoWordUnionQueryIndexPosition := 0;
     TwoWordIntersectionQueries := ["red blue"];
     TwoWordIntersectionQueryIndex := 1;
     TwoWordIntersectionQueryIndexPosition := 0;
     OneWordQueries := ["abcd"; "wikipedia"; "unused"];
     OneWordQueryIndex := 2;
     OneWordQueryIndexPosition := 0 |}.

Definition greatest : Source := {| source := fun _ => -1 |}.

Definition steady : Source := {| source := fun _ => 2 |}.

(** The three generators that walk a list of prepared queries, and the
    fields of the core each of them walks with. *)
Inductive Walk := Union | Intersection | OneWord.

Definition generator (w : Walk) : Core -> RediSearch -> Result (Core * RediSearch) :=
  match w with
  | Union => TwoWordUnionQuery
  | Intersection => TwoWordIntersectionQuery
  | OneWord => Simple1WordQuery
  end.

Definition queriesOf (w : Walk) (d : Core) : list string :=
  match w with
  | Union => TwoWordUnionQueries d
  | Intersection => TwoWordIntersectionQueries d
  | OneWord => OneWordQueries d
  end.

Definition indexOf (w : Walk) (d : Core) : Z :=
  match w with
  | Union => TwoWordUnionQueryIndex d
  | Intersection => TwoWordIntersectionQueryIndex d
  | OneWord => OneWordQueryIndex d
  end.

Definition positionOf (w : Walk) (d : Core) : Z :=
  match w with
  | Union => TwoWordUnionQueryIndexPosition d
  | Intersection => TwoWordIntersectionQueryIndexPosition d
  | OneWord => OneWordQueryIndexPosition d
  end.

End Queries.

(* ===================================================================== *)
(** ** Setting up the database and the workers (RunBenchmark) *)

Module Setup.

(** The calls [useDBCreator] makes on its [DBCreator]. *)
Inductive DBCall :=
| CallInit
| CallDBExists (name : string)
| CallRemoveOldDB (name : string)
| CallCreateDB (name : string)
| CallPostCreateDB (name : string).

(** The [DBCreator] interface, as [useDBCreator] uses it: whether the
    database exists, the errors of removal and creation if any, and
    whether the creator is also a [DBCreatorCloser] or a [DBCreatorPost]. *)
Class DBCreator := {
  DBExists : string -> bool;
  RemoveOldDB : string -> option string;
  CreateDB : string -> option string;
  isCloser : bool;
  isPost : bool
}.

(** The flag fields of the runner [useDBCreator] reads. *)
Record Flags := {
  doLoad : bool;
  doCreateDB : bool;
  doAbortOnExist : bool;
  dbName : string
}.

(** How [useDBCreator] ends: the calls it has made, in order, and either
    the function to run at the end, told by whether it is the [Close] of
    the creator, or the panic. *)
Inductive Ending :=
| Ready (calls : list DBCall) (closes : bool)
| Panicked (calls : list DBCall) (msg : string).

(** [fmt.Sprintf(errDBExistsFmt, name)]: the name between double quotes. *)
Definition errDBExists (name : string) : string :=
  let quote := String (Ascii.ascii_of_nat 34) EmptyString in
  String.append "database "
    (String.append quote
       (String.append name (String.append quote " exists: aborting."))).

Definition useDBCreator `{DBCreator} (l : Flags) : Ending :=
  let closes := false in
  if doLoad l then
    let calls := [CallInit] in
    let closes := if isCloser then true else closes in
    let exists_ := DBExists (dbName l) in
    let calls := calls ++ [CallDBExists (dbName l)] in
    if exists_ && doAbortOnExist l then
      Panicked calls (errDBExists (dbName l))
    else
      let created :=
        if doCreateDB l then
          let removed :=
            if exists_ then
              match RemoveOldDB (dbName l) with
              | Some err => Panicked (calls ++ [CallRemoveOldDB (dbName l)]) err
              | None => Ready (calls ++ [CallRemoveOldDB (dbName l)]) closes
              end
            else Ready calls closes in
          match removed with
          | Panicked calls msg => Panicked calls msg
          | Ready calls closes =>
              match CreateDB (dbName l) with
              | Some err => Panicked (calls ++ [CallCreateDB (dbName l)]) err
              | None => Ready (calls ++ [CallCreateDB (dbName l)]) closes
              end
          end
        else Ready calls closes in
      match created with
      | Panicked calls msg => Panicked calls msg
      | Ready calls closes =>
          if isPost then Ready (calls ++ [CallPostCreateDB (dbName l)]) closes
          else Ready calls closes
      end
  else Ready [] closes.

Definition callsOf (e : Ending) : list DBCall :=
  match e with
  | Ready calls _ => calls
  | Panicked calls _ => calls
  end.

(** The channel [RunBenchmark] gives to worker [i]:
    [channels[i%len(channels)]]; nothing when the division panics. *)
Definition workerChannel (i channels : Z) : option Z :=
  if channels =? 0 then None else Some (Z.rem i channels).

(** A creator over a database that exists and can be removed. *)
Definition present : DBCreator :=
  {| DBExists := fun _ => true; RemoveOldDB := fun _ => None;
     CreateDB := fun _ => None; isCloser := true; isPost := false |}.

Definition flags (create abort : bool) : Flags :=
  {| doLoad := true; doCreateDB := create; doAbortOnExist := abort;
     dbName := "idx1" |}.

End Setup.

(* ===================================================================== *)
(** * Properties of the runner *)

Section RunnerFacts.

Context `{Hdr.Library}.

Local Ltac label_cases c :=
  destruct (String.eqb_spec (Stats.Label c) "SETUP_WRITE");
  [| destruct (String.eqb_spec (Stats.Label c) "WRITE");
   [| destruct (String.eqb_spec (Stats.Label c) "UPDATE");
    [| destruct (String.eqb_spec (Stats.Label c) "READ");
     [| destruct (String.eqb_spec (Stats.Label c) "CURSOR_READ");
      [| destruct (String.eqb_spec (Stats.Label c) "DELETE")]]]]].

Lemma recordCmdStat_matching (l : Load.BenchmarkRunner) (c : Stats.CmdStat)
    (k : Load.Category) :
  Stats.Label c = Load.labelOf k ->
  Load.cumulative k (Load.recordCmdStat l c)
    = Hdr.RecordValue (GoInt.int64 (Stats.Latency c)) (Load.cumulative k l)
  /\ Load.instantaneous k (Load.recordCmdStat l c)
    = Hdr.RecordValue (GoInt.int64 (Stats.Latency c)) (Load.instantaneous k l).
Proof.
  intros Hlabel. unfold Load.recordCmdStat. rewrite Hlabel.
  destruct l, k; split; reflexivity.
Qed.

Lemma recordCmdStat_other (l : Load.BenchmarkRunner) (c : Stats.CmdStat)
    (k : Load.Category) :
  Stats.Label c <> Load.labelOf k ->
  Load.cumulative k (Load.recordCmdStat l c) = Load.cumulative k l
  /\ Load.instantaneous k (Load.recordCmdStat l c) = Load.instantaneous k l.
Proof.
  intros Hlabel. unfold Load.recordCmdStat.
  label_cases c; destruct l, k; simpl in *; try (split; reflexivity);
    congruence.
Qed.

Lemma recordCmdStat_total (l : Load.BenchmarkRunner) (c : Stats.CmdStat) :
  Load.totalHistogram (Load.recordCmdStat l c)
    = Hdr.RecordValue (GoInt.int64 (Stats.Latency c)) (Load.totalHistogram l)
  /\ Load.inst_totalHistogram (Load.recordCmdStat l c)
    = Hdr.RecordValue (GoInt.int64 (Stats.Latency c)) (Load.inst_totalHistogram l)
  /\ Load.txTotalBytes (Load.recordCmdStat l c)
    = GoInt.uint64 (Load.txTotalBytes l + Stats.Tx c)
  /\ Load.rxTotalBytes (Load.recordCmdStat l c)
    = GoInt.uint64 (Load.rxTotalBytes l + Stats.Rx c).
Proof.
  unfold Load.recordCmdStat.
  label_cases c; destruct l; simpl; repeat split; reflexivity.
Qed.

Lemma recordCmdStat_series (l : Load.BenchmarkRunner) (c : Stats.CmdStat)
    (k : Load.Category) :
  Load.series k (Load.recordCmdStat l c) = Load.series k l.
Proof.
  unfold Load.recordCmdStat.
  label_cases c; destruct l, k; reflexivity.
Qed.

Lemma TotalCount_RecordValue (v : Z) (h : Hdr.Histogram) :
  Hdr.TotalCount (Hdr.RecordValue v h)
    = Hdr.TotalCount h + (if Hdr.trackable v then 1 else 0).
Proof.
  unfold Hdr.RecordValue, Hdr.TotalCount, GoInt.len.
  destruct (Hdr.trackable v); simpl length; lia.
Qed.

Lemma TotalCount_nonneg (h : Hdr.Histogram) : 0 <= Hdr.TotalCount h.
Proof. unfold Hdr.TotalCount, GoInt.len. lia. Qed.

(** What a tick leaves alone and what it resets. *)
Lemma reportTick_frame (now : GoTime.Time) (prev : Load.ReportLocals)
    (l : Load.BenchmarkRunner) :
  let l' := snd (fst (Load.reportTick now (prev, l))) in
  (forall k, Load.cumulative k l' = Load.cumulative k l)
  /\ (forall k, Load.instantaneous k l' = Hdr.New)
  /\ Load.totalHistogram l' = Load.totalHistogram l
  /\ Load.inst_totalHistogram l' = Load.inst_totalHistogram l
  /\ Load.txTotalBytes l' = Load.txTotalBytes l
  /\ Load.rxTotalBytes l' = Load.rxTotalBytes l.
Proof.
  destruct l. cbn.
  repeat split; intros k; destruct k; reflexivity.
Qed.

Lemma counted_in_total_recordCmdStat (l : Load.BenchmarkRunner) (c : Stats.CmdStat) :
  Load.counted_in_total l -> Load.counted_in_total (Load.recordCmdStat l c).
Proof.
  intros Hl k. specialize (Hl k).
  destruct (recordCmdStat_total l c) as [-> _].
  rewrite TotalCount_RecordValue.
  destruct (string_dec (Stats.Label c) (Load.labelOf k)) as [Heq | Hne].
  - destruct (recordCmdStat_matching l c k Heq) as [-> _].
    rewrite TotalCount_RecordValue. lia.
  - destruct (recordCmdStat_other l c k Hne) as [-> _].
    destruct (Hdr.trackable _); lia.
Qed.

Lemma counted_in_total_runEvent (st : Load.ReportLocals * Load.BenchmarkRunner)
    (e : Load.RunEvent) :
  Load.counted_in_total (snd st) -> Load.counted_in_total (snd (Load.runEvent st e)).
Proof.
  destruct st as [prev l], e as [c | now]; simpl.
  - apply counted_in_total_recordCmdStat.
  - intros Hl k.
    destruct (reportTick_frame now prev l) as (Hcum & _ & Htot & _).
    simpl in Hcum, Htot. rewrite Hcum, Htot. apply Hl.
Qed.

Lemma counted_in_total_run (events : list Load.RunEvent)
    (st : Load.ReportLocals * Load.BenchmarkRunner) :
  Load.counted_in_total (snd st) ->
  Load.counted_in_total (snd (fold_left Load.runEvent events st)).
Proof.
  revert st. induction events as [| e events IH]; intros st Hst; simpl.
  - exact Hst.
  - apply IH, counted_in_total_runEvent, Hst.
Qed.

Lemma counted_in_total_loader (nworkers : Z) (load : bool) :
  Load.counted_in_total (Load.loader nworkers load).
Proof. intros k. destruct k; cbn; lia. Qed.

(** Cumulative counts never go down along a run. *)
Lemma cumulative_monotone_runEvent (st : Load.ReportLocals * Load.BenchmarkRunner)
    (e : Load.RunEvent) (k : Load.Category) :
  Hdr.TotalCount (Load.cumulative k (snd st))
    <= Hdr.TotalCount (Load.cumulative k (snd (Load.runEvent st e)))
  /\ Hdr.TotalCount (Load.totalHistogram (snd st))
    <= Hdr.TotalCount (Load.totalHistogram (snd (Load.runEvent st e))).
Proof.
  destruct st as [prev l], e as [c | now]; simpl.
  - destruct (recordCmdStat_total l c) as [-> _].
    rewrite TotalCount_RecordValue. split.
    + destruct (string_dec (Stats.Label c) (Load.labelOf k)) as [Heq | Hne].
      * destruct (recordCmdStat_matching l c k Heq) as [-> _].
        rewrite TotalCount_RecordValue. destruct (Hdr.trackable _); lia.
      * destruct (recordCmdStat_other l c k Hne) as [-> _]. lia.
    + destruct (Hdr.trackable _); lia.
  - destruct (reportTick_frame now prev l) as (Hcum & _ & Htot & _).
    simpl in Hcum, Htot. rewrite Hcum, Htot. lia.
Qed.

(** C6. In the worker's demultiplexing step a CmdStat whose label is the
    label of one of the six categories is recorded into the cumulative and
    the instantaneous histogram of that category, and into those of no
    other category; a CmdStat whose label is none of the six changes no
    per-category histogram. The step is a total function: it has no error
    to raise. No series is touched. And in a run no other step routes:
    whenever a step changes the cumulative histogram of a category, the
    step is the recording of a CmdStat that carries the label of that
    category. *)
Theorem recordCmdStat_routes_by_label (l : Load.BenchmarkRunner)
    (c : Stats.CmdStat) :
  let v := GoInt.int64 (Stats.Latency c) in
  let l' := Load.recordCmdStat l c in
  (forall k, Stats.Label c = Load.labelOf k ->
     Load.cumulative k l' = Hdr.RecordValue v (Load.cumulative k l)
     /\ Load.instantaneous k l' = Hdr.RecordValue v (Load.instantaneous k l)
     /\ forall k', k' <> k ->
          Load.cumulative k' l' = Load.cumulative k' l
          /\ Load.instantaneous k' l' = Load.instantaneous k' l)
  /\ ((forall k, Stats.Label c <> Load.labelOf k) ->
      forall k, Load.cumulative k l' = Load.cumulative k l
                /\ Load.instantaneous k l' = Load.instantaneous k l)
  /\ (forall k, Load.series k l' = Load.series k l)
  /\ (forall st e k,
        Load.cumulative k (snd (Load.runEvent st e)) <> Load.cumulative k (snd st) ->
        exists c', e = Load.Recorded c' /\ Stats.Label c' = Load.labelOf k).
Proof.
  cbv zeta. split; [| split; [| split]].
  - intros k Hk.
    destruct (recordCmdStat_matching l c k Hk) as [Hcum Hinst].
    split; [exact Hcum | split; [exact Hinst |]].
    intros k' Hk'. apply recordCmdStat_other. rewrite Hk.
    destruct k, k'; simpl; congruence.
  - intros Hnone k. apply recordCmdStat_other, Hnone.
  - intros k. apply recordCmdStat_series.
  - intros [prev l0] [c' | now] k Hchange; simpl in Hchange.
    + exists c'. split; [reflexivity |].
      destruct (string_dec (Stats.Label c') (Load.labelOf k)) as [Heq | Hne];
        [exact Heq |].
      destruct (recordCmdStat_other l0 c' k Hne) as [Hsame _]. contradiction.
    + destruct (reportTick_frame now prev l0) as (Hcum & _).
      simpl in Hcum. specialize (Hcum k). contradiction.
Qed.

(** C10. Whatever its label, a CmdStat has its latency recorded into the
    cumulative and the instantaneous global histogram and its byte counts
    added to [txTotalBytes] and [rxTotalBytes]; a CmdStat of an unknown
    label whose latency the histogram accepts raises the total count by
    one and leaves every per-category histogram as it was. *)
Theorem recordCmdStat_counts_every_stat (l : Load.BenchmarkRunner)
    (c : Stats.CmdStat) :
  let v := GoInt.int64 (Stats.Latency c) in
  let l' := Load.recordCmdStat l c in
  Load.totalHistogram l' = Hdr.RecordValue v (Load.totalHistogram l)
  /\ Load.inst_totalHistogram l' = Hdr.RecordValue v (Load.inst_totalHistogram l)
  /\ Load.txTotalBytes l' = GoInt.uint64 (Load.txTotalBytes l + Stats.Tx c)
  /\ Load.rxTotalBytes l' = GoInt.uint64 (Load.rxTotalBytes l + Stats.Rx c)
  /\ ((forall k, Stats.Label c <> Load.labelOf k) ->
      Hdr.trackable v = true ->
      Load.GetTotalsMap l' !! "TotalOps"
        = Some (Hdr.TotalCount (Load.totalHistogram l) + 1)
      /\ forall k, Load.cumulative k l' = Load.cumulative k l).
Proof.
  cbv zeta.
  destruct (recordCmdStat_total l c) as (Htot & Hinst & Htx & Hrx).
  repeat (split; [assumption |]).
  intros Hnone Hok. split.
  - unfold Load.GetTotalsMap.
    repeat (rewrite lookup_insert_ne by discriminate).
    rewrite lookup_insert_eq, Htot, TotalCount_RecordValue, Hok. reflexivity.
  - intros k. apply recordCmdStat_other, Hnone.
Qed.

(** C2. A reporting tick empties the instantaneous histogram of each of
    the six categories and changes no cumulative histogram, the global one
    included; the instantaneous global histogram is not among the ones it
    resets and keeps every value recorded into it. *)
Theorem reportTick_leaves_inst_total (now : GoTime.Time)
    (prev : Load.ReportLocals) (l : Load.BenchmarkRunner) :
  let l' := snd (fst (Load.reportTick now (prev, l))) in
  (forall k, Hdr.TotalCount (Load.instantaneous k l') = 0)
  /\ (forall k, Load.cumulative k l' = Load.cumulative k l)
  /\ Load.totalHistogram l' = Load.totalHistogram l
  /\ Load.inst_totalHistogram l' = Load.inst_totalHistogram l.
Proof.
  destruct (reportTick_frame now prev l) as (Hcum & Hinst & Htot & Hitot & _).
  cbv zeta in *. repeat split; try assumption.
  intros k. rewrite Hinst. reflexivity.
Qed.

(** C1. In a run that has recorded no operation, [GetMeasuredRatiosMap]
    stores each of the four ratios as [0/0], which is NaN: [wrapNaN] is
    not applied to them, and the sentinel [-1] it would produce is not
    what the map holds. *)
Theorem measured_ratios_NaN_without_operations (nworkers : Z) (load : bool)
    (start : GoTime.Time) (events : list Load.RunEvent)
    (l : Load.BenchmarkRunner) :
  l = snd (Load.runEvents start (Load.loader nworkers load) events) ->
  Hdr.TotalCount (Load.totalHistogram l) = 0 ->
  Load.GetMeasuredRatiosMap l !! "MeasuredWriteRatio" = Some S754_nan
  /\ Load.GetMeasuredRatiosMap l !! "MeasuredReadRatio" = Some S754_nan
  /\ Load.GetMeasuredRatiosMap l !! "MeasuredUpdateRatio" = Some S754_nan
  /\ Load.GetMeasuredRatiosMap l !! "MeasuredDeleteRatio" = Some S754_nan
  /\ Load.sentinel = Float64.minus_one
  /\ S754_nan <> Load.sentinel.
Proof.
  intros Hrun Hzero.
  assert (Hinv : Load.counted_in_total l).
  { subst l. unfold Load.runEvents.
    apply counted_in_total_run, counted_in_total_loader. }
  assert (Hk : forall k, Hdr.TotalCount (Load.cumulative k l) = 0).
  { intros k. specialize (Hinv k).
    pose proof (TotalCount_nonneg (Load.cumulative k l)). lia. }
  pose proof (Hk Load.SetupWrite) as Hsw. pose proof (Hk Load.Write) as Hw.
  pose proof (Hk Load.Update) as Hu. pose proof (Hk Load.Read) as Hr.
  pose proof (Hk Load.CursorRead) as Hrc. pose proof (Hk Load.Delete) as Hd.
  simpl in Hsw, Hw, Hu, Hr, Hrc, Hd.
  unfold Load.GetMeasuredRatiosMap.
  rewrite Hzero, Hsw, Hw, Hu, Hr, Hrc, Hd.
  repeat split;
    try (repeat (rewrite lookup_insert_ne by discriminate);
         rewrite lookup_insert_eq; reflexivity).
  discriminate.
Qed.

(** *** Sorting a series *)

Lemma insertByTimestamp_Permutation (x : Load.DataPoint) (sorted : list Load.DataPoint) :
  Permutation (Load.insertByTimestamp x sorted) (x :: sorted).
Proof.
  induction sorted as [| y rest IH]; simpl.
  - reflexivity.
  - destruct (Load.ByTimestamp_Less x y).
    + reflexivity.
    + rewrite IH. apply perm_swap.
Qed.

Lemma insertByTimestamp_HdRel (a x : Load.DataPoint) (sorted : list Load.DataPoint) :
  Load.byTimestamp a x ->
  HdRel Load.byTimestamp a sorted ->
  HdRel Load.byTimestamp a (Load.insertByTimestamp x sorted).
Proof.
  intros Hax Hhd. destruct sorted as [| y rest]; simpl.
  - constructor. exact Hax.
  - destruct (Load.ByTimestamp_Less x y); constructor.
    + exact Hax.
    + inversion Hhd; assumption.
Qed.

Lemma insertByTimestamp_Sorted (x : Load.DataPoint) (sorted : list Load.DataPoint) :
  Sorted Load.byTimestamp sorted ->
  Sorted Load.byTimestamp (Load.insertByTimestamp x sorted).
Proof.
  induction 1 as [| y rest Hrest IH Hhd]; simpl.
  - repeat constructor.
  - unfold Load.ByTimestamp_Less.
    destruct (Z.ltb_spec (Load.Timestamp x) (Load.Timestamp y)) as [Hlt | Hge].
    + constructor; [constructor; assumption |].
      constructor. unfold Load.byTimestamp. lia.
    + constructor; [exact IH |].
      apply insertByTimestamp_HdRel; [exact Hge | exact Hhd].
Qed.

Lemma sortByTimestamp_from (data acc : list Load.DataPoint) :
  Sorted Load.byTimestamp acc ->
  let out := fold_left (fun sorted x => Load.insertByTimestamp x sorted) data acc in
  Sorted Load.byTimestamp out /\ Permutation out (acc ++ data).
Proof.
  revert acc. induction data as [| x data IH]; intros acc Hacc; simpl.
  - split; [exact Hacc | rewrite app_nil_r; reflexivity].
  - destruct (IH (Load.insertByTimestamp x acc)
                 (insertByTimestamp_Sorted x acc Hacc)) as [Hs Hp].
    split; [exact Hs |].
    etransitivity; [exact Hp |].
    rewrite insertByTimestamp_Permutation.
    change (x :: acc) with ([x] ++ acc).
    rewrite (Permutation_app_comm [x] acc), <- app_assoc. reflexivity.
Qed.

Lemma sortByTimestamp_sorted (data : list Load.DataPoint) :
  Sorted Load.byTimestamp (Load.sortByTimestamp data)
  /\ Permutation (Load.sortByTimestamp data) data.
Proof.
  apply (sortByTimestamp_from data []). constructor.
Qed.

(** C8. For every runner, whatever DataPoints its series hold and in
    whatever order, the series [GetTimeSeriesMap] returns for each of the
    six categories is in non-decreasing order of timestamp; it holds the
    DataPoints of the runner's series, and it is the series the runner
    holds afterwards. *)
Theorem GetTimeSeriesMap_sorted (b : Load.BenchmarkRunner) (k : Load.Category) :
  exists ts,
    fst (Load.GetTimeSeriesMap b) !! Load.seriesKey k = Some ts
    /\ Sorted Load.byTimestamp ts
    /\ Permutation ts (Load.series k b)
    /\ Load.series k (snd (Load.GetTimeSeriesMap b)) = ts.
Proof.
  exists (Load.sortByTimestamp (Load.series k b)).
  destruct (sortByTimestamp_sorted (Load.series k b)) as [Hs Hp].
  split; [| split; [exact Hs | split; [exact Hp |]]].
  - destruct b, k; cbn;
      repeat (rewrite lookup_insert_ne by discriminate);
      apply lookup_insert_eq.
  - destruct b, k; reflexivity.
Qed.

End RunnerFacts.

(* ===================================================================== *)
(** * Properties of the processor *)

Section ProcessorFacts.

Context `{RediSearch.Options} `{RediSearch.Outside}.

(** The Stat [sendIfRequired] makes for the enqueue time [t]. *)
Lemma emitStats_spec (ct qid : string) (endT : GoTime.Time) (rcv : RediSearch.Reply)
    (tx : Z) (times : list GoTime.Time) :
  forall (rx : Z) (s : RediSearch.State),
  exists stats,
    RediSearch.emitStats ct qid endT rcv tx rx times s
      = RediSearch.Returns tt
          {| RediSearch.vanillaClient := RediSearch.vanillaClient s;
             RediSearch.cmdChan := RediSearch.cmdChan s ++ stats;
             RediSearch.clockReads := RediSearch.clockReads s;
             RediSearch.roundTrips := RediSearch.roundTrips s;
             RediSearch.logged := RediSearch.logged s;
             RediSearch.ePool := RediSearch.ePool s |}
    /\ Forall2
         (fun t st =>
            exists c, Stats.CmdStats st = [c]
                      /\ Stats.Label c = ct
                      /\ Stats.Latency c
                         = GoInt.uint64 (GoTime.Microseconds (GoTime.Sub endT t)))
         times stats.
Proof.
  induction times as [| t rest IH]; intros rx s.
  - exists []. split; [| constructor].
    destruct s; simpl. unfold RediSearch.ret. rewrite app_nil_r. reflexivity.
  - simpl. unfold RediSearch.bind at 1. unfold RediSearch.sendCmdChan at 1.
    match goal with
    | |- context [RediSearch.emitStats _ _ _ _ _ ?rx' rest ?s'] =>
        destruct (IH rx' s') as (stats & Hrun & Hall)
    end.
    eexists (_ :: stats). split.
    + rewrite Hrun. simpl. rewrite <- app_assoc. reflexivity.
    + constructor; [| exact Hall].
      eexists. simpl. repeat split.
Qed.

Lemma microseconds_of_elapsed (endT t : GoTime.Time) :
  0 <= GoTime.mono endT - GoTime.mono t <= GoInt.maxInt64 ->
  GoInt.uint64 (GoTime.Microseconds (GoTime.Sub endT t))
    = Z.quot (GoTime.mono endT - GoTime.mono t) 1000.
Proof.
  intros Hd. unfold GoTime.Sub, GoTime.Microseconds, GoInt.uint64.
  unfold GoInt.maxInt64, GoInt.minInt64, GoInt.two63, GoInt.two64 in *.
  destruct (Z.ltb_spec (2 ^ 63 - 1) (GoTime.mono endT - GoTime.mono t)); [lia |].
  destruct (Z.ltb_spec (GoTime.mono endT - GoTime.mono t) (- 2 ^ 63)); [lia |].
  rewrite Z.quot_div_nonneg by lia.
  apply Z.mod_small.
  pose proof (Z.div_pos (GoTime.mono endT - GoTime.mono t) 1000).
  pose proof (Z.div_le_upper_bound (GoTime.mono endT - GoTime.mono t) 1000 (2 ^ 63)).
  lia.
Qed.

Lemma sendIfRequired_below (ct qid : string) (cmds : list RediSearch.CmdAction)
    (times : list GoTime.Time) (rx : Z) (rcv : RediSearch.Reply) (tx : Z)
    (s : RediSearch.State) :
  GoInt.len cmds < RediSearch.pipeline ->
  RediSearch.sendIfRequired ct qid cmds times rx rcv tx s
    = RediSearch.Returns (cmds, times) s.
Proof.
  intros Hlt. unfold RediSearch.sendIfRequired.
  destruct (Z.leb_spec RediSearch.pipeline (GoInt.len cmds)); [lia | reflexivity].
Qed.

(** A flush that does not end the process: the state it leaves. *)
Lemma sendIfRequired_flush (ct qid : string) (cmds : list RediSearch.CmdAction)
    (times : list GoTime.Time) (rx : Z) (rcv : RediSearch.Reply) (tx : Z)
    (s : RediSearch.State) :
  RediSearch.pipeline <= GoInt.len cmds ->
  RediSearch.vanillaClient s = true ->
  let err := RediSearch.roundTrip (length (RediSearch.roundTrips s)) cmds in
  let endT := RediSearch.now (RediSearch.clockReads s) in
  (err = None \/ RediSearch.continueOnErr = true) ->
  exists stats,
    RediSearch.sendIfRequired ct qid cmds times rx rcv tx s
      = RediSearch.Returns ([], [])
          {| RediSearch.vanillaClient := true;
             RediSearch.cmdChan := RediSearch.cmdChan s ++ stats;
             RediSearch.clockReads := S (RediSearch.clockReads s);
             RediSearch.roundTrips := RediSearch.roundTrips s ++ [cmds];
             RediSearch.logged :=
               RediSearch.logged s ++
                 match err with
                 | Some e =>
                     if 0 <? RediSearch.debug
                     then [RediSearch.PipelineError cmds e] else []
                 | None => []
                 end;
             RediSearch.ePool := RediSearch.ePool s |}
    /\ Forall2
         (fun t st =>
            exists c, Stats.CmdStats st = [c]
                      /\ Stats.Label c = ct
                      /\ Stats.Latency c
                         = GoInt.uint64 (GoTime.Microseconds (GoTime.Sub endT t)))
         times stats.
Proof.
  intros Hge Hclient err endT Hok.
  unfold RediSearch.sendIfRequired.
  destruct (Z.leb_spec RediSearch.pipeline (GoInt.len cmds)); [| lia].
  unfold RediSearch.bind at 1. unfold RediSearch.vanillaClientDo.
  rewrite Hclient.
  unfold RediSearch.bind at 1. unfold RediSearch.timeNow. cbn [RediSearch.clockReads].
  fold err. fold endT.
  unfold RediSearch.bind at 1.
  assert (Hpolicy :
    exists extra,
      extra = match err with
              | Some e => if 0 <? RediSearch.debug
                          then [RediSearch.PipelineError cmds e] else []
              | None => []
              end
      /\ forall s0,
        match err with
        | Some e =>
            if RediSearch.continueOnErr
            then if 0 <? RediSearch.debug
                 then RediSearch.logPrintln (RediSearch.PipelineError cmds e)
                 else RediSearch.ret tt
            else RediSearch.logFatal e
        | None => RediSearch.ret tt
        end s0
        = RediSearch.Returns tt
            {| RediSearch.vanillaClient := RediSearch.vanillaClient s0;
               RediSearch.cmdChan := RediSearch.cmdChan s0;
               RediSearch.clockReads := RediSearch.clockReads s0;
               RediSearch.roundTrips := RediSearch.roundTrips s0;
               RediSearch.logged := RediSearch.logged s0 ++ extra;
               RediSearch.ePool := RediSearch.ePool s0 |}).
  { eexists. split; [reflexivity |]. intros s0.
    destruct err as [e |].
    - destruct Hok as [Hnone | Hcont]; [discriminate |]. rewrite Hcont.
      destruct (0 <? RediSearch.debug); [reflexivity |].
      destruct s0; simpl. unfold RediSearch.ret. rewrite app_nil_r. reflexivity.
    - destruct s0; simpl. unfold RediSearch.ret. rewrite app_nil_r. reflexivity. }
  destruct Hpolicy as (extra & Hextra & Hrun). rewrite Hrun. clear Hrun.
  cbn [RediSearch.vanillaClient RediSearch.cmdChan RediSearch.clockReads
       RediSearch.roundTrips RediSearch.logged RediSearch.ePool].
  unfold RediSearch.bind at 1.
  match goal with
  | |- context [RediSearch.emitStats ct qid endT rcv tx rx times ?s'] =>
      destruct (emitStats_spec ct qid endT rcv tx times rx s')
        as (stats & Hemit & Hall)
  end.
  exists stats. rewrite Hemit. subst extra. split; [reflexivity | exact Hall].
Qed.

(** C3. While the buffer holds fewer than [pipeline] commands the flush
    step sends nothing, emits nothing and keeps both buffers. Once it
    holds at least [pipeline] commands, in a flush that does not end the
    process, all of them go to the target in one round trip, one Stat
    with one CmdStat is emitted for every pending command, its latency is
    the time of the one reading of the clock after the round trip minus
    that command's enqueue time, in whole microseconds, and both buffers
    are left empty. The clock is taken not to run backwards. *)
Theorem sendIfRequired_flushes_at_pipeline (ct qid : string)
    (cmds : list RediSearch.CmdAction) (times : list GoTime.Time)
    (rx : Z) (rcv : RediSearch.Reply) (tx : Z) (s : RediSearch.State) :
  length times = length cmds ->
  (GoInt.len cmds < RediSearch.pipeline ->
     RediSearch.sendIfRequired ct qid cmds times rx rcv tx s
       = RediSearch.Returns (cmds, times) s)
  /\ (RediSearch.pipeline <= GoInt.len cmds ->
      RediSearch.vanillaClient s = true ->
      let err := RediSearch.roundTrip (length (RediSearch.roundTrips s)) cmds in
      let endT := RediSearch.now (RediSearch.clockReads s) in
      (err = None \/ RediSearch.continueOnErr = true) ->
      Forall (fun t => 0 <= GoTime.mono endT - GoTime.mono t <= GoInt.maxInt64) times ->
      exists s' stats,
        RediSearch.sendIfRequired ct qid cmds times rx rcv tx s
          = RediSearch.Returns ([], []) s'
        /\ RediSearch.roundTrips s' = RediSearch.roundTrips s ++ [cmds]
        /\ RediSearch.cmdChan s' = RediSearch.cmdChan s ++ stats
        /\ length stats = length cmds
        /\ Forall2
             (fun t st =>
                exists c, Stats.CmdStats st = [c]
                          /\ Stats.Latency c
                             = Z.quot (GoTime.mono endT - GoTime.mono t) 1000)
             times stats).
Proof.
  intros Hlen. split.
  - apply sendIfRequired_below.
  - intros Hge Hclient err endT Hok Hclock.
    destruct (sendIfRequired_flush ct qid cmds times rx rcv tx s Hge Hclient Hok)
      as (stats & Hrun & Hall).
    eexists. exists stats. split; [exact Hrun |].
    cbn [RediSearch.roundTrips RediSearch.cmdChan].
    split; [reflexivity | split; [reflexivity |]].
    split.
    + rewrite <- Hlen. symmetry. eapply Forall2_length. exact Hall.
    + clear Hrun Hlen. fold endT in Hall.
      induction Hall as [| t st times' stats' (c & Hc & _ & Hlat) _ IH].
      * constructor.
      * inversion Hclock as [| ? ? Ht Hrest]; subst.
        constructor; [| apply IH, Hrest].
        exists c. split; [exact Hc |].
        rewrite Hlat. apply microseconds_of_elapsed, Ht.
Qed.

(** C4, as the code has it. When a flush round trip returns an error and
    [continueOnErr] is set, the error is logged only if [debug] is above
    zero, and otherwise leaves no line; either way the flush goes on: a
    Stat is emitted for every pending command, the buffers are emptied
    and the call returns, so the rows that follow are processed. When
    [continueOnErr] is not set, [log.Fatal] logs the error and the
    process exits at once, with nothing emitted. *)
Theorem sendIfRequired_error_policy (ct qid : string)
    (cmds : list RediSearch.CmdAction) (times : list GoTime.Time)
    (rx : Z) (rcv : RediSearch.Reply) (tx : Z) (s : RediSearch.State)
    (e : string) :
  RediSearch.pipeline <= GoInt.len cmds ->
  RediSearch.vanillaClient s = true ->
  RediSearch.roundTrip (length (RediSearch.roundTrips s)) cmds = Some e ->
  (RediSearch.continueOnErr = true ->
     exists s' stats,
       RediSearch.sendIfRequired ct qid cmds times rx rcv tx s
         = RediSearch.Returns ([], []) s'
       /\ RediSearch.logged s'
          = RediSearch.logged s ++
              (if 0 <? RediSearch.debug
               then [RediSearch.PipelineError cmds e] else [])
       /\ RediSearch.cmdChan s' = RediSearch.cmdChan s ++ stats
       /\ length stats = length times)
  /\ (RediSearch.continueOnErr = false ->
      exists s',
        RediSearch.sendIfRequired ct qid cmds times rx rcv tx s
          = RediSearch.Exits s'
        /\ RediSearch.logged s' = RediSearch.logged s ++ [RediSearch.FatalError e]
        /\ RediSearch.cmdChan s' = RediSearch.cmdChan s).
Proof.
  intros Hge Hclient Herr. split.
  - intros Hcont.
    destruct (sendIfRequired_flush ct qid cmds times rx rcv tx s Hge Hclient
                (or_intror Hcont)) as (stats & Hrun & Hall).
    eexists. exists stats. split; [exact Hrun |].
    cbn [RediSearch.logged RediSearch.cmdChan]. rewrite Herr.
    split; [reflexivity | split; [reflexivity |]].
    symmetry. eapply Forall2_length. exact Hall.
  - intros Hstop. unfold RediSearch.sendIfRequired.
    destruct (Z.leb_spec RediSearch.pipeline (GoInt.len cmds)); [| lia].
    unfold RediSearch.bind, RediSearch.vanillaClientDo, RediSearch.timeNow.
    rewrite Hclient, Herr, Hstop. cbn.
    eexists. split; [reflexivity |]. split; reflexivity.
Qed.

(** The dry run of one batch, as an equation. *)
Lemma ProcessBatch_doLoad_false (b : RediSearch.eventsBatch) (s : RediSearch.State) :
  RediSearch.ProcessBatch b false s
    = RediSearch.Returns (Stats.NewStat, {| RediSearch.rows := [] |})
        {| RediSearch.vanillaClient := RediSearch.vanillaClient s;
           RediSearch.cmdChan := RediSearch.cmdChan s;
           RediSearch.clockReads := RediSearch.clockReads s;
           RediSearch.roundTrips := RediSearch.roundTrips s;
           RediSearch.logged := RediSearch.logged s;
           RediSearch.ePool := {| RediSearch.rows := [] |} :: RediSearch.ePool s |}.
Proof.
  unfold RediSearch.ProcessBatch, RediSearch.bind, RediSearch.ret,
    RediSearch.ePoolPut.
  reflexivity.
Qed.

(** C7. With [doLoad] false, [ProcessBatch] returns, for every batch, a
    Stat without any CmdStat; the batch goes back to the pool with its
    rows cut to none; no pipeline is sent, the clock is not read and
    nothing is logged. *)
Theorem ProcessBatch_dry_run (b : RediSearch.eventsBatch) (s : RediSearch.State) :
  exists outstat events s',
    RediSearch.ProcessBatch b false s = RediSearch.Returns (outstat, events) s'
    /\ Stats.CmdStats outstat = []
    /\ RediSearch.rows events = []
    /\ RediSearch.ePool s' = events :: RediSearch.ePool s
    /\ RediSearch.roundTrips s' = RediSearch.roundTrips s
    /\ RediSearch.cmdChan s' = RediSearch.cmdChan s
    /\ RediSearch.clockReads s' = RediSearch.clockReads s
    /\ RediSearch.logged s' = RediSearch.logged s.
Proof.
  exists Stats.NewStat, {| RediSearch.rows := [] |}. eexists.
  split; [apply ProcessBatch_doLoad_false |].
  cbn. repeat split.
Qed.

(** The two buffers grow and are emptied together: [sendFlatCmd] keeps
    them of one length, as they are when [connectionProcessor] starts. *)
Lemma sendIfRequired_buffers (ct qid : string) (cmds : list RediSearch.CmdAction)
    (times : list GoTime.Time) (rx : Z) (rcv : RediSearch.Reply) (tx : Z)
    (s s' : RediSearch.State) (r : list RediSearch.CmdAction * list GoTime.Time) :
  RediSearch.sendIfRequired ct qid cmds times rx rcv tx s = RediSearch.Returns r s' ->
  r = ([], []) \/ r = (cmds, times).
Proof.
  unfold RediSearch.sendIfRequired.
  destruct (RediSearch.pipeline <=? GoInt.len cmds).
  - intros Hrun. left. revert Hrun.
    unfold RediSearch.bind at 1. unfold RediSearch.vanillaClientDo.
    destruct (RediSearch.vanillaClient s); [| discriminate].
    unfold RediSearch.bind at 1. unfold RediSearch.timeNow.
    unfold RediSearch.bind at 1.
    match goal with
    | |- context [match ?policy ?s0 with _ => _ end] =>
        destruct (policy s0) as [[] s1 | s1 | msg]; try discriminate
    end.
    unfold RediSearch.bind at 1.
    match goal with
    | |- context [RediSearch.emitStats ?a ?b ?c ?d ?e ?f ?g ?s0] =>
        destruct (emitStats_spec a b c d e g f s0) as (stats & -> & _)
    end.
    unfold RediSearch.ret. congruence.
  - unfold RediSearch.ret. intros [= <- _]. right. reflexivity.
Qed.

Lemma sendFlatCmd_aligned (ct qid cmd : string) (docfields : list string)
    (tx n : Z) (cmds : list RediSearch.CmdAction) (times : list GoTime.Time)
    (s s' : RediSearch.State) (r : list RediSearch.CmdAction * list GoTime.Time) :
  length times = length cmds ->
  RediSearch.sendFlatCmd ct qid cmd docfields tx n cmds times s
    = RediSearch.Returns r s' ->
  length (snd r) = length (fst r).
Proof.
  intros Hlen. unfold RediSearch.sendFlatCmd.
  destruct docfields as [| key rest]; [discriminate |].
  unfold RediSearch.bind, RediSearch.timeNow. intros Hrun.
  apply sendIfRequired_buffers in Hrun. destruct Hrun as [-> | ->]; simpl.
  - reflexivity.
  - rewrite !length_app, Hlen. reflexivity.
Qed.

(** A worker in dry-run mode: every batch is acknowledged, the runner
    records nothing and the target sees nothing. *)
Lemma work_dry_run `{Hdr.Library} (batches : list RediSearch.eventsBatch) :
  forall (l : Load.BenchmarkRunner) (proc : RediSearch.State) (acks : Z),
  Load.doLoad l = false ->
  exists proc',
    Load.work l proc acks batches = Some (l, proc', acks + GoInt.len batches)
    /\ RediSearch.roundTrips proc' = RediSearch.roundTrips proc.
Proof.
  unfold GoInt.len.
  induction batches as [| b rest IH]; intros l proc acks Hdry.
  - exists proc. simpl. rewrite Z.add_0_r. split; reflexivity.
  - cbn [Load.work]. rewrite Hdry.
    cbn [Load.ProcessBatch GetProcessor].
    rewrite ProcessBatch_doLoad_false.
    cbn [Load.recordCmdStats Stats.CmdStats Stats.NewStat fold_left].
    match goal with
    | |- context [Load.work l ?proc1 (acks + 1) rest] =>
        destruct (IH l proc1 (acks + 1) Hdry) as (proc' & Hwork & Hsame)
    end.
    exists proc'. rewrite Hwork. split; [| exact Hsame].
    do 2 f_equal. cbn [length]. lia.
Qed.

End ProcessorFacts.

(* ===================================================================== *)
(** * Properties of the indexer *)

(** C5. For a partition count of at least one, as the number of channels
    of a run is, and a count of items read that a [uint64] holds,
    [GetIndex] returns [itemsRead mod numPartitions], a number from zero up
    to and not including [numPartitions]; the record itself plays no part,
    so two runs that read as many records assign them alike. *)
Theorem GetIndex_is_mod {Point : Type} (i : LoadRediSearch.RedisIndexer)
    (itemsRead : Z) (p p' : Point) :
  0 < LoadRediSearch.partitions i <= GoInt.maxInt64 ->
  0 <= itemsRead < GoInt.two64 ->
  LoadRediSearch.GetIndex i itemsRead p
    = Some (itemsRead mod LoadRediSearch.partitions i)
  /\ 0 <= itemsRead mod LoadRediSearch.partitions i < LoadRediSearch.partitions i
  /\ LoadRediSearch.GetIndex i itemsRead p' = LoadRediSearch.GetIndex i itemsRead p.
Proof.
  intros Hparts Hitems.
  unfold LoadRediSearch.GetIndex, GoInt.int64, GoInt.uint64.
  unfold GoInt.maxInt64, GoInt.two63, GoInt.two64 in *.
  destruct (Z.eqb_spec (LoadRediSearch.partitions i) 0) as [Hz | Hnz]; [lia |].
  pose proof (Z.mod_pos_bound itemsRead (LoadRediSearch.partitions i)) as Hmod.
  rewrite (Z.mod_small itemsRead (2 ^ 64)) by lia.
  split; [| split; [lia | reflexivity]].
  f_equal.
  rewrite (Z.mod_small (_ + 2 ^ 63) (2 ^ 64)) by lia. lia.
Qed.

(* ===================================================================== *)
(** * Properties of the backpressure between scanner and workers *)

Section BackpressureFacts.

Context {B : Type}.

Lemma accounted_start (capacity : Z) :
  0 <= capacity ->
  Backpressure.accounted (Backpressure.start (Load.newDuplexChannel (B := B) capacity)).
Proof.
  intros Hcap.
  unfold Backpressure.accounted, Backpressure.unacknowledged, GoInt.len.
  cbn. lia.
Qed.

Lemma accounted_step (s s' : Backpressure.System B) (a : Backpressure.Action B) :
  Backpressure.accounted s ->
  Backpressure.step s a = Some s' ->
  Backpressure.accounted s'
  /\ Load.queueLen (Backpressure.channel s') = Load.queueLen (Backpressure.channel s).
Proof.
  unfold Backpressure.accounted, Backpressure.unacknowledged, GoInt.len.
  intros (Hcount & Hacks & Hcap) Hstep.
  destruct s as [[cap queue acks shut] busy count]; cbn in *.
  destruct a as [b | | i | |]; cbn in Hstep.
  - destruct shut; [discriminate |].
    destruct (Z.ltb_spec count cap); [| discriminate].
    injection Hstep as <-. cbn. rewrite length_app. cbn. lia.
  - destruct queue as [| b rest]; [discriminate |].
    injection Hstep as <-. cbn in *. rewrite length_app. cbn. lia.
  - destruct (busy !! i) as [b |] eqn:Hi; [| discriminate].
    destruct (Z.ltb_spec acks cap); [| discriminate].
    injection Hstep as <-. cbn.
    pose proof (lookup_lt_Some _ _ _ Hi).
    rewrite length_delete by (rewrite Hi; eauto). lia.
  - destruct (Z.ltb_spec 0 acks); [| discriminate].
    injection Hstep as <-. cbn. lia.
  - destruct shut; [discriminate |].
    injection Hstep as <-. cbn. lia.
Qed.

Lemma accounted_steps (actions : list (Backpressure.Action B))
    (s s' : Backpressure.System B) :
  Backpressure.accounted s ->
  Backpressure.steps s actions = Some s' ->
  Backpressure.accounted s'
  /\ Load.queueLen (Backpressure.channel s') = Load.queueLen (Backpressure.channel s).
Proof.
  revert s. induction actions as [| a rest IH]; intros s Hs Hrun; simpl in Hrun.
  - injection Hrun as <-. split; [exact Hs | reflexivity].
  - destruct (Backpressure.step s a) as [s1 |] eqn:Hstep; [| discriminate].
    destruct (accounted_step s s1 a Hs Hstep) as [Hs1 Hcap1].
    destruct (IH s1 Hs1 Hrun) as [Hs' Hcap']. split; [exact Hs' | congruence].
Qed.

(** Only the acknowledgement of a worker lowers the number of
    unacknowledged batches. *)
Lemma unacknowledged_drops_on_ack (s s' : Backpressure.System B)
    (a : Backpressure.Action B) :
  Backpressure.step s a = Some s' ->
  Backpressure.unacknowledged s' < Backpressure.unacknowledged s ->
  exists i, a = Backpressure.Ack i.
Proof.
  unfold Backpressure.unacknowledged, GoInt.len.
  destruct s as [[cap queue acks shut] busy count]; cbn.
  destruct a as [b | | i | |]; cbn; intros Hstep Hdrop.
  - destruct shut; [discriminate |].
    destruct (count <? cap); [| discriminate].
    injection Hstep as <-. cbn in Hdrop. rewrite length_app in Hdrop.
    cbn in Hdrop. lia.
  - destruct queue as [| b rest]; [discriminate |].
    injection Hstep as <-. cbn in Hdrop. rewrite length_app in Hdrop.
    cbn in Hdrop. lia.
  - exists i. reflexivity.
  - destruct (0 <? acks); [| discriminate].
    injection Hstep as <-. cbn in Hdrop. lia.
  - destruct shut; [discriminate |].
    injection Hstep as <-. cbn in Hdrop. lia.
Qed.

(** Every channel [createChannels] makes is a new channel of one and
    the same capacity. *)
Lemma createChannels_new (l : Load.BenchmarkRunner) (workQueues : Z)
    (channels : list (Load.duplexChannel B)) (c : Load.duplexChannel B) :
  Load.createChannels l workQueues = Some channels ->
  c ∈ channels ->
  c = Load.newDuplexChannel (Load.queueLen c).
Proof.
  unfold Load.createChannels. intros Hmade Hin.
  destruct (workQueues =? Load.WorkerPerQueue);
    [| destruct (Load.workers l <? workQueues); [discriminate |]];
    injection Hmade as <-;
    apply elem_of_replicate in Hin; destruct Hin as [-> _]; reflexivity.
Qed.

(** C9. On a channel [createChannels] has made, in every state the
    scanner and the workers can reach, the batches enqueued and not
    acknowledged are no more than the capacity the channel was made with;
    when they are as many, a send of the scanner cannot go through, and it
    is the acknowledgement of a worker, and no other step, that brings
    their number down. *)
Theorem unacknowledged_within_capacity (l : Load.BenchmarkRunner)
    (workQueues : Z) (channels : list (Load.duplexChannel B))
    (c : Load.duplexChannel B)
    (actions : list (Backpressure.Action B)) (s : Backpressure.System B) :
  Load.createChannels l workQueues = Some channels ->
  c ∈ channels ->
  0 <= Load.queueLen c ->
  Backpressure.steps (Backpressure.start c) actions = Some s ->
  Load.queueLen (Backpressure.channel s) = Load.queueLen c
  /\ Backpressure.unacknowledged s <= Load.queueLen c
  /\ (Backpressure.unacknowledged s = Load.queueLen c ->
      forall b, Backpressure.step s (Backpressure.Send b) = None)
  /\ (forall a s', Backpressure.step s a = Some s' ->
        Backpressure.unacknowledged s' < Backpressure.unacknowledged s ->
        exists i, a = Backpressure.Ack i).
Proof.
  intros Hmade Hin Hcap Hrun.
  pose proof (createChannels_new l workQueues channels c Hmade Hin) as Hnew.
  assert (Hstart : Backpressure.accounted (Backpressure.start c)).
  { rewrite Hnew. apply accounted_start, Hcap. }
  destruct (accounted_steps actions _ s Hstart Hrun)
    as [(Hcount & Hacks & Hbound) Hlen].
  cbn in Hlen. rewrite Hlen in Hbound.
  split; [exact Hlen | split; [lia | split]].
  - intros Hfull b. unfold Backpressure.step.
    destruct (Load.closed (Backpressure.channel s)); [reflexivity |].
    destruct (Z.ltb_spec (Backpressure.outstanding s)
                (Load.queueLen (Backpressure.channel s))); [lia | reflexivity].
  - intros a s'. apply unacknowledged_drops_on_ack.
Qed.

End BackpressureFacts.

(* ===================================================================== *)
(** * The properties at the sample inputs *)

(** A run of three ticks and no operation: the write ratio is NaN. *)
Lemma measured_ratios_NaN_at_idle_run :
  Load.GetMeasuredRatiosMap
    (snd (@Load.runEvents Sample.rangeLibrary (Sample.at_second 0)
            Sample.idle Sample.jitter))
    !! "MeasuredWriteRatio" = Some S754_nan.
Proof.
  exact (proj1 (@measured_ratios_NaN_without_operations Sample.rangeLibrary
                  4 true (Sample.at_second 0) Sample.jitter _ eq_refl eq_refl)).
Defined.

(** After one recorded write and one tick, the instantaneous histogram of
    writes is empty and the instantaneous global histogram still counts
    the write. *)
Lemma inst_total_survives_tick :
  let l' := snd (fst (@Load.reportTick Sample.rangeLibrary (Sample.at_second 1)
                        (Load.reportStart (Sample.at_second 0), Sample.oneWrite))) in
  Hdr.TotalCount (Load.instantaneous Load.Write l') = 0
  /\ Hdr.TotalCount (Load.inst_totalHistogram l') = 1.
Proof. vm_compute. split; reflexivity. Qed.

(** Timestamps 3, 1, 2 come out as 1, 2, 3. *)
Lemma jitter_is_sorted :
  map Load.Timestamp
    (Load.sortByTimestamp
       (Load.series Load.Write
          (snd (@Load.runEvents Sample.rangeLibrary (Sample.at_second 0)
                  Sample.idle Sample.jitter))))
  = [1; 2; 3].
Proof. vm_compute. reflexivity. Qed.

(** With a threshold of two, the two pending commands go out in one
    round trip at the third reading of the clock, 3000 ns: the latencies
    are 3 and 1 microseconds. *)
Lemma sendIfRequired_flush_at_sample :
  exists s' stats,
    @RediSearch.sendIfRequired (Sample.options 2 true 0) Sample.healthy
      "WRITE" "q2" Sample.pending Sample.pendingTimes 0 RediSearch.ReplyNil 19
      Sample.enqueued
    = RediSearch.Returns ([], []) s'
    /\ RediSearch.roundTrips s' = [] ++ [Sample.pending]
    /\ RediSearch.cmdChan s' = [] ++ stats
    /\ length stats = 2%nat
    /\ Forall2
         (fun t st =>
            exists c, Stats.CmdStats st = [c]
                      /\ Stats.Latency c = Z.quot (3000 - GoTime.mono t) 1000)
         Sample.pendingTimes stats.
Proof.
  destruct (@sendIfRequired_flushes_at_pipeline (Sample.options 2 true 0)
              Sample.healthy "WRITE" "q2" Sample.pending Sample.pendingTimes
              0 RediSearch.ReplyNil 19 Sample.enqueued eq_refl) as [_ Hflush].
  apply Hflush.
  - vm_compute. discriminate.
  - reflexivity.
  - left. reflexivity.
  - repeat constructor; vm_compute; discriminate.
Defined.

(** C4, refuted as stated: [continueOnErr] is set, [debug] is zero, the
    round trip returns an error, and the flush returns without a line in
    the log. *)
Lemma error_not_logged_without_debug :
  RediSearch.continueOnErr (Options := Sample.options 2 true 0) = true
  /\ RediSearch.roundTrip (Outside := Sample.failing) 0 Sample.pending = Some "ERR"
  /\ exists s',
       @RediSearch.sendIfRequired (Sample.options 2 true 0) Sample.failing
         "WRITE" "q2" Sample.pending Sample.pendingTimes 0 RediSearch.ReplyNil 19
         Sample.enqueued
       = RediSearch.Returns ([], []) s'
       /\ RediSearch.logged s' = [].
Proof.
  split; [reflexivity | split; [reflexivity |]].
  eexists. split; vm_compute; reflexivity.
Qed.

(** With [debug] at one the same error leaves its line. *)
Lemma error_policy_at_sample :
  exists s' stats,
    @RediSearch.sendIfRequired (Sample.options 2 true 1) Sample.failing
      "WRITE" "q2" Sample.pending Sample.pendingTimes 0 RediSearch.ReplyNil 19
      Sample.enqueued
    = RediSearch.Returns ([], []) s'
    /\ RediSearch.logged s'
       = [] ++ [RediSearch.PipelineError Sample.pending "ERR"]
    /\ RediSearch.cmdChan s' = [] ++ stats
    /\ length stats = 2%nat.
Proof.
  refine (proj1 (@sendIfRequired_error_policy (Sample.options 2 true 1)
                   Sample.failing "WRITE" "q2" Sample.pending Sample.pendingTimes
                   0 RediSearch.ReplyNil 19 Sample.enqueued "ERR" _ eq_refl eq_refl)
                eq_refl).
  vm_compute. discriminate.
Defined.

(** The eleventh record of a run over four partitions goes to the third. *)
Lemma GetIndex_at_sample :
  LoadRediSearch.GetIndex (LoadRediSearch.GetPointIndexer 4) 10 tt = Some 2.
Proof.
  refine (proj1 (@GetIndex_is_mod unit (LoadRediSearch.GetPointIndexer 4) 10 tt tt _ _)).
  - vm_compute. split; [reflexivity | discriminate].
  - vm_compute. split; [discriminate | reflexivity].
Defined.

(** Eight workers on three queues: each channel has capacity three; the
    sample traffic runs on the first and leaves one batch unacknowledged. *)
Lemma unacknowledged_at_sample :
  exists s,
    Backpressure.steps (Backpressure.start (Load.newDuplexChannel 3)) Sample.traffic
      = Some s
    /\ Backpressure.unacknowledged s <= 3.
Proof.
  eexists. split; [reflexivity |].
  refine (proj1 (proj2 (@unacknowledged_within_capacity Z Sample.idle8 3 _
                          (Load.newDuplexChannel 3) Sample.traffic _
                          eq_refl _ _ eq_refl))).
  - apply list_elem_of_here.
  - vm_compute. discriminate.
Defined.

(** A second send before the first batch is acknowledged is blocked. *)
Lemma second_send_blocks :
  Backpressure.steps (Backpressure.start (Load.newDuplexChannel 1))
    [Backpressure.Send 7; Backpressure.Send 8] = None.
Proof. reflexivity. Qed.

(* ===================================================================== *)
(** * A batch through the processor *)

Section BatchFacts.

Context `{RediSearch.Options} `{RediSearch.Outside}.

Lemma after_nothing (s : RediSearch.State) : Batch.after s 0 [] [] [] = s.
Proof. destruct s. unfold Batch.after. cbn. rewrite !app_nil_r. reflexivity. Qed.

Lemma after_after (s : RediSearch.State) (r1 r2 : nat)
    (t1 t2 : list (list RediSearch.CmdAction)) (st1 st2 : list Stats.Stat)
    (l1 l2 : list RediSearch.LogLine) :
  Batch.after (Batch.after s r1 t1 st1 l1) r2 t2 st2 l2
    = Batch.after s (r2 + r1) (t1 ++ t2) (st1 ++ st2) (l1 ++ l2).
Proof.
  unfold Batch.after. cbn. rewrite !app_assoc, Nat.add_assoc. reflexivity.
Qed.

Lemma emitStats_emitted (ct qid : string) (endT : GoTime.Time)
    (rcv : RediSearch.Reply) (tx : Z) (times : list GoTime.Time) :
  forall (rx : Z) (s : RediSearch.State),
  RediSearch.emitStats ct qid endT rcv tx rx times s
    = RediSearch.Returns tt
        (Batch.after s 0 [] (Batch.emitted ct qid endT rcv tx rx times) []).
Proof.
  induction times as [| t rest IH]; intros rx s.
  - cbn. rewrite after_nothing. reflexivity.
  - cbn [RediSearch.emitStats Batch.emitted].
    unfold RediSearch.bind at 1. unfold RediSearch.sendCmdChan at 1.
    rewrite IH. f_equal. destruct s. unfold Batch.after. cbn.
    rewrite !app_nil_r, <- app_assoc. reflexivity.
Qed.

Lemma emitted_length (ct qid : string) (endT : GoTime.Time)
    (rcv : RediSearch.Reply) (tx : Z) (times : list GoTime.Time) (rx : Z) :
  length (Batch.emitted ct qid endT rcv tx rx times) = length times.
Proof.
  revert rx. induction times as [| t rest IH]; intros rx; cbn;
    [reflexivity | rewrite IH; reflexivity].
Qed.

Lemma emitted_attributed (ct qid : string) (endT : GoTime.Time)
    (rcv : RediSearch.Reply) (tx : Z) (times : list GoTime.Time) (rx : Z) :
  Forall (Batch.attributed ct qid tx) (Batch.emitted ct qid endT rcv tx rx times).
Proof.
  revert rx. induction times as [| t rest IH]; intros rx; cbn; constructor.
  - eexists. cbn. repeat split.
  - apply IH.
Qed.

Lemma emitted_plain (ct qid : string) (endT : GoTime.Time) (tx : Z)
    (times : list GoTime.Time) :
  Forall Batch.plain (Batch.emitted ct qid endT RediSearch.ReplyNil tx 0 times).
Proof.
  induction times as [| t rest IH]; cbn; constructor.
  - eexists. cbn. repeat split.
  - exact IH.
Qed.

(** A flush that returns: what it returns and the state it leaves. *)
Lemma sendIfRequired_returns (ct qid : string) (cmds : list RediSearch.CmdAction)
    (times : list GoTime.Time) (rx : Z) (rcv : RediSearch.Reply) (tx : Z)
    (s s' : RediSearch.State) (r : list RediSearch.CmdAction * list GoTime.Time) :
  RediSearch.pipeline <= GoInt.len cmds ->
  RediSearch.sendIfRequired ct qid cmds times rx rcv tx s = RediSearch.Returns r s' ->
  r = ([], [])
  /\ exists lines,
       s' = Batch.after s 1 [cmds]
              (Batch.emitted ct qid (RediSearch.now (RediSearch.clockReads s))
                 rcv tx rx times)
              lines.
Proof.
  intros Hge. unfold RediSearch.sendIfRequired.
  destruct (Z.leb_spec RediSearch.pipeline (GoInt.len cmds)); [| lia].
  unfold RediSearch.bind at 1. unfold RediSearch.vanillaClientDo.
  destruct (RediSearch.vanillaClient s) eqn:Hclient; [| discriminate].
  unfold RediSearch.bind at 1. unfold RediSearch.timeNow.
  cbn [RediSearch.clockReads].
  unfold RediSearch.bind at 1.
  set (err := RediSearch.roundTrip (length (RediSearch.roundTrips s)) cmds).
  assert (Hpolicy : forall s0,
    (exists lines,
       match err with
       | Some e =>
           if RediSearch.continueOnErr
           then if 0 <? RediSearch.debug
                then RediSearch.logPrintln (RediSearch.PipelineError cmds e)
                else RediSearch.ret tt
           else RediSearch.logFatal e
       | None => RediSearch.ret tt
       end s0 = RediSearch.Returns tt (Batch.after s0 0 [] [] lines))
    \/ (exists s1,
       match err with
       | Some e =>
           if RediSearch.continueOnErr
           then if 0 <? RediSearch.debug
                then RediSearch.logPrintln (RediSearch.PipelineError cmds e)
                else RediSearch.ret tt
           else RediSearch.logFatal e
       | None => RediSearch.ret tt
       end s0 = RediSearch.Exits s1)).
  { intros s0. destruct err as [e |].
    - destruct RediSearch.continueOnErr.
      + left. destruct (0 <? RediSearch.debug).
        * eexists [_]. destruct s0. unfold Batch.after. cbn.
          rewrite !app_nil_r. reflexivity.
        * exists []. rewrite after_nothing. reflexivity.
      + right. eexists. reflexivity.
    - left. exists []. rewrite after_nothing. reflexivity. }
  match goal with
  | |- context [match ?policy ?s0 with _ => _ end] =>
      destruct (Hpolicy s0) as [(lines & ->) | (s1 & ->)]; [| discriminate]
  end.
  unfold RediSearch.bind at 1. rewrite emitStats_emitted.
  unfold RediSearch.ret. intros [= <- <-]. split; [reflexivity |].
  exists lines. rewrite after_after.
  destruct s. unfold Batch.after. cbn in *. rewrite Hclient.
  rewrite !app_nil_r. reflexivity.
Qed.

Lemma timeNow_after (s : RediSearch.State) :
  RediSearch.timeNow s
    = RediSearch.Returns (RediSearch.now (RediSearch.clockReads s))
        (Batch.after s 1 [] [] []).
Proof.
  destruct s. unfold RediSearch.timeNow, Batch.after. cbn.
  rewrite !app_nil_r. reflexivity.
Qed.

(** A call of [sendFlatCmd] that returns: the command had a first field;
    either the buffers grew by the command and nothing else happened, or
    the grown buffer was flushed. *)
Lemma sendFlatCmd_returns (ct qid cmd : string) (docfields : list string)
    (tx n : Z) (cmds : list RediSearch.CmdAction) (times : list GoTime.Time)
    (s s' : RediSearch.State) (r : list RediSearch.CmdAction * list GoTime.Time) :
  RediSearch.sendFlatCmd ct qid cmd docfields tx n cmds times s
    = RediSearch.Returns r s' ->
  exists key rest,
    docfields = key :: rest
    /\ let cmds1 := cmds ++ [{| RediSearch.cmdName := cmd; RediSearch.cmdKey := key;
                                RediSearch.cmdArgs := rest |}] in
       let times1 := times ++ [RediSearch.now (RediSearch.clockReads s)] in
       (GoInt.len cmds1 < RediSearch.pipeline
        /\ r = (cmds1, times1)
        /\ s' = Batch.after s 1 [] [] [])
       \/ (RediSearch.pipeline <= GoInt.len cmds1
           /\ r = ([], [])
           /\ exists lines,
                s' = Batch.after s 2 [cmds1]
                       (Batch.emitted ct qid
                          (RediSearch.now (S (RediSearch.clockReads s)))
                          RediSearch.ReplyNil tx 0 times1)
                       lines).
Proof.
  unfold RediSearch.sendFlatCmd.
  destruct docfields as [| key rest]; [discriminate |].
  unfold RediSearch.bind at 1. rewrite timeNow_after. intros Hrun.
  exists key, rest. split; [reflexivity |]. cbv zeta.
  match type of Hrun with
  | RediSearch.sendIfRequired _ _ ?c1 ?t1 _ _ _ _ = _ =>
      set (cmds1 := c1) in *; set (times1 := t1) in *
  end.
  destruct (Z.lt_ge_cases (GoInt.len cmds1) RediSearch.pipeline) as [Hlt | Hge].
  - left. rewrite (sendIfRequired_below _ _ _ _ _ _ _ _ Hlt) in Hrun.
    injection Hrun as <- <-. repeat split. exact Hlt.
  - right. destruct (sendIfRequired_returns _ _ _ _ _ _ _ _ _ _ Hge Hrun)
      as (-> & lines & ->).
    repeat split; [exact Hge |]. exists lines.
    rewrite after_after. reflexivity.
Qed.

Lemma preProcessCmd_wellFormed (row : string) :
  Batch.wellFormed row = true <-> exists c, RediSearch.preProcessCmd row = Some c.
Proof.
  unfold Batch.wellFormed. destruct (RediSearch.preProcessCmd row) as [c |].
  - split; [eauto | reflexivity].
  - split; [discriminate | intros [c Hc]; discriminate].
Qed.

(** The loop of [connectionProcessor] when it returns, from buffers of
    one length: every Stat sent answers one command of a round trip, and
    with a threshold of at least one and a buffer below it, every round
    trip carries as many commands as the threshold. *)
Lemma connectionLoop_returns (rows : list string) :
  forall (cmds : list RediSearch.CmdAction) (times : list GoTime.Time)
         (s s' : RediSearch.State),
  length times = length cmds ->
  RediSearch.connectionLoop 0 [cmds] [times] rows s = RediSearch.Returns tt s' ->
  exists reads trips stats lines,
    s' = Batch.after s reads trips stats lines
    /\ length stats = length (concat trips)
    /\ Forall Batch.plain stats
    /\ (1 <= RediSearch.pipeline ->
        GoInt.len cmds < RediSearch.pipeline ->
        Forall (fun trip => GoInt.len trip = RediSearch.pipeline) trips
        /\ GoInt.len trips
           = (GoInt.len cmds + GoInt.len (List.filter Batch.wellFormed rows))
               / RediSearch.pipeline).
Proof.
  induction rows as [| row rest IH]; intros cmds times s s' Hlen Hrun.
  - cbn in Hrun. injection Hrun as <-.
    exists 0%nat, [], [], []. rewrite after_nothing.
    repeat split; [constructor | constructor |].
    unfold GoInt.len in *. cbn. rewrite Z.add_0_r.
    rewrite Z.div_small by lia. reflexivity.
  - cbn [RediSearch.connectionLoop] in Hrun. cbn [List.filter].
    assert (Hwf : Batch.wellFormed row
                  = match RediSearch.preProcessCmd row with
                    | Some _ => true | None => false end) by reflexivity.
    destruct (RediSearch.preProcessCmd row) as [c |] eqn:Hrow; rewrite Hwf.
    2: { apply (IH cmds times s s' Hlen Hrun). }
    cbn [lookup list_lookup] in Hrun.
    unfold RediSearch.bind at 1 in Hrun.
    destruct (RediSearch.sendFlatCmd _ _ _ _ _ _ cmds times s)
      as [r s1 | s1 | msg] eqn:Hsend; try discriminate.
    destruct (sendFlatCmd_returns _ _ _ _ _ _ _ _ _ _ _ Hsend)
      as (key & args & Hargs & Hcases).
    cbv zeta in Hcases. cbn [insert list_insert] in Hrun.
    destruct Hcases as [(Hlt & -> & ->) | (Hge & -> & lines & ->)];
      cbn [fst snd] in Hrun.
    + apply IH in Hrun; [| rewrite !length_app, Hlen; reflexivity].
      destruct Hrun as (reads & trips & stats & lines & -> & Hcount & Hplain & Hfull).
      exists (reads + 1)%nat, trips, stats, lines.
      rewrite after_after. cbn [app].
      split; [reflexivity | split; [exact Hcount | split; [exact Hplain |]]].
      intros Hone Hbelow. destruct (Hfull Hone Hlt) as [Hall Htrips].
      split; [exact Hall |]. rewrite Htrips.
      unfold GoInt.len. rewrite length_app. cbn [length].
      f_equal. lia.
    + apply IH in Hrun; [| reflexivity].
      destruct Hrun as (reads & trips & stats & lines' & -> & Hcount & Hplain & Hfull).
      eexists (reads + 2)%nat, (_ :: trips), (_ ++ stats), (lines ++ lines').
      rewrite after_after. cbn [app].
      split; [reflexivity |]. split; [| split].
      * cbn [concat]. rewrite !length_app, emitted_length, Hcount.
        rewrite !length_app, Hlen. reflexivity.
      * apply Forall_app. split; [apply emitted_plain | exact Hplain].
      * intros Hone Hbelow.
        assert (Hexact : GoInt.len (cmds ++ [{| RediSearch.cmdName := RediSearch.cmd c;
                                               RediSearch.cmdKey := key;
                                               RediSearch.cmdArgs := args |}])
                         = RediSearch.pipeline).
        { unfold GoInt.len in *. rewrite length_app in *. cbn [length] in *. lia. }
        destruct (Hfull Hone) as [Hall Htrips].
        { unfold GoInt.len. cbn. lia. }
        split; [constructor; [exact Hexact | exact Hall] |].
        unfold GoInt.len in *. rewrite length_app in Hexact. cbn [length] in *.
        replace (Z.of_nat (length cmds)
                 + Z.of_nat (S (length (List.filter Batch.wellFormed rest))))
          with (Z.of_nat (length (List.filter Batch.wellFormed rest))
                + 1 * RediSearch.pipeline) by lia.
        rewrite Z.div_add by lia.
        change (Z.of_nat 0) with 0 in Htrips. rewrite Z.add_0_l in Htrips. lia.
Qed.

(** Without a slot, as in cluster mode, the loop panics at the first row
    [preProcessCmd] accepts and otherwise does nothing. *)
Lemma connectionLoop_no_slot (rows : list string) (s : RediSearch.State) :
  RediSearch.connectionLoop 0 [] [] rows s
    = if existsb Batch.wellFormed rows
      then RediSearch.Panics "index out of range [0] with length 0"
      else RediSearch.Returns tt s.
Proof.
  induction rows as [| row rest IH]; cbn [RediSearch.connectionLoop existsb].
  - reflexivity.
  - unfold Batch.wellFormed at 1.
    destruct (RediSearch.preProcessCmd row); [reflexivity | exact IH].
Qed.

(** Rows [preProcessCmd] rejects leave no trace. *)
Lemma connectionLoop_skips (rows : list string) :
  forall (slot : nat) (cmdSlots : list (list RediSearch.CmdAction))
         (timesSlots : list (list GoTime.Time)) (s : RediSearch.State),
  RediSearch.connectionLoop slot cmdSlots timesSlots rows s
    = RediSearch.connectionLoop slot cmdSlots timesSlots
        (List.filter Batch.wellFormed rows) s.
Proof.
  induction rows as [| row rest IH]; intros slot cmdSlots timesSlots s;
    [reflexivity |].
  cbn [List.filter]. unfold Batch.wellFormed at 1.
  cbn [RediSearch.connectionLoop].
  destruct (RediSearch.preProcessCmd row) as [c |] eqn:Hrow; [| apply IH].
  cbn [RediSearch.connectionLoop]. rewrite Hrow.
  destruct (cmdSlots !! slot); [| reflexivity].
  destruct (timesSlots !! slot); [| reflexivity].
  unfold RediSearch.bind.
  destruct (RediSearch.sendFlatCmd _ _ _ _ _ _ _ _ s); [apply IH | reflexivity ..].
Qed.

(** The loop returns only if every row it accepted had an argument. *)
Lemma connectionLoop_returns_no_bare (rows : list string) :
  forall (slot : nat) (cmdSlots : list (list RediSearch.CmdAction))
         (timesSlots : list (list GoTime.Time)) (s s' : RediSearch.State),
  RediSearch.connectionLoop slot cmdSlots timesSlots rows s = RediSearch.Returns tt s' ->
  existsb Batch.bare rows = false.
Proof.
  induction rows as [| row rest IH]; intros slot cmdSlots timesSlots s s' Hrun;
    [reflexivity |].
  cbn [RediSearch.connectionLoop existsb] in *. unfold Batch.bare at 1.
  destruct (RediSearch.preProcessCmd row) as [c |]; [| exact (IH _ _ _ _ _ Hrun)].
  destruct (cmdSlots !! slot) as [cmds |]; [| discriminate].
  destruct (timesSlots !! slot) as [times |]; [| discriminate].
  unfold RediSearch.bind at 1 in Hrun.
  destruct (RediSearch.sendFlatCmd _ _ _ _ _ _ cmds times s)
    as [r s1 | s1 | msg] eqn:Hsend; try discriminate.
  destruct (sendFlatCmd_returns _ _ _ _ _ _ _ _ _ _ _ Hsend) as (key & args & -> & _).
  exact (IH _ _ _ _ _ Hrun).
Qed.

(** With [continueOnErr] set, nothing in the loop ends the process by a
    fatal log. *)
Lemma sendFlatCmd_continues (ct qid cmd : string) (docfields : list string)
    (tx n : Z) (cmds : list RediSearch.CmdAction) (times : list GoTime.Time)
    (s s' : RediSearch.State) :
  RediSearch.continueOnErr = true ->
  RediSearch.sendFlatCmd ct qid cmd docfields tx n cmds times s <> RediSearch.Exits s'.
Proof.
  intros Hcont. unfold RediSearch.sendFlatCmd.
  destruct docfields as [| key rest]; [discriminate |].
  unfold RediSearch.bind at 1. rewrite timeNow_after.
  unfold RediSearch.sendIfRequired.
  destruct (RediSearch.pipeline <=? _); [| discriminate].
  unfold RediSearch.bind at 1. unfold RediSearch.vanillaClientDo.
  destruct (RediSearch.vanillaClient _); [| discriminate].
  unfold RediSearch.bind at 1. unfold RediSearch.timeNow.
  unfold RediSearch.bind at 1. rewrite Hcont.
  match goal with
  | |- context [match ?policy ?s0 with _ => _ end] =>
      assert (Hp : exists s1, policy s0 = RediSearch.Returns tt s1)
  end.
  { destruct (RediSearch.roundTrip _ _); [| eexists; reflexivity].
    destruct (0 <? RediSearch.debug); eexists; reflexivity. }
  destruct Hp as (s1 & ->).
  unfold RediSearch.bind at 1. rewrite emitStats_emitted. discriminate.
Qed.

Lemma connectionLoop_continues (rows : list string) :
  forall (slot : nat) (cmdSlots : list (list RediSearch.CmdAction))
         (timesSlots : list (list GoTime.Time)) (s s' : RediSearch.State),
  RediSearch.continueOnErr = true ->
  RediSearch.connectionLoop slot cmdSlots timesSlots rows s <> RediSearch.Exits s'.
Proof.
  induction rows as [| row rest IH]; intros slot cmdSlots timesSlots s s' Hcont;
    [discriminate |].
  cbn [RediSearch.connectionLoop].
  destruct (RediSearch.preProcessCmd row) as [c |]; [| apply IH, Hcont].
  destruct (cmdSlots !! slot) as [cmds |]; [| discriminate].
  destruct (timesSlots !! slot) as [times |]; [| discriminate].
  unfold RediSearch.bind at 1.
  destruct (RediSearch.sendFlatCmd _ _ _ _ _ _ cmds times s)
    as [r s1 | s1 | msg] eqn:Hsend.
  - apply IH, Hcont.
  - exfalso. exact (sendFlatCmd_continues _ _ _ _ _ _ _ _ _ _ Hcont Hsend).
  - discriminate.
Qed.

(** A buffer that the rows cannot fill to the threshold is never flushed. *)
Lemma connectionLoop_short (rows : list string) :
  forall (cmds : list RediSearch.CmdAction) (times : list GoTime.Time)
         (s : RediSearch.State),
  GoInt.len cmds + GoInt.len rows < RediSearch.pipeline ->
  match RediSearch.connectionLoop 0 [cmds] [times] rows s with
  | RediSearch.Returns _ s' => exists reads, s' = Batch.after s reads [] [] []
  | RediSearch.Exits _ => False
  | RediSearch.Panics _ => True
  end.
Proof.
  unfold GoInt.len.
  induction rows as [| row rest IH]; intros cmds times s Hshort.
  - cbn. exists 0%nat. rewrite after_nothing. reflexivity.
  - cbn [RediSearch.connectionLoop]. cbn [length] in Hshort.
    destruct (RediSearch.preProcessCmd row) as [c |]; [| apply IH; lia].
    cbn [lookup list_lookup]. unfold RediSearch.bind at 1.
    unfold RediSearch.sendFlatCmd.
    destruct (RediSearch.args c) as [| key args]; [exact I |].
    unfold RediSearch.bind at 1. rewrite timeNow_after.
    rewrite sendIfRequired_below
      by (unfold GoInt.len; rewrite length_app; cbn [length]; lia).
    cbn [insert list_insert fst snd].
    match goal with
    | |- context [RediSearch.connectionLoop 0 [?c1] [?t1] rest ?s1] =>
        specialize (IH c1 t1 s1)
    end.
    rewrite length_app in IH. cbn [length] in IH. specialize (IH ltac:(lia)).
    destruct (RediSearch.connectionLoop _ _ _ rest _) as [[] s' | s' | msg];
      [| exact IH | exact I].
    destruct IH as (reads & ->). exists (reads + 1)%nat.
    rewrite after_after. reflexivity.
Qed.

(** [ProcessBatch] with [doLoad] set, in terms of its connection loop. *)
Lemma ProcessBatch_load (b : RediSearch.eventsBatch) (s : RediSearch.State) :
  RediSearch.ProcessBatch b true s
    = match RediSearch.connectionProcessor (RediSearch.rows b) (Batch.fresh s) with
      | RediSearch.Returns _ s1 =>
          RediSearch.Returns
            (fold_left Stats.Merge (RediSearch.cmdChan s1) Stats.NewStat,
             {| RediSearch.rows := [] |})
            {| RediSearch.vanillaClient := RediSearch.vanillaClient s1;
               RediSearch.cmdChan := [];
               RediSearch.clockReads := RediSearch.clockReads s1;
               RediSearch.roundTrips := RediSearch.roundTrips s1;
               RediSearch.logged := RediSearch.logged s1;
               RediSearch.ePool := {| RediSearch.rows := [] |} :: RediSearch.ePool s1 |}
      | RediSearch.Exits s1 => RediSearch.Exits s1
      | RediSearch.Panics msg => RediSearch.Panics msg
      end.
Proof.
  unfold RediSearch.ProcessBatch, RediSearch.bind, RediSearch.makeCmdChan,
    RediSearch.drainCmdChan, RediSearch.ePoolPut, RediSearch.ret, Batch.fresh.
  destruct (RediSearch.connectionProcessor _ _) as [[] s1 | s1 | msg]; reflexivity.
Qed.

Lemma merged_CmdStats (stats : list Stats.Stat) (acc : Stats.Stat) :
  Stats.CmdStats (fold_left Stats.Merge stats acc)
    = Stats.CmdStats acc ++ concat (map Stats.CmdStats stats).
Proof.
  revert acc. induction stats as [| st rest IH]; intros acc; cbn.
  - rewrite app_nil_r. reflexivity.
  - rewrite IH. cbn. rewrite <- app_assoc. reflexivity.
Qed.

Lemma merged_plain (stats : list Stats.Stat) :
  Forall Batch.plain stats ->
  length (Stats.CmdStats (fold_left Stats.Merge stats Stats.NewStat)) = length stats
  /\ Forall (fun c => Stats.Rx c = 0 /\ Stats.isUpdate c = false
                      /\ Stats.isDelete c = false)
       (Stats.CmdStats (fold_left Stats.Merge stats Stats.NewStat)).
Proof.
  rewrite merged_CmdStats. cbn [Stats.NewStat Stats.CmdStats app].
  induction 1 as [| st rest (c & Hc & Hfields) _ [IHlen IHall]]; cbn.
  - split; [reflexivity | constructor].
  - rewrite Hc. cbn. split; [rewrite IHlen; reflexivity |].
    constructor; [exact Hfields | exact IHall].
Qed.

(** X1. Outside cluster mode and with a threshold of at least one, a call
    of [ProcessBatch] that loads and returns has sent only full pipelines:
    every round trip carries exactly [pipeline] commands, there are as
    many round trips as [pipeline] goes into the number of rows
    [preProcessCmd] accepts, and the Stat holds [pipeline] CmdStats for
    each; the commands of the remainder are never sent. *)
Theorem ProcessBatch_sends_full_pipelines (b : RediSearch.eventsBatch)
    (s s' : RediSearch.State) (outstat : Stats.Stat)
    (events : RediSearch.eventsBatch) :
  RediSearch.clusterMode = false ->
  1 <= RediSearch.pipeline ->
  RediSearch.ProcessBatch b true s = RediSearch.Returns (outstat, events) s' ->
  exists trips,
    RediSearch.roundTrips s' = RediSearch.roundTrips s ++ trips
    /\ Forall (fun trip => GoInt.len trip = RediSearch.pipeline) trips
    /\ GoInt.len trips
       = GoInt.len (List.filter Batch.wellFormed (RediSearch.rows b))
           / RediSearch.pipeline
    /\ GoInt.len (Stats.CmdStats outstat) = RediSearch.pipeline * GoInt.len trips.
Proof.
  intros Hsingle Hone. rewrite ProcessBatch_load.
  unfold RediSearch.connectionProcessor. rewrite Hsingle.
  destruct (RediSearch.connectionLoop _ _ _ _ _) as [[] s1 | s1 | msg] eqn:Hloop;
    try discriminate.
  intros [= <- _ <-].
  destruct (connectionLoop_returns _ [] [] _ _ eq_refl Hloop)
    as (reads & trips & stats & lines & -> & Hcount & Hplain & Hfull).
  destruct Hfull as [Hall Htrips]; [exact Hone | unfold GoInt.len; cbn; lia |].
  exists trips. cbn [RediSearch.roundTrips RediSearch.cmdChan Batch.after Batch.fresh app].
  split; [reflexivity | split; [exact Hall | split; [exact Htrips |]]].
  destruct (merged_plain stats Hplain) as [Hmerged _].
  unfold GoInt.len in *. rewrite Hmerged, Hcount. clear - Hall.
  induction Hall as [| trip rest Htrip _ IH]; cbn [concat length].
  - lia.
  - rewrite length_app. lia.
Qed.

(** A batch too short to fill the buffer: the outcome of a load. *)
Lemma short_batch_outcome (b : RediSearch.eventsBatch) (s : RediSearch.State) :
  GoInt.len (RediSearch.rows b) < RediSearch.pipeline ->
  match RediSearch.ProcessBatch b true s with
  | RediSearch.Returns (outstat, _) s' =>
      Stats.CmdStats outstat = []
      /\ RediSearch.roundTrips s' = RediSearch.roundTrips s
  | RediSearch.Exits _ => False
  | RediSearch.Panics _ => True
  end.
Proof.
  intros Hshort. rewrite ProcessBatch_load.
  unfold RediSearch.connectionProcessor.
  destruct RediSearch.clusterMode.
  - rewrite connectionLoop_no_slot.
    destruct (existsb _ _); [exact I | split; reflexivity].
  - pose proof (connectionLoop_short (RediSearch.rows b) [] [] (Batch.fresh s)) as Hloop.
    destruct (RediSearch.connectionLoop _ _ _ _ _) as [[] s1 | s1 | msg].
    + destruct Hloop as (reads & ->); [unfold GoInt.len in *; cbn; lia |].
      cbn. rewrite app_nil_r. split; reflexivity.
    + apply Hloop. unfold GoInt.len in *. cbn. lia.
    + exact I.
Qed.

(** X2. A batch with fewer rows than [pipeline] is read and dropped: a
    loading [ProcessBatch] sends no round trip and returns a Stat without
    CmdStats, unless it panics; it does not end the process by a fatal
    log. *)
Theorem ProcessBatch_short_batch_sends_nothing (b : RediSearch.eventsBatch)
    (s : RediSearch.State) :
  GoInt.len (RediSearch.rows b) < RediSearch.pipeline ->
  match RediSearch.ProcessBatch b true s with
  | RediSearch.Returns (outstat, _) s' =>
      Stats.CmdStats outstat = []
      /\ RediSearch.roundTrips s' = RediSearch.roundTrips s
  | RediSearch.Exits _ => False
  | RediSearch.Panics _ => True
  end.
Proof. apply short_batch_outcome. Qed.

(** X3. Rows the reader cannot split, and rows of fewer than three
    fields, are passed over in silence: [ProcessBatch] does to a batch
    what it does to the batch without them. *)
Theorem ProcessBatch_skips_malformed_rows (rows : list string) (doLoad : bool)
    (s : RediSearch.State) :
  RediSearch.ProcessBatch {| RediSearch.rows := rows |} doLoad s
    = RediSearch.ProcessBatch
        {| RediSearch.rows := List.filter Batch.wellFormed rows |} doLoad s.
Proof.
  destruct doLoad.
  - rewrite !ProcessBatch_load. cbn [RediSearch.rows].
    unfold RediSearch.connectionProcessor.
    rewrite connectionLoop_skips. reflexivity.
  - rewrite !ProcessBatch_doLoad_false. reflexivity.
Qed.

(** X4. A batch that holds a row with a command and no argument after it
    never comes back from a loading [ProcessBatch]: [docfields[0]] panics,
    unless the process has ended before in a fatal log, which takes
    [continueOnErr] unset. *)
Theorem ProcessBatch_bare_row_never_returns (b : RediSearch.eventsBatch)
    (s : RediSearch.State) :
  existsb Batch.bare (RediSearch.rows b) = true ->
  match RediSearch.ProcessBatch b true s with
  | RediSearch.Returns _ _ => False
  | RediSearch.Exits _ => RediSearch.continueOnErr = false
  | RediSearch.Panics _ => True
  end.
Proof.
  intros Hbare. rewrite ProcessBatch_load.
  unfold RediSearch.connectionProcessor.
  destruct (RediSearch.connectionLoop _ _ _ _ _) as [[] s1 | s1 | msg] eqn:Hloop.
  - apply connectionLoop_returns_no_bare in Hloop. congruence.
  - destruct RediSearch.continueOnErr eqn:Hcont; [| reflexivity].
    exfalso. exact (connectionLoop_continues _ _ _ _ _ _ Hcont Hloop).
  - exact I.
Qed.

(** X5. In cluster mode the connection loop has no slot to buffer into:
    a loading [ProcessBatch] panics as soon as the batch holds one row
    [preProcessCmd] accepts, and otherwise returns an empty Stat. *)
Theorem ProcessBatch_cluster_mode (b : RediSearch.eventsBatch)
    (s : RediSearch.State) :
  RediSearch.clusterMode = true ->
  RediSearch.ProcessBatch b true s
    = if existsb Batch.wellFormed (RediSearch.rows b)
      then RediSearch.Panics "index out of range [0] with length 0"
      else RediSearch.Returns (Stats.NewStat, {| RediSearch.rows := [] |})
             {| RediSearch.vanillaClient := RediSearch.vanillaClient s;
                RediSearch.cmdChan := [];
                RediSearch.clockReads := RediSearch.clockReads s;
                RediSearch.roundTrips := RediSearch.roundTrips s;
                RediSearch.logged := RediSearch.logged s;
                RediSearch.ePool := {| RediSearch.rows := [] |} :: RediSearch.ePool s |}.
Proof.
  intros Hcluster. rewrite ProcessBatch_load.
  unfold RediSearch.connectionProcessor. rewrite Hcluster.
  rewrite connectionLoop_no_slot.
  destruct (existsb _ _); reflexivity.
Qed.

(** X6. Whatever the threshold and the mode, a loading [ProcessBatch]
    that returns gives one CmdStat for every command it has sent in a
    round trip, failed round trips included; every CmdStat reports zero
    received bytes and is flagged neither update nor delete; the batch
    comes back empty, on top of the pool, and [cmdChan] is drained. *)
Theorem ProcessBatch_stats_answer_commands (b : RediSearch.eventsBatch)
    (s s' : RediSearch.State) (outstat : Stats.Stat)
    (events : RediSearch.eventsBatch) :
  RediSearch.ProcessBatch b true s = RediSearch.Returns (outstat, events) s' ->
  exists trips,
    RediSearch.roundTrips s' = RediSearch.roundTrips s ++ trips
    /\ length (Stats.CmdStats outstat) = length (concat trips)
    /\ Forall (fun c => Stats.Rx c = 0 /\ Stats.isUpdate c = false
                        /\ Stats.isDelete c = false)
         (Stats.CmdStats outstat)
    /\ events = {| RediSearch.rows := [] |}
    /\ RediSearch.ePool s' = events :: RediSearch.ePool s
    /\ RediSearch.cmdChan s' = [].
Proof.
  rewrite ProcessBatch_load. unfold RediSearch.connectionProcessor.
  destruct RediSearch.clusterMode.
  - rewrite connectionLoop_no_slot.
    destruct (existsb _ _); [discriminate |].
    intros [= <- <- <-]. exists []. cbn. rewrite app_nil_r.
    repeat split. constructor.
  - destruct (RediSearch.connectionLoop _ _ _ _ _) as [[] s1 | s1 | msg] eqn:Hloop;
      try discriminate.
    intros [= <- <- <-].
    destruct (connectionLoop_returns _ [] [] _ _ eq_refl Hloop)
      as (reads & trips & stats & lines & -> & Hcount & Hplain & _).
    destruct (merged_plain stats Hplain) as [Hmerged Hfields].
    exists trips. cbn [RediSearch.roundTrips RediSearch.cmdChan RediSearch.ePool
                       Batch.after Batch.fresh app] in *.
    repeat split; [congruence | exact Hfields].
Qed.

(** X7. The CmdStats of a flush are all booked on the command that set
    the flush off: whatever commands were pending, of whatever category,
    each Stat [sendFlatCmd] sends carries the label, the identifier and
    the transmitted byte count of its own call, and there is one for
    every pending command and one for the caller, or none at all. *)
Theorem sendFlatCmd_books_on_trigger (ct qid cmd : string)
    (docfields : list string) (tx n : Z) (cmds : list RediSearch.CmdAction)
    (times : list GoTime.Time) (s s' : RediSearch.State)
    (r : list RediSearch.CmdAction * list GoTime.Time) :
  RediSearch.sendFlatCmd ct qid cmd docfields tx n cmds times s
    = RediSearch.Returns r s' ->
  exists stats,
    RediSearch.cmdChan s' = RediSearch.cmdChan s ++ stats
    /\ Forall (Batch.attributed ct qid tx) stats
    /\ (stats = [] /\ GoInt.len cmds + 1 < RediSearch.pipeline
        \/ length stats = S (length times)
           /\ RediSearch.pipeline <= GoInt.len cmds + 1).
Proof.
  intros Hrun.
  destruct (sendFlatCmd_returns _ _ _ _ _ _ _ _ _ _ _ Hrun)
    as (key & args & _ & Hcases).
  cbv zeta in Hcases. unfold GoInt.len in *. rewrite length_app in Hcases.
  cbn [length] in Hcases.
  destruct Hcases as [(Hlt & _ & ->) | (Hge & _ & lines & ->)].
  - exists []. cbn. split; [reflexivity | split; [constructor |]].
    left. split; [reflexivity | lia].
  - eexists. cbn [RediSearch.cmdChan Batch.after].
    split; [reflexivity | split; [apply emitted_attributed |]].
    right. rewrite emitted_length, length_app. cbn [length].
    split; lia.
Qed.

End BatchFacts.

(* ===================================================================== *)
(** * A batch through the processor, at the sample inputs *)

(** Three rows and a threshold of two: one round trip of two commands,
    two CmdStats; the third row is never sent. *)
Lemma full_pipelines_at_sample :
  match @RediSearch.ProcessBatch (Sample.options 2 true 0) Sample.healthy
          Sample.batch true Sample.connected with
  | RediSearch.Returns (outstat, _) s' =>
      exists trips,
        RediSearch.roundTrips s' = [] ++ trips
        /\ Forall (fun trip => GoInt.len trip = 2) trips
        /\ GoInt.len trips = 3 / 2
        /\ GoInt.len (Stats.CmdStats outstat) = 2 * GoInt.len trips
  | _ => False
  end.
Proof.
  destruct (@RediSearch.ProcessBatch (Sample.options 2 true 0) Sample.healthy
              Sample.batch true Sample.connected)
    as [[outstat events] s' | s' | msg] eqn:Hrun;
    [| vm_compute in Hrun; discriminate ..].
  refine (@ProcessBatch_sends_full_pipelines (Sample.options 2 true 0)
            Sample.healthy Sample.batch Sample.connected s' outstat events
            eq_refl _ Hrun).
  vm_compute. discriminate.
Defined.

(** Three rows and a threshold of a hundred: nothing is sent. *)
Lemma short_batch_at_sample :
  match @RediSearch.ProcessBatch (Sample.options 100 true 0) Sample.healthy
          Sample.batch true Sample.connected with
  | RediSearch.Returns (outstat, _) s' =>
      Stats.CmdStats outstat = [] /\ RediSearch.roundTrips s' = []
  | RediSearch.Exits _ => False
  | RediSearch.Panics _ => True
  end.
Proof.
  exact (@ProcessBatch_short_batch_sends_nothing (Sample.options 100 true 0)
           Sample.healthy Sample.batch Sample.connected eq_refl).
Defined.

(** The batch with a bare [PING] does not come back. *)
Lemma bare_row_at_sample :
  match @RediSearch.ProcessBatch (Sample.options 2 true 0) Sample.healthy
          Cases.bareBatch true Sample.connected with
  | RediSearch.Returns _ _ => False
  | RediSearch.Exits _ => true = false
  | RediSearch.Panics _ => True
  end.
Proof.
  exact (@ProcessBatch_bare_row_never_returns (Sample.options 2 true 0)
           Sample.healthy Cases.bareBatch Sample.connected eq_refl).
Defined.

(** Against a cluster the sample batch panics. *)
Lemma cluster_mode_at_sample :
  @RediSearch.ProcessBatch (Cases.clusterOptions 2) Sample.healthy
    Sample.batch true Sample.connected
  = RediSearch.Panics "index out of range [0] with length 0".
Proof.
  exact (@ProcessBatch_cluster_mode (Cases.clusterOptions 2) Sample.healthy
           Sample.batch Sample.connected eq_refl).
Defined.

(** Every round trip fails and is passed over: the four commands of the
    mixed batch still give four CmdStats. *)
Lemma stats_answer_commands_at_sample :
  match @RediSearch.ProcessBatch (Sample.options 2 true 0) Sample.failing
          Cases.mixedBatch true Sample.connected with
  | RediSearch.Returns (outstat, events) s' =>
      exists trips,
        RediSearch.roundTrips s' = [] ++ trips
        /\ length (Stats.CmdStats outstat) = length (concat trips)
        /\ Forall (fun c => Stats.Rx c = 0 /\ Stats.isUpdate c = false
                            /\ Stats.isDelete c = false)
             (Stats.CmdStats outstat)
        /\ events = {| RediSearch.rows := [] |}
        /\ RediSearch.ePool s' = [events]
        /\ RediSearch.cmdChan s' = []
  | _ => False
  end.
Proof.
  destruct (@RediSearch.ProcessBatch (Sample.options 2 true 0) Sample.failing
              Cases.mixedBatch true Sample.connected)
    as [[outstat events] s' | s' | msg] eqn:Hrun;
    [| vm_compute in Hrun; discriminate ..].
  exact (@ProcessBatch_stats_answer_commands (Sample.options 2 true 0)
           Sample.failing Cases.mixedBatch Sample.connected s' outstat events Hrun).
Defined.

Lemma mixed_batch_counts :
  match @RediSearch.ProcessBatch (Sample.options 2 true 0) Sample.failing
          Cases.mixedBatch true Sample.connected with
  | RediSearch.Returns (outstat, _) s' =>
      map Stats.Label (Stats.CmdStats outstat) = ["READ"; "READ"; "DELETE"; "DELETE"]
  | _ => False
  end.
Proof. vm_compute. reflexivity. Qed.

(** A search arrives while a write is pending, with a threshold of two:
    both CmdStats of the flush are booked as [READ]. *)
Lemma books_on_trigger_at_sample :
  match @RediSearch.sendFlatCmd (Sample.options 2 true 0) Sample.healthy
          "READ" "q3" "FT.SEARCH" ["idx"; "hello"] 23 1
          [Sample.ftAdd "doc1"] [Sample.clock 0] Cases.onePending with
  | RediSearch.Returns _ s' =>
      exists stats,
        RediSearch.cmdChan s' = [] ++ stats
        /\ Forall (Batch.attributed "READ" "q3" 23) stats
        /\ (stats = [] /\ 1 + 1 < 2 \/ length stats = 2%nat /\ 2 <= 1 + 1)
  | _ => False
  end.
Proof.
  destruct (@RediSearch.sendFlatCmd (Sample.options 2 true 0) Sample.healthy
              "READ" "q3" "FT.SEARCH" ["idx"; "hello"] 23 1
              [Sample.ftAdd "doc1"] [Sample.clock 0] Cases.onePending)
    as [r s' | s' | msg] eqn:Hrun;
    [| vm_compute in Hrun; discriminate ..].
  exact (@sendFlatCmd_books_on_trigger (Sample.options 2 true 0) Sample.healthy
           "READ" "q3" "FT.SEARCH" ["idx"; "hello"] 23 1
           [Sample.ftAdd "doc1"] [Sample.clock 0] Cases.onePending s' r Hrun).
Defined.

(* ===================================================================== *)
(** * Totals, counters and series along a run *)

Section RunFacts.

Context `{Hdr.Library}.

Lemma recognised_labelOf (k : Load.Category) :
  Run.recognised (Load.labelOf k) = true.
Proof. destruct k; reflexivity. Qed.

(** One recorded CmdStat: the global count and the sum of the six move
    together unless the label is a stray. *)
Lemma recordCmdStat_counts (l : Load.BenchmarkRunner) (c : Stats.CmdStat) :
  let hit := if Hdr.trackable (GoInt.int64 (Stats.Latency c)) then 1 else 0 in
  Hdr.TotalCount (Load.totalHistogram (Load.recordCmdStat l c))
    = Hdr.TotalCount (Load.totalHistogram l) + hit
  /\ Run.categorySum (Load.recordCmdStat l c)
     = Run.categorySum l + (if Run.recognised (Stats.Label c) then hit else 0).
Proof.
  cbv zeta. unfold Load.recordCmdStat, Run.recognised, Run.categorySum.
  destruct (String.eqb (Stats.Label c) "SETUP_WRITE");
    [| destruct (String.eqb (Stats.Label c) "WRITE");
     [| destruct (String.eqb (Stats.Label c) "UPDATE");
      [| destruct (String.eqb (Stats.Label c) "READ");
       [| destruct (String.eqb (Stats.Label c) "CURSOR_READ");
        [| destruct (String.eqb (Stats.Label c) "DELETE")]]]]];
    destruct l; cbn -[Z.add]; rewrite ?TotalCount_RecordValue; split; lia.
Qed.

Lemma run_counts (events : list Load.RunEvent) :
  forall st : Load.ReportLocals * Load.BenchmarkRunner,
  let l' := snd (fold_left Load.runEvent events st) in
  Hdr.TotalCount (Load.totalHistogram l') - Run.categorySum l'
    = Hdr.TotalCount (Load.totalHistogram (snd st)) - Run.categorySum (snd st)
      + Run.strays events.
Proof.
  induction events as [| e rest IH]; intros st; cbn [fold_left Run.strays].
  - cbv zeta. lia.
  - cbv zeta in *. rewrite IH. destruct st as [prev l], e as [c | now];
      cbn [Load.runEvent fst snd].
    + destruct (recordCmdStat_counts l c) as [-> ->].
      destruct (Run.recognised _), (Hdr.trackable _); cbn; lia.
    + destruct (reportTick_frame now prev l) as (Hcum & _ & Htot & _).
      cbn [fst snd] in Hcum, Htot. rewrite Htot. unfold Run.categorySum.
      pose proof (Hcum Load.Write) as Hw. pose proof (Hcum Load.SetupWrite) as Hsw.
      pose proof (Hcum Load.Read) as Hr. pose proof (Hcum Load.CursorRead) as Hrc.
      pose proof (Hcum Load.Update) as Hu. pose proof (Hcum Load.Delete) as Hd.
      unfold Load.cumulative in Hw, Hsw, Hr, Hrc, Hu, Hd.
      rewrite Hw, Hsw, Hr, Hrc, Hu, Hd. lia.
Qed.

(** X8. In every run from [loader], the count of the global histogram,
    which the result document gives as TotalOps, is the sum of the six
    per-category counts plus the number of accepted CmdStats whose label
    has no case in [work]: a total taken as the sum of the six, as the
    reporter and the summary take theirs, falls short of TotalOps by
    exactly the strays. *)
Theorem TotalOps_is_categories_plus_strays (nworkers : Z) (load : bool)
    (start : GoTime.Time) (events : list Load.RunEvent) :
  let l := snd (Load.runEvents start (Load.loader nworkers load) events) in
  Load.GetTotalsMap l !! "TotalOps" = Some (Run.categorySum l + Run.strays events)
  /\ 0 <= Run.strays events.
Proof.
  cbv zeta. split.
  - unfold Load.GetTotalsMap.
    repeat (rewrite lookup_insert_ne by discriminate).
    rewrite lookup_insert_eq. f_equal.
    pose proof (run_counts events (Load.reportStart start, Load.loader nworkers load))
      as Hrun.
    cbv zeta in Hrun. unfold Load.runEvents.
    change (Hdr.TotalCount (Load.totalHistogram
              (snd (Load.reportStart start, Load.loader nworkers load)))) with 0 in Hrun.
    change (Run.categorySum (snd (Load.reportStart start, Load.loader nworkers load)))
      with 0 in Hrun.
    lia.
  - induction events as [| [c | now] rest IH]; cbn [Run.strays]; [lia | | exact IH].
    destruct (negb _ && _); lia.
Qed.

Lemma uint64_add_l (a b : Z) : GoInt.uint64 (GoInt.uint64 a + b) = GoInt.uint64 (a + b).
Proof. unfold GoInt.uint64. apply Zplus_mod_idemp_l. Qed.

Lemma run_bytes (events : list Load.RunEvent) :
  forall (st : Load.ReportLocals * Load.BenchmarkRunner) (tx rx : Z),
  Load.txTotalBytes (snd st) = GoInt.uint64 tx ->
  Load.rxTotalBytes (snd st) = GoInt.uint64 rx ->
  let l' := snd (fold_left Load.runEvent events st) in
  Load.txTotalBytes l' = GoInt.uint64 (tx + Run.txSum events)
  /\ Load.rxTotalBytes l' = GoInt.uint64 (rx + Run.rxSum events).
Proof.
  induction events as [| e rest IH]; intros st tx rx Htx Hrx;
    cbn [fold_left Run.txSum Run.rxSum].
  - cbv zeta. rewrite !Z.add_0_r. split; assumption.
  - destruct st as [prev l], e as [c | now]; cbn [Load.runEvent fst snd] in *.
    + destruct (recordCmdStat_total l c) as (_ & _ & Htx' & Hrx').
      rewrite !Z.add_assoc. apply IH; cbn [snd].
      * rewrite Htx', Htx. apply uint64_add_l.
      * rewrite Hrx', Hrx. apply uint64_add_l.
    + destruct (reportTick_frame now prev l) as (_ & _ & _ & _ & Htx' & Hrx').
      cbn [fst snd] in Htx', Hrx'. apply IH; congruence.
Qed.

(** X9. In every run from [loader] the two byte counters hold the sums
    of the transmitted and of the received byte counts of all recorded
    CmdStats, of any label, modulo 2^64; reporting ticks do not touch
    them, and the result document gives these values. *)
Theorem byte_counters_are_sums (nworkers : Z) (load : bool)
    (start : GoTime.Time) (events : list Load.RunEvent) :
  let l := snd (Load.runEvents start (Load.loader nworkers load) events) in
  Load.GetTotalsMap l !! "TxBytes" = Some (Run.txSum events mod 2 ^ 64)
  /\ Load.GetTotalsMap l !! "RxBytes" = Some (Run.rxSum events mod 2 ^ 64).
Proof.
  cbv zeta.
  destruct (run_bytes events (Load.reportStart start, Load.loader nworkers load) 0 0
              eq_refl eq_refl) as [Htx Hrx].
  cbv zeta in Htx, Hrx. unfold Load.runEvents, Load.GetTotalsMap.
  split; repeat (rewrite lookup_insert_ne by discriminate);
    rewrite lookup_insert_eq; f_equal; [rewrite Htx | rewrite Hrx]; reflexivity.
Qed.

(** What a tick does to a series. *)
Lemma reportTick_series (now : GoTime.Time) (prev : Load.ReportLocals)
    (l : Load.BenchmarkRunner) (k : Load.Category) :
  Load.series k (snd (fst (Load.reportTick now (prev, l))))
    = Load.addRateMetricsDatapoints (Load.series k l) now
        (GoTime.Sub now (Load.prevTime prev)) (Load.instantaneous k l)
  /\ Load.totalTs (snd (fst (Load.reportTick now (prev, l)))) = Load.totalTs l.
Proof. destruct l, k; split; reflexivity. Qed.

Lemma addRateMetricsDatapoints_appends (datapoints : list Load.DataPoint)
    (now : GoTime.Time) (timeframe : Z) (hist : Hdr.Histogram) :
  exists dp,
    Load.addRateMetricsDatapoints datapoints now timeframe hist = datapoints ++ [dp]
    /\ Load.Timestamp dp = GoTime.Unix now
    /\ dom (Load.Map dp) = {["q50"; "q95"; "q99"; "rate"]}
    /\ (Hdr.TotalCount hist = 0 -> Run.quiet dp).
Proof.
  unfold Load.addRateMetricsDatapoints, Load.generateQuantileMap.
  eexists. split; [reflexivity |]. cbn [Load.Timestamp Load.Map].
  split; [reflexivity | split].
  - rewrite !dom_insert_L, dom_empty_L. set_solver.
  - intros Hzero. rewrite Hzero. unfold Run.quiet. cbn [Load.Map].
    repeat split; repeat (rewrite lookup_insert_ne by discriminate);
      rewrite lookup_insert_eq; reflexivity.
Qed.

Lemma run_series (events : list Load.RunEvent) (k : Load.Category) :
  forall st : Load.ReportLocals * Load.BenchmarkRunner,
  let l' := snd (fold_left Load.runEvent events st) in
  map Load.Timestamp (Load.series k l')
    = map Load.Timestamp (Load.series k (snd st)) ++ map GoTime.Unix (Run.ticks events)
  /\ Load.totalTs l' = Load.totalTs (snd st).
Proof.
  induction events as [| e rest IH]; intros st; cbn [fold_left Run.ticks map].
  - cbv zeta. rewrite app_nil_r. split; reflexivity.
  - cbv zeta in *. destruct (IH (Load.runEvent st e)) as [-> ->].
    destruct st as [prev l], e as [c | now]; cbn [Load.runEvent fst snd].
    + rewrite recordCmdStat_series. split; [reflexivity |].
      unfold Load.recordCmdStat.
      destruct (String.eqb (Stats.Label c) "SETUP_WRITE");
        [| destruct (String.eqb (Stats.Label c) "WRITE");
         [| destruct (String.eqb (Stats.Label c) "UPDATE");
          [| destruct (String.eqb (Stats.Label c) "READ");
           [| destruct (String.eqb (Stats.Label c) "CURSOR_READ");
            [| destruct (String.eqb (Stats.Label c) "DELETE")]]]]];
        destruct l; reflexivity.
    + destruct (reportTick_series now prev l k) as [-> ->].
      destruct (addRateMetricsDatapoints_appends (Load.series k l) now
                  (GoTime.Sub now (Load.prevTime prev)) (Load.instantaneous k l))
        as (dp & -> & Hts & _).
      rewrite map_app. cbn [map]. rewrite Hts, <- app_assoc. split; reflexivity.
Qed.

(** X10. In every run from [loader], each of the six series holds one
    DataPoint for every tick, stamped with the Unix second of its tick,
    in the order of arrival of the ticks; recorded CmdStats add none, and
    the series of the global total stays empty. *)
Theorem series_follow_ticks (nworkers : Z) (load : bool)
    (start : GoTime.Time) (events : list Load.RunEvent) (k : Load.Category) :
  let l := snd (Load.runEvents start (Load.loader nworkers load) events) in
  map Load.Timestamp (Load.series k l) = map GoTime.Unix (Run.ticks events)
  /\ Load.totalTs l = [].
Proof.
  cbv zeta.
  destruct (run_series events k (Load.reportStart start, Load.loader nworkers load))
    as [Hts Htotal].
  unfold Load.runEvents. rewrite Hts, Htotal.
  destruct k; split; reflexivity.
Qed.

(** X11. A tick after a period in which a category has recorded nothing
    appends for it a DataPoint whose three quantiles are zero, whatever
    the histogram library answers; the DataPoint of any tick has the four
    keys q50, q95, q99 and rate. *)
Theorem idle_period_reports_zero_quantiles (now : GoTime.Time)
    (prev : Load.ReportLocals) (l : Load.BenchmarkRunner) (k : Load.Category) :
  exists dp,
    Load.series k (snd (Load.runEvent (prev, l) (Load.Ticked now)))
      = Load.series k l ++ [dp]
    /\ Load.Timestamp dp = GoTime.Unix now
    /\ dom (Load.Map dp) = {["q50"; "q95"; "q99"; "rate"]}
    /\ (Hdr.TotalCount (Load.instantaneous k l) = 0 -> Run.quiet dp)
    /\ forall now' dp',
         last (Load.series k
                 (snd (Load.runEvent
                         (Load.runEvent (prev, l) (Load.Ticked now))
                         (Load.Ticked now'))))
           = Some dp' ->
         Run.quiet dp'.
Proof.
  cbn [Load.runEvent]. destruct (reportTick_series now prev l k) as [Hseries _].
  destruct (addRateMetricsDatapoints_appends (Load.series k l) now
              (GoTime.Sub now (Load.prevTime prev)) (Load.instantaneous k l))
    as (dp & Happ & Hts & Hdom & Hquiet).
  exists dp. rewrite Hseries, Happ.
  split; [reflexivity | split; [exact Hts | split; [exact Hdom | split; [exact Hquiet |]]]].
  intros now' dp'.
  destruct (Load.reportTick now (prev, l)) as [[prev1 l1] row1] eqn:Htick.
  cbn [fst snd].
  destruct (reportTick_series now' prev1 l1 k) as [-> _].
  destruct (addRateMetricsDatapoints_appends (Load.series k l1) now'
              (GoTime.Sub now' (Load.prevTime prev1)) (Load.instantaneous k l1))
    as (dp2 & -> & _ & _ & Hquiet2).
  rewrite last_snoc. intros [= <-]. apply Hquiet2.
  destruct (reportTick_frame now prev l) as (_ & Hinst & _).
  rewrite Htick in Hinst. cbn [fst snd] in Hinst. rewrite Hinst. reflexivity.
Qed.

Lemma byTimestamp_transitive : Transitive Load.byTimestamp.
Proof. intros a b c. unfold Load.byTimestamp. lia. Qed.

Lemma distinct_timestamps (l : list Load.DataPoint) (x y : Load.DataPoint) :
  NoDup (map Load.Timestamp l) ->
  x ∈ l -> y ∈ l -> Load.Timestamp x = Load.Timestamp y -> x = y.
Proof.
  induction l as [| a l IH]; intros Hnd Hx Hy Hxy; [inversion Hx |].
  cbn in Hnd. apply NoDup_cons in Hnd. destruct Hnd as [Ha Hnd].
  apply elem_of_cons in Hx. apply elem_of_cons in Hy.
  destruct Hx as [-> | Hx], Hy as [-> | Hy].
  - reflexivity.
  - exfalso. apply Ha. rewrite Hxy. apply list_elem_of_fmap_2, Hy.
  - exfalso. apply Ha. rewrite <- Hxy. apply list_elem_of_fmap_2, Hx.
  - apply IH; assumption.
Qed.

Lemma GetTimeSeriesMap_lookup (b : Load.BenchmarkRunner) (k : Load.Category) :
  fst (Load.GetTimeSeriesMap b) !! Load.seriesKey k
    = Some (Load.sortByTimestamp (Load.series k b)).
Proof.
  destruct b, k; cbn;
    repeat (rewrite lookup_insert_ne by discriminate);
    apply lookup_insert_eq.
Qed.

(** X12. When no two DataPoints of a series bear the same timestamp,
    [GetTimeSeriesMap] returns the one arrangement of the series in
    increasing order of timestamp: any list in that order that holds the
    same DataPoints is the list returned, so the result does not hang on
    how [sort.Sort] goes about it; a series already in order comes back
    as it is. *)
Theorem GetTimeSeriesMap_unique_arrangement (b : Load.BenchmarkRunner)
    (k : Load.Category) (ts : list Load.DataPoint) :
  NoDup (map Load.Timestamp (Load.series k b)) ->
  Sorted Load.byTimestamp ts ->
  Permutation ts (Load.series k b) ->
  fst (Load.GetTimeSeriesMap b) !! Load.seriesKey k = Some ts.
Proof.
  intros Hnd Hsorted Hperm. rewrite GetTimeSeriesMap_lookup. f_equal.
  destruct (sortByTimestamp_sorted (Load.series k b)) as [Hs Hp].
  apply (@Sorted_unique_strong _ Load.byTimestamp byTimestamp_transitive).
  - intros x y Hx Hy Hxy Hyx.
    apply (distinct_timestamps (Load.series k b)); try assumption.
    + rewrite <- Hp. exact Hx.
    + rewrite <- Hperm. exact Hy.
    + unfold Load.byTimestamp in *. lia.
  - exact Hs.
  - exact Hsorted.
  - rewrite Hp, Hperm. reflexivity.
Qed.

End RunFacts.

(** The sample run: the six categories count two operations, TotalOps
    three; the oversized read is counted nowhere. *)
Lemma sample_run_totals :
  let l := snd (@Load.runEvents Sample.rangeLibrary (Sample.at_second 0)
                  Sample.idle Run.sampleRun) in
  Load.GetTotalsMap l !! "TotalOps" = Some 3
  /\ Run.categorySum l = 2
  /\ @Run.strays Sample.rangeLibrary Run.sampleRun = 1
  /\ Load.GetTotalsMap l !! "TxBytes" = Some 40
  /\ map Load.Timestamp (Load.series Load.Read l) = [1; 2].
Proof. vm_compute. repeat split; reflexivity. Qed.

(** Ticks in order: the series of writes comes back as it was appended. *)
Lemma orderly_series_unchanged :
  fst (Load.GetTimeSeriesMap Run.orderlyRunner) !! Load.seriesKey Load.Write
    = Some (Load.series Load.Write Run.orderlyRunner).
Proof.
  apply (@GetTimeSeriesMap_unique_arrangement Run.orderlyRunner Load.Write
           (Load.series Load.Write Run.orderlyRunner)).
  - vm_compute. repeat constructor; rewrite ?elem_of_cons, ?elem_of_nil; intuition discriminate.
  - vm_compute. repeat constructor; discriminate.
  - apply Permutation_refl.
Defined.

(* ===================================================================== *)
(** * The loader: its indexer and its processor *)

(** X13. Records read one after the other go to partitions one after the
    other, back to the first after the last: for a partition count of at
    least one, [GetIndex] of the next count is the successor of [GetIndex]
    of this one, modulo the partition count. *)
Theorem GetIndex_round_robin {Point : Type} (i : LoadRediSearch.RedisIndexer)
    (itemsRead : Z) (p p' : Point) :
  0 < LoadRediSearch.partitions i <= GoInt.maxInt64 ->
  0 <= itemsRead < GoInt.two64 - 1 ->
  exists r,
    LoadRediSearch.GetIndex i itemsRead p = Some r
    /\ LoadRediSearch.GetIndex i (itemsRead + 1) p'
       = Some (if r + 1 =? LoadRediSearch.partitions i then 0 else r + 1).
Proof.
  intros Hparts Hitems.
  unfold LoadRediSearch.GetIndex, GoInt.int64, GoInt.uint64.
  unfold GoInt.maxInt64, GoInt.two63, GoInt.two64 in *.
  destruct (Z.eqb_spec (LoadRediSearch.partitions i) 0) as [Hz | Hnz]; [lia |].
  set (n := LoadRediSearch.partitions i) in *.
  rewrite (Z.mod_small itemsRead (2 ^ 64)) by lia.
  rewrite (Z.mod_small (itemsRead + 1) (2 ^ 64)) by lia.
  pose proof (Z.mod_pos_bound itemsRead n ltac:(lia)) as Hr.
  pose proof (Z.mod_pos_bound (itemsRead + 1) n ltac:(lia)) as Hr'.
  rewrite (Z.mod_small (itemsRead mod n + 2 ^ 63) (2 ^ 64)) by lia.
  rewrite (Z.mod_small ((itemsRead + 1) mod n + 2 ^ 63) (2 ^ 64)) by lia.
  eexists. split; [reflexivity |]. f_equal.
  replace (itemsRead mod n + 2 ^ 63 - 2 ^ 63) with (itemsRead mod n) by lia.
  replace ((itemsRead + 1) mod n + 2 ^ 63 - 2 ^ 63) with ((itemsRead + 1) mod n) by lia.
  rewrite <- (Zplus_mod_idemp_l itemsRead 1 n).
  destruct (Z.eqb_spec (itemsRead mod n + 1) n) as [Heq | Hne].
  - rewrite Heq. apply Z_mod_same_full.
  - apply Z.mod_small. lia.
Qed.

Lemma GetIndex_round_robin_at_sample :
  exists r,
    LoadRediSearch.GetIndex (LoadRediSearch.GetPointIndexer 4) 11 tt = Some r
    /\ LoadRediSearch.GetIndex (LoadRediSearch.GetPointIndexer 4) (11 + 1) tt
       = Some (if r + 1 =? 4 then 0 else r + 1).
Proof.
  refine (@GetIndex_round_robin unit (LoadRediSearch.GetPointIndexer 4) 11 tt tt _ _).
  - vm_compute. split; [reflexivity | discriminate].
  - vm_compute. split; [discriminate | reflexivity].
Defined.

Section LoaderFacts.

Context `{Loader.Redis}.

Lemma sendRows_spec (rows : list string) :
  forall (s : Loader.State) (metrics : list Z) (acc : Z),
  let '(s', metrics') := Loader.sendRows rows s metrics in
  Loader.wire s' = Loader.wire s ++ map Loader.Sent rows
  /\ Loader.sent s' = (length rows + Loader.sent s)%nat
  /\ Loader.ePool s' = Loader.ePool s
  /\ GoInt.uint64
       (fold_left (fun metricCnt val => GoInt.uint64 (metricCnt + val)) metrics' acc)
     = GoInt.uint64
         (fold_left (fun metricCnt val => GoInt.uint64 (metricCnt + val)) metrics acc
          + Loader.metricSum (Loader.sent s) rows).
Proof.
  induction rows as [| row rest IH]; intros s metrics acc.
  - cbn. rewrite app_nil_r, Z.add_0_r. repeat split.
  - cbn [Loader.sendRows Loader.metricSum map length].
    match goal with
    | |- context [Loader.sendRows rest ?s1 ?m1] => specialize (IH s1 m1 acc)
    end.
    destruct (Loader.sendRows rest _ _) as [s' metrics'].
    destruct IH as (Hwire & Hsent & Hpool & Hsum).
    cbn [Loader.wire Loader.sent Loader.ePool] in *.
    split; [rewrite Hwire, <- app_assoc; reflexivity |].
    split; [lia | split; [exact Hpool |]].
    rewrite Hsum, fold_left_app. cbn [fold_left].
    unfold GoInt.uint64, GoInt.two64.
    rewrite Z.add_assoc.
    rewrite <- (Zplus_mod_idemp_l (_ mod 2 ^ 64) (Loader.metricSum _ rest)).
    rewrite Z.mod_mod by lia.
    rewrite (Zplus_mod_idemp_r (Loader.sendRedisCommand (Loader.sent s) row)).
    rewrite Zplus_mod_idemp_l. reflexivity.
Qed.

(** X14. The [ProcessBatch] of the loader returns the number of rows of
    the batch whether it loads or not, and hands the batch back empty on
    top of the pool. On a dry run the metric count is zero and no
    connection is taken; on a load it is the sum, modulo 2^64, of what
    [sendRedisCommand] returns for the rows in their order, on one
    connection that is taken from the pool and then closed twice. *)
Theorem Loader_ProcessBatch_counts (b : RediSearch.eventsBatch) (doLoad : bool)
    (s : Loader.State) :
  let '(metricCnt, rowCnt, events, s') := Loader.ProcessBatch b doLoad s in
  rowCnt = GoInt.len (RediSearch.rows b) mod 2 ^ 64
  /\ events = {| RediSearch.rows := [] |}
  /\ Loader.ePool s' = events :: Loader.ePool s
  /\ (if doLoad
      then metricCnt = Loader.metricSum (Loader.sent s) (RediSearch.rows b) mod 2 ^ 64
           /\ Loader.wire s'
              = Loader.wire s ++ [Loader.Got]
                ++ map Loader.Sent (RediSearch.rows b)
                ++ [Loader.Closed; Loader.Closed]
      else metricCnt = 0 /\ Loader.wire s' = Loader.wire s).
Proof.
  unfold Loader.ProcessBatch. destruct doLoad.
  - unfold Loader.connectionProcessor.
    match goal with
    | |- context [Loader.sendRows ?rows ?s1 ?m1] =>
        pose proof (sendRows_spec rows s1 m1 0) as Hrows
    end.
    destruct (Loader.sendRows _ _ _) as [s1 metrics].
    destruct Hrows as (Hwire & Hsent & Hpool & Hsum).
    cbn [Loader.wire Loader.sent Loader.ePool fold_left] in *.
    repeat split.
    + exact (f_equal (cons _) Hpool).
    + assert (Hfixed : forall ms acc,
                GoInt.uint64 acc = acc ->
                GoInt.uint64
                  (fold_left (fun metricCnt val => GoInt.uint64 (metricCnt + val)) ms acc)
                = fold_left (fun metricCnt val => GoInt.uint64 (metricCnt + val)) ms acc).
      { induction ms as [| m ms IHms]; intros acc Hacc; cbn [fold_left];
          [exact Hacc |].
        apply IHms. unfold GoInt.uint64, GoInt.two64. apply Z.mod_mod. lia. }
      rewrite <- (Hfixed metrics 0 eq_refl), Hsum. reflexivity.
    + rewrite Hwire, <- !app_assoc. reflexivity.
  - cbn. repeat split.
Qed.

End LoaderFacts.

(* ===================================================================== *)
(** * The query generator *)

Section QueryFacts.

(** One call of a generator whose cursor lies within its bounds. *)
Lemma generator_step (w : Queries.Walk) (d : Queries.Core) (qi : Queries.RediSearch) :
  0 < Queries.indexOf w d <= GoInt.len (Queries.queriesOf w d) ->
  0 <= Queries.positionOf w d <= Queries.indexOf w d ->
  exists d' qi' words,
    Queries.generator w d qi = Queries.Done (d', qi')
    /\ Queries.index (Queries.queriesOf w d)
         (Queries.positionOf w d mod Queries.indexOf w d) = Some words
    /\ Queries.RedisQuery qi' = String.append "FT.SEARCH," words
    /\ Queries.positionOf w d'
       = Queries.positionOf w d mod Queries.indexOf w d + 1
    /\ Queries.queriesOf w d' = Queries.queriesOf w d
    /\ Queries.indexOf w d' = Queries.indexOf w d.
Proof.
  intros Hindex Hpos.
  assert (Hslot : exists words,
            Queries.index (Queries.queriesOf w d)
              (Queries.positionOf w d mod Queries.indexOf w d) = Some words).
  { pose proof (Z.mod_pos_bound (Queries.positionOf w d) (Queries.indexOf w d)
                  ltac:(lia)) as Hmod.
    unfold Queries.index, GoInt.len in *.
    destruct (Z.leb_spec 0 (Queries.positionOf w d mod Queries.indexOf w d)); [| lia].
    destruct (Z.ltb_spec (Queries.positionOf w d mod Queries.indexOf w d)
                (Z.of_nat (length (Queries.queriesOf w d)))); [| lia].
    cbn [andb]. apply lookup_lt_is_Some_2. lia. }
  destruct Hslot as (words & Hwords).
  assert (Hwrap : Queries.positionOf w d mod Queries.indexOf w d
                  = if Queries.indexOf w d <=? Queries.positionOf w d
                    then 0 else Queries.positionOf w d).
  { destruct (Z.leb_spec (Queries.indexOf w d) (Queries.positionOf w d)).
    - replace (Queries.positionOf w d) with (Queries.indexOf w d) by lia.
      apply Z_mod_same_full.
    - apply Z.mod_small. lia. }
  rewrite Hwrap in *.
  destruct w; cbn [Queries.generator Queries.queriesOf Queries.indexOf
                   Queries.positionOf] in *;
    [unfold Queries.TwoWordUnionQuery
    | unfold Queries.TwoWordIntersectionQuery
    | unfold Queries.Simple1WordQuery];
    match goal with
    | |- context [?a <=? ?b] => destruct (a <=? b)
    end;
    cbn [Queries.TwoWordUnionQueries Queries.TwoWordUnionQueryIndexPosition
         Queries.set_TwoWordUnionQueryIndexPosition
         Queries.TwoWordIntersectionQueries
         Queries.TwoWordIntersectionQueryIndexPosition
         Queries.set_TwoWordIntersectionQueryIndexPosition
         Queries.OneWordQueries Queries.OneWordQueryIndexPosition
         Queries.set_OneWordQueryIndexPosition];
    rewrite Hwords; do 3 eexists; repeat split.
Qed.

(** X15. Each of the three generators that walk a list of prepared
    queries goes round its first [Index] queries in turn: with a cursor
    within its bounds and at least one query in use, the call after [n]
    calls returns, with the search for the query at position
    [(Position + n) mod Index]; queries beyond [Index] are never used. *)
Theorem generators_go_round (w : Queries.Walk) (n : nat) :
  forall (d : Queries.Core) (qi : Queries.RediSearch),
  0 < Queries.indexOf w d <= GoInt.len (Queries.queriesOf w d) ->
  0 <= Queries.positionOf w d <= Queries.indexOf w d ->
  exists d' qi' words,
    Queries.nthCall (Queries.generator w) n d qi = Queries.Done (d', qi')
    /\ Queries.index (Queries.queriesOf w d)
         ((Queries.positionOf w d + Z.of_nat n) mod Queries.indexOf w d)
       = Some words
    /\ Queries.RedisQuery qi' = String.append "FT.SEARCH," words.
Proof.
  induction n as [| n IH]; intros d qi Hindex Hpos.
  - destruct (generator_step w d qi Hindex Hpos)
      as (d' & qi' & words & Hrun & Hwords & Hquery & _).
    exists d', qi', words. cbn [Queries.nthCall Z.of_nat].
    rewrite Z.add_0_r. repeat split; assumption.
  - destruct (generator_step w d qi Hindex Hpos)
      as (d1 & qi1 & words1 & Hrun & _ & _ & Hpos1 & Hqueries1 & Hindex1).
    cbn [Queries.nthCall]. rewrite Hrun.
    pose proof (Z.mod_pos_bound (Queries.positionOf w d) (Queries.indexOf w d)
                  ltac:(lia)) as Hmod.
    destruct (IH d1 qi1) as (d' & qi' & words & Hrun' & Hwords' & Hquery');
      [rewrite Hindex1, Hqueries1; exact Hindex | rewrite Hpos1, Hindex1; lia |].
    exists d', qi', words. split; [exact Hrun' | split; [| exact Hquery']].
    rewrite <- Hwords', Hqueries1, Hindex1, Hpos1. f_equal.
    rewrite Nat2Z.inj_succ.
    replace (Queries.positionOf w d + Z.succ (Z.of_nat n))
      with (Queries.positionOf w d + (1 + Z.of_nat n)) by lia.
    rewrite <- (Zplus_mod_idemp_l (Queries.positionOf w d) (1 + Z.of_nat n)).
    f_equal. lia.
Qed.

Context `{Queries.Source}.

(** X16. Whatever numbers the random source yields, a spell-check query
    that is returned asks for the word at the cursor as it stands in the
    list: the random edits never reach the query. The word is not empty,
    and the cursor is left where [Simple1WordQuery] would leave it. *)
Theorem Simple1WordSpellCheck_uses_the_original_word (d d' : Queries.Core)
    (qi qi' : Queries.RediSearch) (n n' : nat) :
  Queries.Simple1WordSpellCheck d qi n = Queries.Done (d', qi', n') ->
  exists oneWord qw,
    Queries.Simple1WordQuery d qi = Queries.Done (d', qw)
    /\ Queries.RedisQuery qw = String.append "FT.SEARCH," oneWord
    /\ Queries.RedisQuery qi'
       = String.append "FT.SPELLCHECK," (String.append oneWord ",DISTANCE,1")
    /\ 0 < RediSearch.strlen oneWord.
Proof.
  unfold Queries.Simple1WordSpellCheck, Queries.Simple1WordQuery.
  destruct (Queries.index _ _) as [oneWord |]; [| discriminate].
  unfold Queries.gbind at 1.
  destruct (Queries.Intn _ n) as [[numberChanges n1] | msg] eqn:Hdraw;
    [| discriminate].
  unfold Queries.gbind at 1.
  match goal with
  | |- context [match ?g n1 with _ => _ end] =>
      destruct (g n1) as [[newWord n2] | msg]; [| discriminate]
  end.
  unfold Queries.gret. intros [= <- <- <-].
  exists oneWord. eexists. split; [reflexivity |].
  cbn [Queries.RedisQuery Queries.fillInQuery]. split; [reflexivity |].
  split; [reflexivity |].
  unfold RediSearch.strlen in *.
  destruct oneWord as [| a rest]; [| cbn [String.length]; lia].
  vm_compute in Hdraw. discriminate.
Qed.

(** X17. The swap of adjacent characters slices past the end of the word
    when it falls on the last position: for a word of at least four
    characters, if the first draw asks for one change or more, the second
    picks the last position and the third the swap, the spell-check query
    panics. *)
Theorem Simple1WordSpellCheck_swap_at_end_panics (d : Queries.Core)
    (qi : Queries.RediSearch) (oneWord : string) (changes : Z) :
  Queries.index (Queries.OneWordQueries d)
    (if Queries.OneWordQueryIndex d <=? Queries.OneWordQueryIndexPosition d
     then 0 else Queries.OneWordQueryIndexPosition d) = Some oneWord ->
  1 < RediSearch.strlen oneWord - 2 ->
  Queries.Intn
    (Queries.toInt (Queries.Min (Float64.of_int (RediSearch.strlen oneWord))
                                (Float64.of_int 4))) 0%nat
    = Queries.Done (changes, 1%nat) ->
  1 <= changes ->
  Queries.source 1 mod (RediSearch.strlen oneWord - 1) = RediSearch.strlen oneWord - 2 ->
  Queries.source 2 mod 4 = 3 ->
  Queries.Simple1WordSpellCheck d qi 0%nat = Queries.Panic "slice bounds out of range".
Proof.
  intros Hword Hlong Hdraw Hchanges Hpos Hswap.
  unfold Queries.Simple1WordSpellCheck.
  assert (Hword' :
    Queries.index
      (Queries.OneWordQueries
         (if Queries.OneWordQueryIndex d <=? Queries.OneWordQueryIndexPosition d
          then Queries.set_OneWordQueryIndexPosition 0 d else d))
      (Queries.OneWordQueryIndexPosition
         (if Queries.OneWordQueryIndex d <=? Queries.OneWordQueryIndexPosition d
          then Queries.set_OneWordQueryIndexPosition 0 d else d)) = Some oneWord).
  { destruct (Queries.OneWordQueryIndex d <=? Queries.OneWordQueryIndexPosition d);
      exact Hword. }
  rewrite Hword'. unfold Queries.gbind at 1. rewrite Hdraw.
  unfold Queries.gbind at 1.
  destruct (Z.ltb_spec 1 (RediSearch.strlen oneWord - 2)); [| lia].
  destruct (Z.to_nat changes) as [| m] eqn:Hm; [lia |].
  cbn [Queries.edits]. unfold Queries.gbind at 1. unfold Queries.edit.
  unfold Queries.gbind at 1. unfold Queries.Intn at 1.
  destruct (Z.leb_spec (RediSearch.strlen oneWord - 1) 0); [lia |].
  rewrite Hpos. unfold Queries.gbind at 1. unfold Queries.Intn at 1.
  cbn [Z.leb Z.compare]. rewrite Hswap. cbn [Z.eqb Pos.eqb].
  unfold Queries.slice.
  replace (RediSearch.strlen oneWord - 2 + 1 - 1)
    with (RediSearch.strlen oneWord - 2) by lia.
  replace (RediSearch.strlen oneWord - 2 + 1 + 1)
    with (RediSearch.strlen oneWord) by lia.
  replace (RediSearch.strlen oneWord - 2 + 1)
    with (RediSearch.strlen oneWord - 1) by lia.
  repeat match goal with
         | |- context [?a <=? ?b] => destruct (Z.leb_spec a b); try lia
         end;
    cbn [andb]; unfold Queries.gbind, Queries.gret, Queries.gpanic; reflexivity.
Qed.

End QueryFacts.

(* ===================================================================== *)
(** * The worker loop over whole batches *)

Section WorkFacts.

Context `{Hdr.Library}.


Context `{RediSearch.Options} `{RediSearch.Outside}.

(** X19. When every batch has fewer rows than [pipeline], a worker on
    the RediSearch processor that comes to the end of its batches has
    measured nothing: the runner is as it was and no round trip has gone
    to the target, with [doLoad] set or not. *)
Theorem work_measures_nothing_on_short_batches
    (batches : list RediSearch.eventsBatch) :
  forall (l l' : Load.BenchmarkRunner) (proc proc' : RediSearch.State)
         (acks acks' : Z),
  Forall (fun b => GoInt.len (RediSearch.rows b) < RediSearch.pipeline) batches ->
  Load.work l proc acks batches = Some (l', proc', acks') ->
  l' = l /\ RediSearch.roundTrips proc' = RediSearch.roundTrips proc.
Proof.
  induction batches as [| b rest IH]; intros l l' proc proc' acks acks' Hshort Hwork;
    cbn [Load.work] in Hwork.
  - injection Hwork as <- <- _. split; reflexivity.
  - apply Forall_cons in Hshort. destruct Hshort as [Hb Hrest].
    cbn [Load.ProcessBatch GetProcessor] in Hwork.
    destruct (Load.doLoad l).
    + pose proof (short_batch_outcome b proc Hb) as Hout.
      destruct (RediSearch.ProcessBatch b true proc)
        as [[outstat events] proc1 | proc1 | msg]; try discriminate.
      destruct Hout as [Hnone Htrips]. rewrite Hnone in Hwork.
      destruct (IH _ _ _ _ _ _ Hrest Hwork) as [-> ->].
      split; [reflexivity | exact Htrips].
    + rewrite ProcessBatch_doLoad_false in Hwork.
      destruct (IH _ _ _ _ _ _ Hrest Hwork) as [-> ->].
      split; reflexivity.
Qed.

End WorkFacts.

(* ===================================================================== *)
(** * The generator, the loader and the worker at the sample inputs *)

(** Two one-word queries in use: the third call is back at the first. *)
Lemma generators_go_round_at_sample :
  exists d' qi' words,
    Queries.nthCall Queries.Simple1WordQuery 2 Queries.sampleCore
      Queries.GenerateEmptyQuery = Queries.Done (d', qi')
    /\ Queries.index ["abcd"; "wikipedia"; "unused"] ((0 + 2) mod 2) = Some words
    /\ Queries.RedisQuery qi' = String.append "FT.SEARCH," words.
Proof.
  refine (@generators_go_round Queries.OneWord 2 Queries.sampleCore
            Queries.GenerateEmptyQuery _ _).
  - vm_compute. split; [reflexivity | discriminate].
  - vm_compute. split; discriminate.
Defined.

(** With a source that always yields two, the word [abcd] is edited twice
    and the query still asks for [abcd]. *)
Lemma spell_check_at_sample :
  match @Queries.Simple1WordSpellCheck Queries.steady Queries.sampleCore
          Queries.GenerateEmptyQuery 0%nat with
  | Queries.Done (d', qi', n') =>
      exists oneWord qw,
        Queries.Simple1WordQuery Queries.sampleCore Queries.GenerateEmptyQuery
          = Queries.Done (d', qw)
        /\ Queries.RedisQuery qw = String.append "FT.SEARCH," oneWord
        /\ Queries.RedisQuery qi'
           = String.append "FT.SPELLCHECK," (String.append oneWord ",DISTANCE,1")
        /\ 0 < RediSearch.strlen oneWord
  | Queries.Panic _ => False
  end.
Proof.
  destruct (@Queries.Simple1WordSpellCheck Queries.steady Queries.sampleCore
              Queries.GenerateEmptyQuery 0%nat)
    as [[[d' qi'] n'] | msg] eqn:Hrun; [| vm_compute in Hrun; discriminate].
  exact (@Simple1WordSpellCheck_uses_the_original_word Queries.steady
           Queries.sampleCore d' Queries.GenerateEmptyQuery qi' 0%nat n' Hrun).
Defined.

(** With a source that always yields the greatest number of the range,
    the word [abcd] makes the generator panic. *)
Lemma swap_at_end_at_sample :
  @Queries.Simple1WordSpellCheck Queries.greatest Queries.sampleCore
    Queries.GenerateEmptyQuery 0%nat
  = Queries.Panic "slice bounds out of range".
Proof.
  refine (@Simple1WordSpellCheck_swap_at_end_panics Queries.greatest
            Queries.sampleCore Queries.GenerateEmptyQuery "abcd" 3
            eq_refl _ eq_refl _ eq_refl eq_refl).
  - vm_compute. reflexivity.
  - vm_compute. discriminate.
Defined.

(** A worker on three batches of three rows with a threshold of a
    hundred: three acknowledgements, nothing measured. *)
Lemma short_batches_at_sample :
  exists proc',
    @Load.work Sample.rangeLibrary _ _
      (@GetProcessor (Sample.options 100 true 0) Sample.healthy)
      Sample.idle Sample.connected 0 [Sample.batch; Sample.batch; Sample.batch]
    = Some (Sample.idle, proc', 3)
    /\ RediSearch.roundTrips proc' = [].
Proof.
  destruct (@Load.work Sample.rangeLibrary _ _
              (@GetProcessor (Sample.options 100 true 0) Sample.healthy)
              Sample.idle Sample.connected 0
              [Sample.batch; Sample.batch; Sample.batch])
    as [[[l' proc'] acks'] |] eqn:Hwork; [| vm_compute in Hwork; discriminate].
  exists proc'.
  destruct (@work_measures_nothing_on_short_batches Sample.rangeLibrary
              (Sample.options 100 true 0) Sample.healthy
              [Sample.batch; Sample.batch; Sample.batch]
              Sample.idle l' Sample.connected proc' 0 acks'
              ltac:(repeat constructor) Hwork) as [-> Htrips].
  split; [| exact Htrips].
  assert (Hacks : acks' = 3) by (vm_compute in Hwork; congruence).
  rewrite Hacks. reflexivity.
Defined.


(** The loader on the sample batch with a server that counts bytes. *)
Lemma loader_at_sample :
  @Loader.ProcessBatch Loader.byteCounting Sample.batch true Loader.idle
  = (24 + 24 + 27, 3, {| RediSearch.rows := [] |},
     {| Loader.wire :=
          [Loader.Got; Loader.Sent "WRITE,q1,FT.ADD,idx,doc1";
           Loader.Sent "WRITE,q2,FT.ADD,idx,doc2";
           Loader.Sent "READ,q3,FT.SEARCH,idx,hello";
           Loader.Closed; Loader.Closed];
        Loader.sent := 3;
        Loader.ePool := [{| RediSearch.rows := [] |}] |}).
Proof. vm_compute. reflexivity. Qed.

(* ===================================================================== *)
(** * Setting up the database and the workers *)

Section SetupFacts.

Context `{Setup.DBCreator}.

(** X20. [useDBCreator] touches the creator only when the run loads, and
    then starts with [Init] and the existence check. When the database
    exists and abort-on-exist is asked for, it panics after these two
    calls. It removes a database only if that database exists, creation
    is asked for and abort-on-exist is not; it creates one only if
    creation is asked for, and after a removal only if the removal gave
    no error. *)
Theorem useDBCreator_calls (l : Setup.Flags) :
  let calls := Setup.callsOf (Setup.useDBCreator l) in
  let name := Setup.dbName l in
  (Setup.doLoad l = false -> Setup.useDBCreator l = Setup.Ready [] false)
  /\ (Setup.doLoad l = true ->
      exists rest, calls = Setup.CallInit :: Setup.CallDBExists name :: rest)
  /\ (Setup.doLoad l = true -> Setup.DBExists name = true ->
      Setup.doAbortOnExist l = true ->
      exists msg,
        Setup.useDBCreator l
        = Setup.Panicked [Setup.CallInit; Setup.CallDBExists name] msg)
  /\ (Setup.CallRemoveOldDB name ∈ calls ->
      Setup.DBExists name = true /\ Setup.doCreateDB l = true
      /\ Setup.doAbortOnExist l = false)
  /\ (Setup.CallCreateDB name ∈ calls ->
      Setup.doCreateDB l = true
      /\ (Setup.DBExists name = true -> Setup.RemoveOldDB name = None)).
Proof.
  cbv zeta. unfold Setup.useDBCreator.
  destruct (Setup.doLoad l), (Setup.DBExists (Setup.dbName l)),
    (Setup.doAbortOnExist l), (Setup.doCreateDB l),
    (Setup.RemoveOldDB (Setup.dbName l)), (Setup.CreateDB (Setup.dbName l)),
    Setup.isCloser, Setup.isPost;
    cbn [andb app Setup.callsOf];
    (split; [intros; first [reflexivity | discriminate] |]);
    (split; [intros; first [eexists; reflexivity | discriminate] |]);
    (split; [intros; first [eexists; reflexivity | discriminate] |]);
    (split; intros Hin;
     repeat (apply elem_of_cons in Hin; destruct Hin as [Hin | Hin];
             [try discriminate |]);
     try (apply elem_of_nil in Hin; contradiction);
     repeat split; intros; first [reflexivity | discriminate]).
Qed.

End SetupFacts.

(** X21. Whenever [createChannels] returns, for a worker count that is
    not negative, there are no more channels than workers, so that the
    rule [i % len(channels)] of [RunBenchmark] never divides by zero for
    a worker and leaves no channel without a worker. *)
Theorem every_channel_has_a_worker {B : Type} (l : Load.BenchmarkRunner)
    (workQueues : Z) (channels : list (Load.duplexChannel B)) :
  0 <= Load.workers l ->
  0 <= workQueues ->
  Load.createChannels l workQueues = Some channels ->
  GoInt.len channels <= Load.workers l
  /\ GoInt.len channels
     = (if workQueues =? Load.WorkerPerQueue then Load.workers l else workQueues)
  /\ (forall i, 0 <= i < Load.workers l ->
        exists j, Setup.workerChannel i (GoInt.len channels) = Some j
                  /\ 0 <= j < GoInt.len channels)
  /\ (forall j, 0 <= j < GoInt.len channels ->
        exists i, 0 <= i < Load.workers l
                  /\ Setup.workerChannel i (GoInt.len channels) = Some j).
Proof.
  intros Hworkers Hqueues. unfold Load.createChannels, GoInt.len.
  intros Hmade.
  assert (Hlen : Z.of_nat (length channels)
                 = (if workQueues =? Load.WorkerPerQueue
                    then Load.workers l else workQueues)
                 /\ Z.of_nat (length channels) <= Load.workers l).
  { destruct (Z.eqb_spec workQueues Load.WorkerPerQueue).
    - injection Hmade as <-. rewrite length_replicate. lia.
    - destruct (Z.ltb_spec (Load.workers l) workQueues); [discriminate |].
      injection Hmade as <-. rewrite length_replicate. lia. }
  destruct Hlen as [Hlen Hle].
  assert (Hpos : 0 < Load.workers l -> 0 < Z.of_nat (length channels)).
  { revert Hlen. unfold Load.WorkerPerQueue.
    destruct (Z.eqb_spec workQueues 0); lia. }
  split; [exact Hle | split; [exact Hlen | split]].
  - intros i Hi. unfold Setup.workerChannel.
    destruct (Z.eqb_spec (Z.of_nat (length channels)) 0) as [Hz | Hnz]; [lia |].
    eexists. split; [reflexivity |].
    rewrite Z.rem_mod_nonneg by lia. apply Z.mod_pos_bound. lia.
  - intros j Hj. exists j. split; [lia |]. unfold Setup.workerChannel.
    destruct (Z.eqb_spec (Z.of_nat (length channels)) 0) as [Hz | Hnz]; [lia |].
    f_equal. apply Z.rem_small. lia.
Qed.

(** Eight workers on three queues: three channels, each with a worker. *)
Lemma every_channel_has_a_worker_at_sample :
  GoInt.len (replicate 3 (Load.newDuplexChannel (B := Z) 3)) <= 8
  /\ GoInt.len (replicate 3 (Load.newDuplexChannel (B := Z) 3)) = 3
  /\ (forall i, 0 <= i < 8 ->
        exists j, Setup.workerChannel i 3 = Some j /\ 0 <= j < 3)
  /\ (forall j, 0 <= j < 3 ->
        exists i, 0 <= i < 8 /\ Setup.workerChannel i 3 = Some j).
Proof.
  refine (@every_channel_has_a_worker Z Sample.idle8 3 _ _ _ eq_refl).
  - vm_compute. discriminate.
  - vm_compute. discriminate.
Defined.

(** The database exists and abort-on-exist is not asked for: it is
    removed and created anew. *)
Lemma useDBCreator_at_sample :
  @Setup.useDBCreator Setup.present (Setup.flags true false)
  = Setup.Ready
      [Setup.CallInit; Setup.CallDBExists "idx1"; Setup.CallRemoveOldDB "idx1";
       Setup.CallCreateDB "idx1"] true.
Proof. reflexivity. Qed.
